(** * ESP32 power-button simulator: debouncer, burst classifier, dispatcher

    A shallow embedding of the three Arduino sketches of the repository

    - [Unconditional]  (src/unnamed/part_000): debounce, then press on every
      stable change;
    - [BurstAware]     (src/chris.ino, lines 1-190): as above, plus a held
      "hard shutdown" when 3..6 stable changes fall in one 2 s window;
    - [StateVerified]  (src/chris.ino, lines 192-339): press only when the
      power LED says the PC is not yet in the requested state;

    and the properties of their signal-conditioning pipeline.

    Modelling conventions.
    - [unsigned long] (32 bits on the ESP32) is a [Z] in [0, 2^32); the
      subtraction [a - b] of the sketches is [ulong_sub], with its wrap-around.
    - [int] (32 bits) is a [Z]; [rapidChangeCount++] is [int_incr], two's
      complement wrap-around written out.
    - [bool] levels: [HIGH = true], [LOW = false].
    - The sketches are sequences of calls into the Arduino core. They are
      embedded in a state monad over a [World]: the sketch's globals, a
      millisecond clock, the pin-mode and output-latch tables, and the log of
      every call that has an effect, in program order.
    - Time: the clock advances by exactly [ms] in [delay ms] and not at all
      elsewhere; [millis] reads it modulo 2^32. The time the statements
      themselves take is [elapse], which the reachable states allow between
      any two passes of [loop].
    - The hold of [simulateHardShutdown] is the one loop of the sketches; it
      is unrolled with fuel, and [hold_loop_exits] shows that it ends because
      its condition has become false.
    - Inputs: [digitalRead pin] returns what the environment [env] presents on
      [pin] at the current clock value. The state-verified [loop] reads two
      inputs in one pass; [loop_with_lag] is that pass with the time between
      the two reads made explicit. *)

From Stdlib Require Import ZArith List Bool Lia String.
From stdpp Require Import base gmap.
Import ListNotations.

Open Scope Z_scope.

(** ** Machine arithmetic *)

Definition ULONG_MODULUS : Z := 2 ^ 32.

Definition wrap_ulong (z : Z) : Z := z mod ULONG_MODULUS.

(** [a - b] on [unsigned long]. *)
Definition ulong_sub (a b : Z) : Z := (a - b) mod ULONG_MODULUS.

Definition INT_MAX : Z := 2 ^ 31 - 1.
Definition INT_MIN : Z := - 2 ^ 31.

Definition wrap_int (z : Z) : Z := (z + 2 ^ 31) mod 2 ^ 32 - 2 ^ 31.

(** [n++] on [int]. *)
Definition int_incr (n : Z) : Z := wrap_int (n + 1).

(** ** Arduino core: levels, pin modes, the observable log *)

Definition HIGH : bool := true.
Definition LOW : bool := false.

Inductive PinMode : Set := INPUT | OUTPUT | INPUT_PULLUP.

Inductive Event : Type :=
| EvSerialBegin (baud : Z)
| EvPrint (s : string)
| EvPrintln (s : string)
| EvPrintlnInt (n : Z)
| EvPinMode (pin : Z) (mode : PinMode)
| EvDigitalWrite (pin : Z) (level : bool)
| EvDelay (ms : Z).

(** What the outside world presents on an input pin at a given clock value. *)
Definition Env : Type := Z -> Z -> bool.

Record World (G : Type) : Type := mkWorld {
  globals   : G;
  clock     : Z;
  pinModes  : gmap Z PinMode;
  pinLevels : gmap Z bool;
  trace     : list Event
}.

Arguments mkWorld {G} _ _ _ _ _.
Arguments globals {G} _.
Arguments clock {G} _.
Arguments pinModes {G} _.
Arguments pinLevels {G} _.
Arguments trace {G} _.

(** The board at reset: the globals hold their initialisers, no pin is
    configured, nothing has been logged. *)
Definition boot {G : Type} (g0 : G) : World G := mkWorld g0 0 ∅ ∅ [].

(** ** The state monad of a sketch *)

Definition M (G A : Type) : Type := World G -> A * World G.

Definition ret {G A : Type} (a : A) : M G A := fun w => (a, w).

Definition bind {G A B : Type} (c : M G A) (k : A -> M G B) : M G B :=
  fun w => let (a, w') := c w in k a w'.

Declare Scope sketch_scope.
Delimit Scope sketch_scope with sketch.
Bind Scope sketch_scope with M.

Notation "x <- c ;; k" := (bind c (fun x => k))
  (at level 100, c at next level, right associativity) : sketch_scope.
Notation "c ;; k" := (bind c (fun _ => k))
  (at level 100, right associativity) : sketch_scope.

Open Scope sketch_scope.

(** Run a command for its effect. *)
Definition exec {G A : Type} (c : M G A) (w : World G) : World G := snd (c w).

(** [if (b) { c }] *)
Definition when {G : Type} (b : bool) (c : M G unit) : M G unit :=
  if b then c else ret tt.

Definition log {G : Type} (e : Event) : M G unit :=
  fun w => (tt, mkWorld (globals w) (clock w) (pinModes w) (pinLevels w)
                        (trace w ++ [e])).

Definition millis {G : Type} : M G Z :=
  fun w => (wrap_ulong (clock w), w).

Definition delay {G : Type} (ms : Z) : M G unit :=
  fun w => (tt, mkWorld (globals w) (clock w + ms) (pinModes w) (pinLevels w)
                        (trace w ++ [EvDelay ms])).

Definition pinMode {G : Type} (pin : Z) (mode : PinMode) : M G unit :=
  fun w => (tt, mkWorld (globals w) (clock w) (<[pin := mode]> (pinModes w))
                        (pinLevels w) (trace w ++ [EvPinMode pin mode])).

Definition digitalWrite {G : Type} (pin : Z) (level : bool) : M G unit :=
  fun w => (tt, mkWorld (globals w) (clock w) (pinModes w)
                        (<[pin := level]> (pinLevels w))
                        (trace w ++ [EvDigitalWrite pin level])).

Definition digitalRead {G : Type} (env : Env) (pin : Z) : M G bool :=
  fun w => (env pin (clock w), w).

Definition Serial_begin {G : Type} (baud : Z) : M G unit := log (EvSerialBegin baud).
Definition Serial_print {G : Type} (s : string) : M G unit := log (EvPrint s).
Definition Serial_println {G : Type} (s : string) : M G unit := log (EvPrintln s).
Definition Serial_println_int {G : Type} (n : Z) : M G unit := log (EvPrintlnInt n).

(** Reading and assigning the sketch's global variables. *)
Definition load {G A : Type} (field : G -> A) : M G A :=
  fun w => (field (globals w), w).

Definition store {G : Type} (upd : G -> G) : M G unit :=
  fun w => (tt, mkWorld (upd (globals w)) (clock w) (pinModes w) (pinLevels w)
                        (trace w)).

(** [a != b] on [bool]. *)
Definition bool_neq (a b : bool) : bool := negb (Bool.eqb a b).

(** [while (cond) { body }], unrolled at most [fuel] times. The one loop of
    the sketches is the hold of [simulateHardShutdown]; [hold_loop_exits]
    below shows that its fuel is never what ends it. *)
Fixpoint while_loop {G : Type} (fuel : nat) (cond : M G bool) (body : M G unit)
  : M G unit :=
  match fuel with
  | O => ret tt
  | S fuel' =>
      b <- cond ;;
      if b then (body ;; while_loop fuel' cond body) else ret tt
  end.

(** ** Pin assignments and timing constants (the same in all three sketches,
    apart from [POWER_LED_PIN], which only the state-verified one has) *)

Definition TRIGGER_PIN : Z := 32.
Definition POWER_LED_PIN : Z := 19.
Definition POWER_BTN_PIN : Z := 4.
Definition LED_TRIGGER_STATE : Z := 2.
Definition LED_PRESS_ACTIVE : Z := 18.

Definition DEBOUNCE_MS : Z := 50.

(** ** [simulatePowerButtonPress]

    The three sketches carry the same function, statement for statement
    (chris.ino 115-133 and 319-339, part_000 135-155). *)

Definition simulatePowerButtonPress {G : Type} : M G unit :=
  Serial_println "Simulating power button press..." ;;
  digitalWrite LED_PRESS_ACTIVE HIGH ;;
  pinMode POWER_BTN_PIN OUTPUT ;;
  digitalWrite POWER_BTN_PIN LOW ;;
  delay 200 ;;
  pinMode POWER_BTN_PIN INPUT ;;
  digitalWrite LED_PRESS_ACTIVE LOW ;;
  Serial_println "Released power button.".

(** Time passing with nothing done: what the model's clock does not count
    (the time the statements themselves take). *)
Definition elapse {G : Type} (d : Z) (w : World G) : World G :=
  mkWorld (globals w) (clock w + d) (pinModes w) (pinLevels w) (trace w).

(** The power-button line is high-impedance and the press indicator is off. *)
Definition line_released {G : Type} (w : World G) : Prop :=
  pinModes w !! POWER_BTN_PIN = Some INPUT /\
  pinLevels w !! LED_PRESS_ACTIVE = Some LOW.

(** ** The debouncer as the three loops run it

    The first half of each [loop] below (chris.ino 75-88 and 266-273,
    part_000 98-111) is the same computation on the three debounce globals,
    the raw reading and the value of [millis]. [tick] is that computation;
    the [loop_spec] lemmas show that each [loop] performs it. *)

Module Debouncer.

Record State : Type := mkState {
  lastReading        : bool;
  stableTriggerState : bool;
  lastChangeTime     : Z
}.

(** Step 4 of [setup]. *)
Definition init (reading : bool) (now : Z) : State := mkState reading reading now.

Definition tick (s : State) (currentReading : bool) (now : Z)
  : State * option bool :=
  let s1 :=
    if bool_neq currentReading (lastReading s)
    then mkState currentReading (stableTriggerState s) now
    else s in
  if ulong_sub now (lastChangeTime s1) >? DEBOUNCE_MS then
    if bool_neq currentReading (stableTriggerState s1) then
      (mkState (lastReading s1) currentReading (lastChangeTime s1),
       Some currentReading)
    else (s1, None)
  else (s1, None).

(** A run over polling ticks [(reading, time)]; the time is the real one, of
    which [millis] shows the low 32 bits. Each stable-change event is
    reported with the time of the tick that committed it. *)
Fixpoint run (s : State) (ticks : list (bool * Z)) : State * list (Z * bool) :=
  match ticks with
  | [] => (s, [])
  | (r, t) :: ticks' =>
      let (s1, ev) := tick s r (wrap_ulong t) in
      let (s2, evs) := run s1 ticks' in
      (s2, match ev with Some v => (t, v) :: evs | None => evs end)
  end.

End Debouncer.

(** ** Sketch 1: press on every stable change (src/unnamed/part_000) *)

Module Unconditional.

Record Globals : Type := mkGlobals {
  lastReading        : bool;
  stableTriggerState : bool;
  lastChangeTime     : Z
}.

Definition initial_globals : Globals := mkGlobals HIGH HIGH 0.

Definition set_lastReading (v : bool) (g : Globals) : Globals :=
  mkGlobals v (stableTriggerState g) (lastChangeTime g).
Definition set_stableTriggerState (v : bool) (g : Globals) : Globals :=
  mkGlobals (lastReading g) v (lastChangeTime g).
Definition set_lastChangeTime (v : Z) (g : Globals) : Globals :=
  mkGlobals (lastReading g) (stableTriggerState g) v.

Definition setup (env : Env) : M Globals unit :=
  Serial_begin 115200 ;;
  delay 1000 ;;
  Serial_println "=== ESP32 Power Button Simulator (Debouncing + LEDs) ===" ;;
  pinMode TRIGGER_PIN INPUT_PULLUP ;;
  pinMode POWER_BTN_PIN INPUT ;;
  pinMode LED_TRIGGER_STATE OUTPUT ;;
  pinMode LED_PRESS_ACTIVE OUTPUT ;;
  digitalWrite LED_TRIGGER_STATE LOW ;;
  digitalWrite LED_PRESS_ACTIVE LOW ;;
  r <- digitalRead env TRIGGER_PIN ;;
  store (set_lastReading r) ;;
  lr <- load lastReading ;;
  store (set_stableTriggerState lr) ;;
  t <- millis ;;
  store (set_lastChangeTime t) ;;
  st <- load stableTriggerState ;;
  digitalWrite LED_TRIGGER_STATE (if st then HIGH else LOW).

Definition loop (env : Env) : M Globals unit :=
  currentReading <- digitalRead env TRIGGER_PIN ;;
  now <- millis ;;
  lr <- load lastReading ;;
  when (bool_neq currentReading lr) (
    store (set_lastChangeTime now) ;;
    store (set_lastReading currentReading)) ;;
  lct <- load lastChangeTime ;;
  when (ulong_sub now lct >? DEBOUNCE_MS) (
    st <- load stableTriggerState ;;
    when (bool_neq currentReading st) (
      store (set_stableTriggerState currentReading) ;;
      Serial_print "New stable trigger state: " ;;
      st' <- load stableTriggerState ;;
      Serial_println (if st' then "HIGH" else "LOW") ;;
      st'' <- load stableTriggerState ;;
      digitalWrite LED_TRIGGER_STATE (if st'' then HIGH else LOW) ;;
      simulatePowerButtonPress)) ;;
  delay 10.

Definition debouncer (g : Globals) : Debouncer.State :=
  Debouncer.mkState (lastReading g) (stableTriggerState g) (lastChangeTime g).

(** The worlds the sketch can be in between two statements of [main]:
    after [setup], after each further [loop], with any time in between. *)
Inductive reachable (env : Env) : World Globals -> Prop :=
| reach_setup : reachable env (exec (setup env) (boot initial_globals))
| reach_loop w : reachable env w -> reachable env (exec (loop env) w)
| reach_elapse w d : reachable env w -> 0 <= d -> reachable env (elapse d w).

End Unconditional.

(** ** Sketch 2: burst-aware dispatch (src/chris.ino, lines 1-190) *)

Module BurstAware.

Record Globals : Type := mkGlobals {
  lastReading         : bool;
  stableTriggerState  : bool;
  lastChangeTime      : Z;
  rapidChangeCount    : Z;
  firstChangeInWindow : Z
}.

Definition initial_globals : Globals := mkGlobals HIGH HIGH 0 0 0.

Definition set_lastReading (v : bool) (g : Globals) : Globals :=
  mkGlobals v (stableTriggerState g) (lastChangeTime g)
            (rapidChangeCount g) (firstChangeInWindow g).
Definition set_stableTriggerState (v : bool) (g : Globals) : Globals :=
  mkGlobals (lastReading g) v (lastChangeTime g)
            (rapidChangeCount g) (firstChangeInWindow g).
Definition set_lastChangeTime (v : Z) (g : Globals) : Globals :=
  mkGlobals (lastReading g) (stableTriggerState g) v
            (rapidChangeCount g) (firstChangeInWindow g).
Definition set_rapidChangeCount (v : Z) (g : Globals) : Globals :=
  mkGlobals (lastReading g) (stableTriggerState g) (lastChangeTime g)
            v (firstChangeInWindow g).
Definition set_firstChangeInWindow (v : Z) (g : Globals) : Globals :=
  mkGlobals (lastReading g) (stableTriggerState g) (lastChangeTime g)
            (rapidChangeCount g) v.

Definition RAPID_CHANGE_WINDOW_MS : Z := 2000.
Definition MIN_RAPID_CHANGES_TRIGGER : Z := 3.
Definition MAX_RAPID_CHANGES_TRIGGER : Z := 6.

(** Bound on the iterations of the hold loop: 4000 ms in steps of 50 ms, and
    the test that ends it. *)
Definition HOLD_FUEL : nat := 81.

(** [millis() - shutdownStart < 4000], the condition of the hold loop. *)
Definition hold_cond (shutdownStart : Z) : M Globals bool :=
  t <- millis ;; ret (ulong_sub t shutdownStart <? 4000).

Definition simulateHardShutdown : M Globals unit :=
  digitalWrite LED_PRESS_ACTIVE HIGH ;;
  pinMode POWER_BTN_PIN OUTPUT ;;
  digitalWrite POWER_BTN_PIN LOW ;;
  shutdownStart <- millis ;;
  while_loop HOLD_FUEL (hold_cond shutdownStart) (delay 50) ;;
  pinMode POWER_BTN_PIN INPUT ;;
  digitalWrite LED_PRESS_ACTIVE LOW ;;
  Serial_println "Hard shutdown complete.".

(** [trackRapidChanges], with the upper threshold as a parameter so that its
    influence can be stated; the sketch's function is the instance at
    [MAX_RAPID_CHANGES_TRIGGER]. *)
Definition trackRapidChanges_upto (max_trigger : Z) : M Globals unit :=
  now <- millis ;;
  first <- load firstChangeInWindow ;;
  (if ulong_sub now first >? RAPID_CHANGE_WINDOW_MS then
     store (set_rapidChangeCount 1) ;;
     store (set_firstChangeInWindow now)
   else
     c <- load rapidChangeCount ;;
     store (set_rapidChangeCount (int_incr c))) ;;
  Serial_print "Rapid changes so far: " ;;
  c <- load rapidChangeCount ;;
  Serial_println_int c ;;
  c' <- load rapidChangeCount ;;
  when ((MIN_RAPID_CHANGES_TRIGGER <=? c') && (c' <=? max_trigger)) (
    Serial_println "TRIGGERING HARD SHUTDOWN (rapid toggles detected)..." ;;
    simulateHardShutdown ;;
    store (set_rapidChangeCount 0)).

Definition trackRapidChanges : M Globals unit :=
  trackRapidChanges_upto MAX_RAPID_CHANGES_TRIGGER.

Definition setup (env : Env) : M Globals unit :=
  Serial_begin 115200 ;;
  delay 1000 ;;
  Serial_println
    "=== ESP32 Power Button Simulator (Debouncing + LEDs + Rapid Switching) ===" ;;
  pinMode TRIGGER_PIN INPUT_PULLUP ;;
  pinMode POWER_BTN_PIN INPUT ;;
  pinMode LED_TRIGGER_STATE OUTPUT ;;
  pinMode LED_PRESS_ACTIVE OUTPUT ;;
  digitalWrite LED_TRIGGER_STATE LOW ;;
  digitalWrite LED_PRESS_ACTIVE LOW ;;
  r <- digitalRead env TRIGGER_PIN ;;
  store (set_lastReading r) ;;
  lr <- load lastReading ;;
  store (set_stableTriggerState lr) ;;
  t <- millis ;;
  store (set_lastChangeTime t) ;;
  st <- load stableTriggerState ;;
  digitalWrite LED_TRIGGER_STATE (if st then HIGH else LOW).

Definition loop_upto (max_trigger : Z) (env : Env) : M Globals unit :=
  currentReading <- digitalRead env TRIGGER_PIN ;;
  now <- millis ;;
  lr <- load lastReading ;;
  when (bool_neq currentReading lr) (
    store (set_lastChangeTime now) ;;
    store (set_lastReading currentReading)) ;;
  lct <- load lastChangeTime ;;
  when (ulong_sub now lct >? DEBOUNCE_MS) (
    st <- load stableTriggerState ;;
    when (bool_neq currentReading st) (
      store (set_stableTriggerState currentReading) ;;
      Serial_print "New stable trigger state: " ;;
      st' <- load stableTriggerState ;;
      Serial_println (if st' then "HIGH" else "LOW") ;;
      st'' <- load stableTriggerState ;;
      digitalWrite LED_TRIGGER_STATE (if st'' then HIGH else LOW) ;;
      trackRapidChanges_upto max_trigger ;;
      simulatePowerButtonPress)) ;;
  delay 10.

Definition loop (env : Env) : M Globals unit :=
  loop_upto MAX_RAPID_CHANGES_TRIGGER env.

Definition debouncer (g : Globals) : Debouncer.State :=
  Debouncer.mkState (lastReading g) (stableTriggerState g) (lastChangeTime g).

Inductive reachable (env : Env) : World Globals -> Prop :=
| reach_setup : reachable env (exec (setup env) (boot initial_globals))
| reach_loop w : reachable env w -> reachable env (exec (loop env) w)
| reach_elapse w d : reachable env w -> 0 <= d -> reachable env (elapse d w).

End BurstAware.

(** ** Sketch 3: state-verified dispatch (src/chris.ino, lines 192-339) *)

Module StateVerified.

Record Globals : Type := mkGlobals {
  lastTriggerReading : bool;
  stableTriggerState : bool;
  lastChangeTime     : Z
}.

Definition initial_globals : Globals := mkGlobals HIGH HIGH 0.

Definition set_lastTriggerReading (v : bool) (g : Globals) : Globals :=
  mkGlobals v (stableTriggerState g) (lastChangeTime g).
Definition set_stableTriggerState (v : bool) (g : Globals) : Globals :=
  mkGlobals (lastTriggerReading g) v (lastChangeTime g).
Definition set_lastChangeTime (v : Z) (g : Globals) : Globals :=
  mkGlobals (lastTriggerReading g) (stableTriggerState g) v.

Definition handleTriggerChange (env : Env) (newTriggerState : bool)
  : M Globals unit :=
  powerLEDState <- digitalRead env POWER_LED_PIN ;;
  if Bool.eqb newTriggerState HIGH then
    if negb powerLEDState then
      simulatePowerButtonPress
    else
      Serial_println "PC is already ON, no action needed."
  else
    if powerLEDState then
      simulatePowerButtonPress
    else
      Serial_println "PC is already OFF, no action needed.".

Definition setup (env : Env) : M Globals unit :=
  Serial_begin 115200 ;;
  delay 1000 ;;
  Serial_println "=== ESP32 Power Button Simulator with State Verification ===" ;;
  pinMode TRIGGER_PIN INPUT_PULLUP ;;
  pinMode POWER_LED_PIN INPUT ;;
  pinMode POWER_BTN_PIN INPUT ;;
  pinMode LED_TRIGGER_STATE OUTPUT ;;
  pinMode LED_PRESS_ACTIVE OUTPUT ;;
  digitalWrite LED_TRIGGER_STATE LOW ;;
  digitalWrite LED_PRESS_ACTIVE LOW ;;
  r <- digitalRead env TRIGGER_PIN ;;
  store (set_lastTriggerReading r) ;;
  lr <- load lastTriggerReading ;;
  store (set_stableTriggerState lr) ;;
  t <- millis ;;
  store (set_lastChangeTime t) ;;
  st <- load stableTriggerState ;;
  digitalWrite LED_TRIGGER_STATE (if st then HIGH else LOW).

Definition loop (env : Env) : M Globals unit :=
  currentTriggerReading <- digitalRead env TRIGGER_PIN ;;
  now <- millis ;;
  lr <- load lastTriggerReading ;;
  when (bool_neq currentTriggerReading lr) (
    store (set_lastChangeTime now) ;;
    store (set_lastTriggerReading currentTriggerReading)) ;;
  lct <- load lastChangeTime ;;
  st <- load stableTriggerState ;;
  when ((ulong_sub now lct >? DEBOUNCE_MS) && bool_neq currentTriggerReading st) (
    store (set_stableTriggerState currentTriggerReading) ;;
    Serial_print "New stable trigger state: " ;;
    st' <- load stableTriggerState ;;
    Serial_println (if st' then "HIGH" else "LOW") ;;
    st'' <- load stableTriggerState ;;
    digitalWrite LED_TRIGGER_STATE (if st'' then HIGH else LOW) ;;
    arg <- load stableTriggerState ;;
    handleTriggerChange env arg) ;;
  delay 10.

Definition debouncer (g : Globals) : Debouncer.State :=
  Debouncer.mkState (lastTriggerReading g) (stableTriggerState g)
                    (lastChangeTime g).

Inductive reachable (env : Env) : World Globals -> Prop :=
| reach_setup : reachable env (exec (setup env) (boot initial_globals))
| reach_loop w : reachable env w -> reachable env (exec (loop env) w)
| reach_elapse w d : reachable env w -> 0 <= d -> reachable env (elapse d w).

End StateVerified.

(** ** The burst classifier as [trackRapidChanges] runs it

    [trackRapidChanges] on the two burst globals and the value of [millis]
    (chris.ino 140-161), without the console and the line;
    [trackRapidChanges_spec] shows that the sketch's function performs it. *)

Module BurstClassifier.

Record State : Type := mkState {
  rapidChangeCount    : Z;
  firstChangeInWindow : Z
}.

(** The initialisers of the two globals. *)
Definition initial : State := mkState 0 0.

(** Line 143. *)
Definition window_expired (s : State) (now : Z) : bool :=
  ulong_sub now (firstChangeInWindow s) >? BurstAware.RAPID_CHANGE_WINDOW_MS.

(** Lines 143-150. *)
Definition count_event (s : State) (now : Z) : State :=
  if window_expired s now
  then mkState 1 now
  else mkState (int_incr (rapidChangeCount s)) (firstChangeInWindow s).

(** Line 156. *)
Definition qualifies (max_trigger c : Z) : bool :=
  (BurstAware.MIN_RAPID_CHANGES_TRIGGER <=? c) && (c <=? max_trigger).

(** Lines 156-161: with the count just printed, fire and reset, or not. *)
Definition fire_or_not (max_trigger : Z) (s : State) : State * bool :=
  if qualifies max_trigger (rapidChangeCount s)
  then (mkState 0 (firstChangeInWindow s), true)
  else (s, false).

(** One stable change: the new state, the count that was printed and tested,
    and whether the hard shutdown was triggered. *)
Definition step_upto (max_trigger : Z) (s : State) (now : Z)
  : State * (Z * bool) :=
  let s1 := count_event s now in
  let (s2, fired) := fire_or_not max_trigger s1 in
  (s2, (rapidChangeCount s1, fired)).

Definition step : State -> Z -> State * (Z * bool) :=
  step_upto BurstAware.MAX_RAPID_CHANGES_TRIGGER.

(** Stable changes at the given values of [millis]. *)
Fixpoint run (s : State) (times : list Z) : State * list (Z * bool) :=
  match times with
  | [] => (s, [])
  | now :: times' =>
      let (s1, out) := step s now in
      let (s2, outs) := run s1 times' in
      (s2, out :: outs)
  end.

End BurstClassifier.

Definition classifier (g : BurstAware.Globals) : BurstClassifier.State :=
  BurstClassifier.mkState (BurstAware.rapidChangeCount g)
                          (BurstAware.firstChangeInWindow g).


(** ** Reading the log *)

(** The stable-change events on the serial console:
    [New stable trigger state: HIGH] or [... LOW]. *)
Fixpoint stable_reports (tr : list Event) : list bool :=
  match tr with
  | [] => []
  | EvPrint s :: tr' =>
      if String.eqb s "New stable trigger state: " then
        match tr' with
        | EvPrintln lvl :: _ => String.eqb lvl "HIGH" :: stable_reports tr'
        | _ => stable_reports tr'
        end
      else stable_reports tr'
  | _ :: tr' => stable_reports tr'
  end.

(** The completed holds of the power-button line: for every interval in which
    [POWER_BTN_PIN] was an output, the milliseconds that passed until it was
    released. [driving] is [Some d] while the line is driven, [d] the time
    so far. *)
Fixpoint holds_from (driving : option Z) (tr : list Event) : list Z :=
  match tr with
  | [] => []
  | EvPinMode pin mode :: tr' =>
      if pin =? POWER_BTN_PIN then
        match mode, driving with
        | OUTPUT, None => holds_from (Some 0) tr'
        | OUTPUT, Some d => holds_from (Some d) tr'
        | _, Some d => d :: holds_from None tr'
        | _, None => holds_from None tr'
        end
      else holds_from driving tr'
  | EvDelay ms :: tr' =>
      holds_from (match driving with Some d => Some (d + ms) | None => None end) tr'
  | _ :: tr' => holds_from driving tr'
  end.

Definition holds (tr : list Event) : list Z := holds_from None tr.

(** The state of the line at the end of a log that started in state
    [driving]. *)
Fixpoint driving_after (driving : option Z) (tr : list Event) : option Z :=
  match tr with
  | [] => driving
  | EvPinMode pin mode :: tr' =>
      if pin =? POWER_BTN_PIN then
        match mode, driving with
        | OUTPUT, None => driving_after (Some 0) tr'
        | OUTPUT, Some d => driving_after (Some d) tr'
        | _, _ => driving_after None tr'
        end
      else driving_after driving tr'
  | EvDelay ms :: tr' =>
      driving_after (match driving with Some d => Some (d + ms) | None => None end)
                    tr'
  | _ :: tr' => driving_after driving tr'
  end.

(** The log ends with the line released, and every hold in it lasted 200 ms
    or 4000 ms. *)
Definition log_released (tr : list Event) : Prop :=
  driving_after None tr = None /\
  forallb (fun d => (d =? 200) || (d =? 4000)) (holds tr) = true.

(** The three actions of the dispatcher, by what they do to the line. *)
Inductive Action : Set := NoAction | MomentaryPress | HeldShutdown.

Definition durationMs (a : Action) : Z :=
  match a with
  | NoAction => 0
  | MomentaryPress => 200
  | HeldShutdown => 4000
  end.

(** The actions a stretch of log shows: one per completed hold. *)
Definition action_of_hold (d : Z) : Action :=
  if d =? durationMs HeldShutdown then HeldShutdown
  else if d =? durationMs MomentaryPress then MomentaryPress
  else NoAction.

Definition actions (tr : list Event) : list Action := map action_of_hold (holds tr).

(** The events a command appends to the log. *)
Definition events_of {G A : Type} (c : M G A) (w : World G) : list Event :=
  drop (length (trace w)) (trace (exec c w)).

(** What the log shows of the two actions. *)
Definition press_events : list Event :=
  [ EvPrintln "Simulating power button press...";
    EvDigitalWrite LED_PRESS_ACTIVE HIGH;
    EvPinMode POWER_BTN_PIN OUTPUT;
    EvDigitalWrite POWER_BTN_PIN LOW;
    EvDelay 200;
    EvPinMode POWER_BTN_PIN INPUT;
    EvDigitalWrite LED_PRESS_ACTIVE LOW;
    EvPrintln "Released power button." ].

Definition shutdown_events : list Event :=
  [ EvDigitalWrite LED_PRESS_ACTIVE HIGH;
    EvPinMode POWER_BTN_PIN OUTPUT;
    EvDigitalWrite POWER_BTN_PIN LOW ]
  ++ repeat (EvDelay 50) 80
  ++ [ EvPinMode POWER_BTN_PIN INPUT;
       EvDigitalWrite LED_PRESS_ACTIVE LOW;
       EvPrintln "Hard shutdown complete." ].

(** * Statements

    The log fragments, predicates and sample runs with which the properties
    are stated. *)

(** ** Fragments of the log *)

(** What [trackRapidChanges] prints about the counter. *)
Definition count_report (c : Z) : list Event :=
  [ EvPrint "Rapid changes so far: "; EvPrintlnInt c ].

(** What it prints when it fires. *)
Definition trigger_report : list Event :=
  [ EvPrintln "TRIGGERING HARD SHUTDOWN (rapid toggles detected)..." ].

(** What [loop] prints and writes when it commits the stable state [v]. *)
Definition stable_report (v : bool) : list Event :=
  [ EvPrint "New stable trigger state: ";
    EvPrintln (if v then "HIGH" else "LOW");
    EvDigitalWrite LED_TRIGGER_STATE v ].

(** The world in which the action of a committed stable change starts. *)
Definition committed {G : Type} (g' : G) (v : bool) (w : World G) : World G :=
  mkWorld g' (clock w) (pinModes w)
          (<[LED_TRIGGER_STATE := v]> (pinLevels w))
          (trace w ++ stable_report v).

(** The events of one call of [trackRapidChanges]. *)
Definition track_events (max_trigger : Z) (s : BurstClassifier.State) (now : Z)
  : list Event :=
  let out := snd (BurstClassifier.step_upto max_trigger s now) in
  count_report (fst out)
  ++ (if snd out then trigger_report ++ shutdown_events else []).

(** The counts [trackRapidChanges] has printed, in order. *)
Fixpoint counts_printed (tr : list Event) : list Z :=
  match tr with
  | [] => []
  | EvPrintlnInt n :: tr' => n :: counts_printed tr'
  | _ :: tr' => counts_printed tr'
  end.

(** ** One tick of the debouncer (C1) *)

(** The rule of one polling tick, between the debounce variables before and
    after it, for the raw reading [r], the time [now] and the stable-change
    reports the tick printed. *)
Definition debounce_rule (before after : Debouncer.State) (r : bool) (now : Z)
           (reports : list bool) : Prop :=
  Debouncer.lastReading after = r /\
  Debouncer.lastChangeTime after =
    (if bool_neq r (Debouncer.lastReading before)
     then now else Debouncer.lastChangeTime before) /\
  if (ulong_sub now (Debouncer.lastChangeTime after) >? DEBOUNCE_MS)
     && bool_neq r (Debouncer.stableTriggerState before)
  then Debouncer.stableTriggerState after = r /\ reports = [r]
  else Debouncer.stableTriggerState after = Debouncer.stableTriggerState before
       /\ reports = [].

Definition option_list {A : Type} (o : option A) : list A :=
  match o with Some a => [a] | None => [] end.

(** ** Runs of the debouncer (C6, C7) *)

(** The seven samples of the scenario, one every 10 ms from t = 0. *)
Definition scenario_A_samples : list (bool * Z) :=
  [ (LOW, 0); (LOW, 10); (HIGH, 20); (LOW, 30); (HIGH, 40); (HIGH, 50);
    (HIGH, 60) ].

(** [n] further samples, all HIGH, one every 10 ms from [t]. *)
Fixpoint high_from (t : Z) (n : nat) : list (bool * Z) :=
  match n with
  | O => []
  | S n' => (HIGH, t) :: high_from (t + 10) n'
  end.

Definition scenario_A (n : nat) : list (bool * Z) :=
  scenario_A_samples ++ high_from 70 n.

(** The time of the last raw edge of a run: the last tick whose reading
    differs from the one before it ([prev] before the first). *)
Fixpoint last_edge (prev : bool) (acc : option Z) (ticks : list (bool * Z))
  : option Z :=
  match ticks with
  | [] => acc
  | (r, t) :: rest => last_edge r (if bool_neq r prev then Some t else acc) rest
  end.

(** The first tick at or after the edge [e] whose distance from it
    satisfies [enough]. *)
Definition first_tick_since (e : Z) (enough : Z -> bool)
           (ticks : list (bool * Z)) : option Z :=
  option_map snd (find (fun rt => (e <=? snd rt) && enough (snd rt - e)) ticks).

(** Scenario A with [n] further samples, the debouncer initialised by
    [setup] on a LOW line at t = 0: the run has exactly one stable-change
    event, for HIGH, at the first sample at which the level has persisted
    long [enough] since the last raw edge, if the run has such a sample, and
    none otherwise. *)
Definition scenario_A_outcome (enough : Z -> bool) (n : nat) : Prop :=
  let ticks := scenario_A n in
  let events := snd (Debouncer.run (Debouncer.init LOW 0) ticks) in
  match last_edge LOW None ticks with
  | Some e =>
      match first_tick_since e enough ticks with
      | Some t => events = [(t, HIGH)]
      | None => events = []
      end
  | None => events = []
  end.

(** The tick times do not go backwards, from [tprev] on. *)
Fixpoint times_from (tprev : Z) (ticks : list (bool * Z)) : bool :=
  match ticks with
  | [] => true
  | (_, t) :: rest => (tprev <=? t) && times_from t rest
  end.

(** The tick times do not go backwards. *)
Definition times_ordered (ticks : list (bool * Z)) : bool :=
  match ticks with
  | [] => true
  | (_, t) :: _ => times_from t ticks
  end.

(** Every raw edge of the run comes within one debounce interval of the
    edge before it. [lastEdge] is the time of the latest edge so far, [prev]
    the reading before the next tick. *)
Fixpoint chatter_from (lastEdge : option Z) (prev : bool)
         (ticks : list (bool * Z)) : bool :=
  match ticks with
  | [] => true
  | (r, t) :: rest =>
      if bool_neq r prev then
        match lastEdge with
        | Some e => t - e <=? DEBOUNCE_MS
        | None => true
        end
        && chatter_from (Some t) r rest
      else chatter_from lastEdge prev rest
  end.

(** The raw level at the end of the run, [prev] being the one before it. *)
Fixpoint final_level (prev : bool) (ticks : list (bool * Z)) : bool :=
  match ticks with
  | [] => prev
  | (r, _) :: rest => final_level r rest
  end.

(** A switch that bounces for 20 ms when thrown to LOW and then rests. *)
Definition bouncing_ticks : list (bool * Z) :=
  [ (HIGH, 990); (LOW, 1000); (HIGH, 1010); (LOW, 1020); (LOW, 1030);
    (LOW, 1040); (LOW, 1050); (LOW, 1060); (LOW, 1070); (LOW, 1080);
    (LOW, 1090) ].

(** ** Runs of the burst classifier (C2, C5, C9, C10) *)

(** Inside a window opened at 1200 ms, two changes counted, the third
    arriving at 1500 ms. *)
Definition burst_step_world : World BurstAware.Globals :=
  mkWorld (BurstAware.mkGlobals HIGH LOW 1000 2 1200) 1500 ∅ ∅ [].

(** All the later events fall within the window length of the first. *)
Definition within_window_of (t1 : Z) (rest : list Z) : bool :=
  forallb (fun t => ulong_sub t t1 <=? BurstAware.RAPID_CHANGE_WINDOW_MS) rest.

(** The times between consecutive events. *)
Fixpoint gaps (times : list Z) : list Z :=
  match times with
  | a :: (b :: _) as rest => ulong_sub b a :: gaps rest
  | _ => []
  end.

(** Same or decreasing. *)
Fixpoint nonincreasing (l : list Z) : bool :=
  match l with
  | a :: (b :: _) as rest => (b <=? a) && nonincreasing rest
  | _ => true
  end.

(** No hard shutdown was triggered at any of these events. *)
Definition no_burst (outs : list (Z * bool)) : bool :=
  forallb (fun out => negb (snd out)) outs.

(** The counter as the last of the events found it, after counting itself. *)
Definition counter_at_last (s : BurstClassifier.State) (times : list Z)
  : option Z :=
  option_map fst (last (snd (BurstClassifier.run s times))).

(** The burst-window property, for the classifier in state [s] and stable
    changes at [times]. *)
Definition burst_window_property (s : BurstClassifier.State) (times : list Z)
  : Prop :=
  match times with
  | [] => True
  | t1 :: rest =>
      within_window_of t1 rest = true ->
      nonincreasing (gaps times) = true ->
      no_burst (removelast (snd (BurstClassifier.run s times))) = true ->
      counter_at_last s times = Some (Z.of_nat (length times))
  end.

(** The trigger line is high when the board starts and low afterwards. *)
Definition switched_off_env : Env :=
  fun pin t => if pin =? TRIGGER_PIN then t <=? 1000 else false.

(** The world after [setup] and eight passes of [loop]: the eighth has
    committed the new stable state and counted one rapid change. *)
Definition after_first_change : World BurstAware.Globals :=
  Nat.iter 8 (exec (BurstAware.loop switched_off_env))
           (exec (BurstAware.setup switched_off_env)
                 (boot BurstAware.initial_globals)).

(** The switch is thrown to LOW 1.4 s after the board has started and back
    to HIGH a second later. *)
Definition thrown_twice_env : Env :=
  fun pin t => if pin =? TRIGGER_PIN then (t <=? 1400) || (2400 <? t) else false.

(** The burst-aware sketch in that environment, after [setup] and [n] passes
    of [loop]. *)
Definition thrown_twice (n : nat) : World BurstAware.Globals :=
  Nat.iter n (exec (BurstAware.loop thrown_twice_env))
           (exec (BurstAware.setup thrown_twice_env)
                 (boot BurstAware.initial_globals)).

(** The switch is thrown three times within 600 ms shortly after the board
    has started: to LOW at 1.4 s, back to HIGH at 1.7 s, to LOW again at
    2.0 s. *)
Definition thrown_at_start_env : Env :=
  fun pin t =>
    if pin =? TRIGGER_PIN
    then (t <=? 1400) || ((1700 <? t) && (t <=? 2000))
    else false.

(** The burst-aware sketch in that environment, after [setup] and [n] passes
    of [loop]. *)
Definition thrown_at_start (n : nat) : World BurstAware.Globals :=
  Nat.iter n (exec (BurstAware.loop thrown_at_start_env))
           (exec (BurstAware.setup thrown_at_start_env)
                 (boot BurstAware.initial_globals)).

(** ** The dispatchers (C3, C4) *)

(** The press condition of [handleTriggerChange]: the switch asks for on and
    the PC is off, or it asks for off and the PC is on. *)
Definition press_needed (newTriggerState powerLEDState : bool) : bool :=
  (newTriggerState && negb powerLEDState)
  || (negb newTriggerState && powerLEDState).

(** ** Runs of passes, steady lines, value ranges *)

(** [n] passes of a sketch's [loop], one after the other. *)
Fixpoint passes {G : Type} (pass : World G -> World G) (n : nat) (w : World G)
  : World G :=
  match n with
  | O => w
  | S n' => passes pass n' (pass w)
  end.

(** What those passes read on the trigger line, and when: the sample each
    pass takes as it starts. *)
Fixpoint samples {G : Type} (env : Env) (pass : World G -> World G) (n : nat)
         (w : World G) : list (bool * Z) :=
  match n with
  | O => []
  | S n' => (env TRIGGER_PIN (clock w), clock w) :: samples env pass n' (pass w)
  end.

(** The events logged between two worlds of one run. *)
Definition events_since {G : Type} (w w' : World G) : list Event :=
  drop (length (trace w)) (trace w').

(** Each level differs from the one before it, [prev] before the first. *)
Fixpoint alternates_from (prev : bool) (levels : list bool) : bool :=
  match levels with
  | [] => true
  | v :: rest => bool_neq v prev && alternates_from v rest
  end.

(** The trigger line reads [b] at all times. *)
Definition trigger_steady (env : Env) (b : bool) : Prop :=
  forall t, env TRIGGER_PIN t = b.

(** All the ticks read [r], at times from [e] on and less than 2^32 ms
    after it. *)
Definition held_since (r : bool) (e : Z) (ticks : list (bool * Z)) : bool :=
  forallb (fun rt => Bool.eqb (fst rt) r
                     && (e <=? snd rt) && (snd rt - e <? ULONG_MODULUS)) ticks.

(** A value of an [unsigned long]. *)
Definition in_ulong (z : Z) : Prop := 0 <= z < ULONG_MODULUS.

(** What [setup] logs, for the sketch's banner, the pin modes it sets after
    the trigger pin's, and the level [r] it finds on the trigger line. *)
Definition setup_events (banner : string) (more_inputs : list Event) (r : bool)
  : list Event :=
  [ EvSerialBegin 115200; EvDelay 1000; EvPrintln banner;
    EvPinMode TRIGGER_PIN INPUT_PULLUP ]
  ++ more_inputs
  ++ [ EvPinMode POWER_BTN_PIN INPUT;
       EvPinMode LED_TRIGGER_STATE OUTPUT;
       EvPinMode LED_PRESS_ACTIVE OUTPUT;
       EvDigitalWrite LED_TRIGGER_STATE LOW;
       EvDigitalWrite LED_PRESS_ACTIVE LOW;
       EvDigitalWrite LED_TRIGGER_STATE r ].

(** What [setup] leaves, started in any world [w]: the debounce variables
    taken from the trigger line, the line released, the trigger indicator
    showing the level found, one second gone, and nothing in the log that
    drives the line or reports a stable change. *)
Definition started {G : Type} (view : G -> Debouncer.State) (env : Env)
           (w w' : World G) : Prop :=
  let r := env TRIGGER_PIN (clock w + 1000) in
  view (globals w') = Debouncer.init r (wrap_ulong (clock w + 1000)) /\
  clock w' = clock w + 1000 /\
  line_released w' /\
  pinModes w' !! TRIGGER_PIN = Some INPUT_PULLUP /\
  pinModes w' !! LED_TRIGGER_STATE = Some OUTPUT /\
  pinModes w' !! LED_PRESS_ACTIVE = Some OUTPUT /\
  pinLevels w' !! LED_TRIGGER_STATE = Some r /\
  holds (events_since w w') = [] /\
  stable_reports (events_since w w') = [].

(** The trigger indicator shows the stable state. *)
Definition indicator_shows {G : Type} (view : G -> Debouncer.State)
           (w : World G) : Prop :=
  pinLevels w !! LED_TRIGGER_STATE
  = Some (Debouncer.stableTriggerState (view (globals w))).

(** The worlds a run reaches from [w0]: by passes of [loop], with any time
    in between. *)
Inductive reaches {G : Type} (pass : World G -> World G) (w0 : World G)
  : World G -> Prop :=
| reaches_start : reaches pass w0 w0
| reaches_pass w : reaches pass w0 w -> reaches pass w0 (pass w)
| reaches_elapse w d : reaches pass w0 w -> 0 <= d -> reaches pass w0 (elapse d w).

(** A trigger line that is never touched. *)
Definition untouched_env : Env := fun _ _ => HIGH.

(** Nothing has been committed, reported or driven: the debounce state
    rests on [b] and the log shows no stable change and no hold. *)
Definition at_rest {G : Type} (view : G -> Debouncer.State) (b : bool)
           (w : World G) : Prop :=
  Debouncer.lastReading (view (globals w)) = b /\
  Debouncer.stableTriggerState (view (globals w)) = b /\
  stable_reports (trace w) = [] /\
  holds (trace w) = [] /\
  line_released w.

(** The burst-aware sketch on an untouched line, after [setup] and [n]
    passes. *)
Definition untouched (n : nat) : World BurstAware.Globals :=
  passes (exec (BurstAware.loop untouched_env)) n
         (exec (BurstAware.setup untouched_env) (boot BurstAware.initial_globals)).

(** The trigger line as [switched_off_env] has it, except that it bounces
    (reads the opposite) all through the press of the first commit, from
    1070 ms to 1280 ms. *)
Definition bounce_in_press_env : Env :=
  fun pin t =>
    if (1070 <? t) && (t <? 1280)
    then negb (switched_off_env pin t)
    else switched_off_env pin t.

(** The burst-aware sketch on [switched_off_env] after [setup] and seven
    passes: the next pass commits. *)
Definition before_first_change : World BurstAware.Globals :=
  passes (exec (BurstAware.loop switched_off_env)) 7
         (exec (BurstAware.setup switched_off_env)
               (boot BurstAware.initial_globals)).

(** Two environments present the same levels at time [t]. *)
Definition agree_at (env env' : Env) (t : Z) : Prop :=
  forall pin, env pin t = env' pin t.

(** The switch is thrown to LOW 3.4 s after the board has started, back to
    HIGH 300 ms later and to LOW again after another 300 ms. *)
Definition thrown_thrice_env : Env :=
  fun pin t =>
    if pin =? TRIGGER_PIN
    then (t <=? 3400) || ((3700 <? t) && (t <=? 4000))
    else false.

(** The burst-aware sketch in that environment, after [setup] and [n] passes
    of [loop]. *)
Definition thrown_thrice (n : nat) : World BurstAware.Globals :=
  passes (exec (BurstAware.loop thrown_thrice_env)) n
         (exec (BurstAware.setup thrown_thrice_env)
               (boot BurstAware.initial_globals)).

(** ** The state-verified pass, with the time between its two reads

    [StateVerified.loop] reads TRIGGER_PIN in its first statement (chris.ino
    262) and POWER_LED_PIN in [handleTriggerChange] (line 293), which it
    calls after the prints and the [digitalWrite] of lines 275-279. The
    clock of the model counts [delay]s only, so [StateVerified.loop] takes
    the two reads at the same instant. [loop_with_lag lag] is the same pass
    with [lag] ms going by between the [digitalWrite] and the call. *)

(** [d] ms go by in statements other than [delay]. *)
Definition busy {G : Type} (d : Z) : M G unit := fun w => (tt, elapse d w).

Definition loop_with_lag (lag : Z) (env : Env) : M StateVerified.Globals unit :=
  currentTriggerReading <- digitalRead env TRIGGER_PIN ;;
  now <- millis ;;
  lr <- load StateVerified.lastTriggerReading ;;
  when (bool_neq currentTriggerReading lr) (
    store (StateVerified.set_lastChangeTime now) ;;
    store (StateVerified.set_lastTriggerReading currentTriggerReading)) ;;
  lct <- load StateVerified.lastChangeTime ;;
  st <- load StateVerified.stableTriggerState ;;
  when ((ulong_sub now lct >? DEBOUNCE_MS) && bool_neq currentTriggerReading st) (
    store (StateVerified.set_stableTriggerState currentTriggerReading) ;;
    Serial_print "New stable trigger state: " ;;
    st' <- load StateVerified.stableTriggerState ;;
    Serial_println (if st' then "HIGH" else "LOW") ;;
    st'' <- load StateVerified.stableTriggerState ;;
    digitalWrite LED_TRIGGER_STATE (if st'' then HIGH else LOW) ;;
    busy lag ;;
    arg <- load StateVerified.stableTriggerState ;;
    StateVerified.handleTriggerChange env arg) ;;
  delay 10.

(** A run of such passes from [w]: for each pass, the time that goes by
    before it starts and the lag between its two reads. *)
Fixpoint passes_with_lags (env : Env) (timing : list (Z * Z))
         (w : World StateVerified.Globals) : World StateVerified.Globals :=
  match timing with
  | [] => w
  | (idle, lag) :: rest =>
      passes_with_lags env rest (exec (loop_with_lag lag env) (elapse idle w))
  end.

(** The pass that starts in [w] commits a stable change, and so calls
    [handleTriggerChange]. *)
Definition commits (env : Env) (w : World StateVerified.Globals) : bool :=
  match snd (Debouncer.tick (StateVerified.debouncer (globals w))
                            (env TRIGGER_PIN (clock w)) (wrap_ulong (clock w))) with
  | Some _ => true
  | None => false
  end.

(** In every pass of the run that commits, the trigger line reads at the
    second read what it read at the first. *)
Fixpoint steady_between_reads (env : Env) (timing : list (Z * Z))
         (w : World StateVerified.Globals) : bool :=
  match timing with
  | [] => true
  | (idle, lag) :: rest =>
      let w1 := elapse idle w in
      (negb (commits env w1)
       || Bool.eqb (env TRIGGER_PIN (clock w1 + lag)) (env TRIGGER_PIN (clock w1)))
      && steady_between_reads env rest (exec (loop_with_lag lag env) w1)
  end.

(** The state-verified sketch after [setup]. *)
Definition state_verified_start (env : Env) : World StateVerified.Globals :=
  exec (StateVerified.setup env) (boot StateVerified.initial_globals).

(** The switch goes to LOW one second after the start, and the PC with it:
    the power LED reads what the trigger line reads. *)
Definition in_step_env : Env := fun _ t => t <=? 1000.

(** The same, with the switch (and the PC) back at HIGH after 1070 ms. *)
Definition back_in_step_env : Env := fun _ t => (t <=? 1000) || (1070 <? t).

(** As [in_step_env] up to 1071 ms, the opposite from then on. *)
Definition press_through_env : Env :=
  fun pin t => if 1071 <? t then negb (in_step_env pin t) else in_step_env pin t.

(** Passes that follow each other at once, with 1 ms between the two reads
    of each. *)
Definition one_ms_lags (n : nat) : list (Z * Z) := repeat (0, 1) n.

(** The unconditional sketch on [thrown_twice_env], after [setup] and [n]
    passes of [loop]. *)
Definition thrown_twice_unconditional (n : nat) : World Unconditional.Globals :=
  passes (exec (Unconditional.loop thrown_twice_env)) n
         (exec (Unconditional.setup thrown_twice_env)
               (boot Unconditional.initial_globals)).

(** * Properties *)

(** ** Arithmetic *)

Lemma ulong_sub_wrap_elapsed (c d : Z) :
  0 <= d < ULONG_MODULUS ->
  ulong_sub (wrap_ulong (c + d)) (wrap_ulong c) = d.
Proof.
  intros Hd. unfold ulong_sub, wrap_ulong.
  rewrite <- Zminus_mod.
  replace (c + d - c) with d by lia.
  apply Z.mod_small. exact Hd.
Qed.

Lemma ulong_sub_diag (a : Z) : ulong_sub a a = 0.
Proof. unfold ulong_sub. rewrite Z.sub_diag. reflexivity. Qed.

Lemma ulong_sub_range (a b : Z) : 0 <= ulong_sub a b < ULONG_MODULUS.
Proof. unfold ulong_sub. apply Z.mod_pos_bound. reflexivity. Qed.

Lemma int_incr_small (n : Z) : INT_MIN <= n < INT_MAX -> int_incr n = n + 1.
Proof.
  unfold int_incr, wrap_int, INT_MIN, INT_MAX. intros H.
  rewrite Z.mod_small; lia.
Qed.

(** ** The log only grows *)

Lemma events_of_app {G A : Type} (c : M G A) (w : World G) (evs : list Event) :
  trace (exec c w) = trace w ++ evs -> events_of c w = evs.
Proof.
  intros H. unfold events_of. rewrite H. apply drop_app_length.
Qed.

(** ** The two actions in closed form *)

Lemma simulatePowerButtonPress_spec {G : Type} (w : World G) :
  simulatePowerButtonPress w =
  (tt, mkWorld (globals w) (clock w + 200)
         (<[POWER_BTN_PIN := INPUT]> (<[POWER_BTN_PIN := OUTPUT]> (pinModes w)))
         (<[LED_PRESS_ACTIVE := LOW]>
            (<[POWER_BTN_PIN := LOW]>
               (<[LED_PRESS_ACTIVE := HIGH]> (pinLevels w))))
         (trace w ++ press_events)).
Proof.
  destruct w as [g c pm pl tr].
  cbv [simulatePowerButtonPress press_events bind Serial_println log
       digitalWrite pinMode delay globals clock pinModes pinLevels trace].
  rewrite <- !app_assoc. reflexivity.
Qed.

Section HardShutdown.
Import BurstAware.

(** With [k] iterations of 50 ms still to go, any fuel above [k] runs the
    loop to the end of the 4000 ms. *)
Lemma hold_loop_closed (k : nat) :
  forall (fuel : nat) (w : World Globals) (c0 : Z),
    (k <= 80)%nat -> (k < fuel)%nat ->
    clock w = c0 + 4000 - 50 * Z.of_nat k ->
    while_loop fuel (hold_cond (wrap_ulong c0)) (delay 50) w =
    (tt, mkWorld (globals w) (c0 + 4000) (pinModes w) (pinLevels w)
           (trace w ++ repeat (EvDelay 50) k)).
Proof.
  induction k as [|k IH]; intros fuel w c0 Hk Hfuel Hclock;
    (destruct fuel as [|fuel]; [lia|]);
    destruct w as [g c pm pl tr]; cbn [clock] in Hclock; subst c;
    cbn [while_loop]; unfold bind at 1; unfold hold_cond at 1;
    unfold bind at 1; unfold millis, ret at 1;
    cbn [clock globals pinModes pinLevels trace].
  - replace (c0 + 4000 - 50 * Z.of_nat 0) with (c0 + 4000) by lia.
    rewrite ulong_sub_wrap_elapsed by (unfold ULONG_MODULUS; lia).
    cbn. rewrite app_nil_r. reflexivity.
  - replace (c0 + 4000 - 50 * Z.of_nat (S k))
      with (c0 + (3950 - 50 * Z.of_nat k)) by lia.
    rewrite ulong_sub_wrap_elapsed by (unfold ULONG_MODULUS; lia).
    replace (3950 - 50 * Z.of_nat k <? 4000) with true
      by (symmetry; apply Z.ltb_lt; lia).
    unfold bind at 1, delay at 1.
    cbn [clock globals pinModes pinLevels trace].
    rewrite (IH fuel _ c0) by (cbn [clock]; lia).
    cbn [clock globals pinModes pinLevels trace repeat].
    rewrite <- app_assoc. reflexivity.
Qed.

(** The hold loop leaves because its condition has become false: 4000 ms
    have passed. [HOLD_FUEL] is not what ends it, and more fuel changes
    nothing. *)
Lemma hold_loop_exits (w : World Globals) :
  let start := wrap_ulong (clock w) in
  let w' := exec (while_loop HOLD_FUEL (hold_cond start) (delay 50)) w in
  fst (hold_cond start w') = false /\ clock w' = clock w + 4000.
Proof.
  cbn zeta. unfold exec.
  rewrite (hold_loop_closed 80 HOLD_FUEL w (clock w));
    [| lia | unfold HOLD_FUEL; lia | lia].
  cbn [snd clock]. split; [|reflexivity].
  unfold hold_cond, bind, millis, ret. cbn [fst clock].
  rewrite ulong_sub_wrap_elapsed by (unfold ULONG_MODULUS; lia).
  reflexivity.
Qed.

Lemma hold_loop_fuel_irrelevant (fuel : nat) (w : World Globals) :
  (HOLD_FUEL <= fuel)%nat ->
  while_loop fuel (hold_cond (wrap_ulong (clock w))) (delay 50) w =
  while_loop HOLD_FUEL (hold_cond (wrap_ulong (clock w))) (delay 50) w.
Proof.
  intros H.
  rewrite (hold_loop_closed 80 fuel w (clock w));
    [| lia | unfold HOLD_FUEL in H; lia | lia].
  rewrite (hold_loop_closed 80 HOLD_FUEL w (clock w));
    [| lia | unfold HOLD_FUEL; lia | lia].
  reflexivity.
Qed.

Lemma simulateHardShutdown_spec (w : World Globals) :
  simulateHardShutdown w =
  (tt, mkWorld (globals w) (clock w + 4000)
         (<[POWER_BTN_PIN := INPUT]> (<[POWER_BTN_PIN := OUTPUT]> (pinModes w)))
         (<[LED_PRESS_ACTIVE := LOW]>
            (<[POWER_BTN_PIN := LOW]>
               (<[LED_PRESS_ACTIVE := HIGH]> (pinLevels w))))
         (trace w ++ shutdown_events)).
Proof.
  destruct w as [g c pm pl tr].
  unfold simulateHardShutdown.
  unfold bind at 1, digitalWrite at 1. cbn [globals clock pinModes pinLevels trace].
  unfold bind at 1, pinMode at 1. cbn [globals clock pinModes pinLevels trace].
  unfold bind at 1, digitalWrite at 1. cbn [globals clock pinModes pinLevels trace].
  unfold bind at 1, millis at 1. cbn [globals clock pinModes pinLevels trace].
  unfold bind at 1.
  rewrite (hold_loop_closed 80 HOLD_FUEL _ c);
    [| lia | unfold HOLD_FUEL; lia | cbn [clock]; lia].
  unfold bind, pinMode, digitalWrite, Serial_println, log, shutdown_events.
  cbn [globals clock pinModes pinLevels trace].
  rewrite <- !app_assoc. reflexivity.
Qed.

End HardShutdown.

(** ** [trackRapidChanges] in closed form *)

Lemma trackRapidChanges_upto_spec (max_trigger : Z) (w : World BurstAware.Globals) :
  let g := globals w in
  let s1 := BurstClassifier.count_event (classifier g) (wrap_ulong (clock w)) in
  let c := BurstClassifier.rapidChangeCount s1 in
  let g1 := BurstAware.mkGlobals
              (BurstAware.lastReading g) (BurstAware.stableTriggerState g)
              (BurstAware.lastChangeTime g)
              c (BurstClassifier.firstChangeInWindow s1) in
  BurstAware.trackRapidChanges_upto max_trigger w =
  if BurstClassifier.qualifies max_trigger c then
    (tt, mkWorld (BurstAware.set_rapidChangeCount 0 g1) (clock w + 4000)
           (<[POWER_BTN_PIN := INPUT]> (<[POWER_BTN_PIN := OUTPUT]> (pinModes w)))
           (<[LED_PRESS_ACTIVE := LOW]>
              (<[POWER_BTN_PIN := LOW]>
                 (<[LED_PRESS_ACTIVE := HIGH]> (pinLevels w))))
           (trace w ++ count_report c ++ trigger_report ++ shutdown_events))
  else
    (tt, mkWorld g1 (clock w) (pinModes w) (pinLevels w)
           (trace w ++ count_report c)).
Proof.
  destruct w as [[lr st lct cnt first] c pm pl tr].
  cbv zeta. unfold BurstAware.trackRapidChanges_upto, classifier,
    BurstClassifier.count_event, BurstClassifier.window_expired,
    BurstClassifier.qualifies.
  cbn [globals clock BurstAware.rapidChangeCount BurstAware.firstChangeInWindow
       BurstAware.lastReading BurstAware.stableTriggerState
       BurstAware.lastChangeTime
       BurstClassifier.rapidChangeCount BurstClassifier.firstChangeInWindow].
  unfold bind at 1, millis at 1. cbn [clock].
  unfold bind at 1, load at 1.
  cbn [globals BurstAware.firstChangeInWindow].
  unfold bind at 1.
  destruct (ulong_sub (wrap_ulong c) first >? BurstAware.RAPID_CHANGE_WINDOW_MS);
    cbn [BurstClassifier.rapidChangeCount BurstClassifier.firstChangeInWindow].
  - (* window expired *)
    cbv [bind ret when load store log Serial_print Serial_println_int
         globals clock pinModes pinLevels trace
         BurstAware.set_rapidChangeCount BurstAware.set_firstChangeInWindow
         BurstAware.rapidChangeCount BurstAware.firstChangeInWindow
         BurstAware.lastReading BurstAware.stableTriggerState
         BurstAware.lastChangeTime].
    destruct ((BurstAware.MIN_RAPID_CHANGES_TRIGGER <=? 1) && (1 <=? max_trigger)) eqn:Hq.
    + discriminate Hq.
    + unfold count_report. rewrite <- !app_assoc. reflexivity.
  - (* within the window *)
    cbv [bind ret when load store log Serial_print Serial_println_int
         globals clock pinModes pinLevels trace
         BurstAware.set_rapidChangeCount BurstAware.set_firstChangeInWindow
         BurstAware.rapidChangeCount BurstAware.firstChangeInWindow
         BurstAware.lastReading BurstAware.stableTriggerState
         BurstAware.lastChangeTime].
    destruct ((BurstAware.MIN_RAPID_CHANGES_TRIGGER <=? int_incr cnt)
              && (int_incr cnt <=? max_trigger)).
    + unfold Serial_println, log. cbn [globals clock pinModes pinLevels trace].
      rewrite simulateHardShutdown_spec.
      cbn [globals clock pinModes pinLevels trace].
      unfold count_report, trigger_report, BurstAware.set_rapidChangeCount.
      cbn [BurstAware.rapidChangeCount BurstAware.firstChangeInWindow
           BurstAware.lastReading BurstAware.stableTriggerState
           BurstAware.lastChangeTime].
      rewrite <- !app_assoc. reflexivity.
    + unfold count_report. rewrite <- !app_assoc. reflexivity.
Qed.

(** ** The three loops in closed form *)

Ltac run_sketch :=
  cbv [bind ret when exec load store log millis delay pinMode digitalWrite
       digitalRead Serial_begin Serial_print Serial_println Serial_println_int
       bool_neq Bool.eqb negb andb HIGH LOW committed stable_report
       globals clock pinModes pinLevels trace fst snd
       Debouncer.tick Debouncer.lastReading Debouncer.stableTriggerState
       Debouncer.lastChangeTime
       Unconditional.debouncer
       Unconditional.set_lastChangeTime Unconditional.set_lastReading
       Unconditional.set_stableTriggerState
       Unconditional.lastReading Unconditional.stableTriggerState
       Unconditional.lastChangeTime
       BurstAware.debouncer
       BurstAware.set_lastChangeTime BurstAware.set_lastReading
       BurstAware.set_stableTriggerState
       BurstAware.lastReading BurstAware.stableTriggerState
       BurstAware.lastChangeTime BurstAware.rapidChangeCount
       BurstAware.firstChangeInWindow
       StateVerified.debouncer
       StateVerified.set_lastChangeTime StateVerified.set_lastTriggerReading
       StateVerified.set_stableTriggerState
       StateVerified.lastTriggerReading StateVerified.stableTriggerState
       StateVerified.lastChangeTime].

(** Case analysis of one polling tick: the reading, the two stored levels,
    and whether the debounce interval has passed. *)
Ltac loop_cases c lct r lr st :=
  destruct r, lr, st; run_sketch;
  rewrite ?ulong_sub_diag;
  change (0 >? DEBOUNCE_MS) with false;
  try destruct (ulong_sub (wrap_ulong c) lct >? DEBOUNCE_MS);
  run_sketch.

Lemma Unconditional_loop_spec (env : Env) (w : World Unconditional.Globals) :
  let r := env TRIGGER_PIN (clock w) in
  let out := Debouncer.tick (Unconditional.debouncer (globals w)) r
                            (wrap_ulong (clock w)) in
  let g' := Unconditional.mkGlobals
              (Debouncer.lastReading (fst out))
              (Debouncer.stableTriggerState (fst out))
              (Debouncer.lastChangeTime (fst out)) in
  Unconditional.loop env w =
  match snd out with
  | Some v =>
      (tt, exec (delay 10) (exec simulatePowerButtonPress (committed g' v w)))
  | None => (tt, exec (delay 10) (mkWorld g' (clock w) (pinModes w)
                                          (pinLevels w) (trace w)))
  end.
Proof.
  destruct w as [[lr st lct] c pm pl tr].
  cbv zeta. unfold Unconditional.loop.
  cbn [globals clock pinModes pinLevels trace].
  unfold bind at 1, digitalRead at 1. cbn [clock].
  generalize (env TRIGGER_PIN c) as r. intros r.
  loop_cases c lct r lr st;
    rewrite ?simulatePowerButtonPress_spec; run_sketch;
    rewrite <- ?app_assoc; reflexivity.
Qed.

Lemma BurstAware_loop_upto_spec (max_trigger : Z) (env : Env)
      (w : World BurstAware.Globals) :
  let r := env TRIGGER_PIN (clock w) in
  let out := Debouncer.tick (BurstAware.debouncer (globals w)) r
                            (wrap_ulong (clock w)) in
  let g' := BurstAware.mkGlobals
              (Debouncer.lastReading (fst out))
              (Debouncer.stableTriggerState (fst out))
              (Debouncer.lastChangeTime (fst out))
              (BurstAware.rapidChangeCount (globals w))
              (BurstAware.firstChangeInWindow (globals w)) in
  BurstAware.loop_upto max_trigger env w =
  match snd out with
  | Some v =>
      (tt, exec (delay 10)
             (exec simulatePowerButtonPress
                (exec (BurstAware.trackRapidChanges_upto max_trigger)
                   (committed g' v w))))
  | None => (tt, exec (delay 10) (mkWorld g' (clock w) (pinModes w)
                                          (pinLevels w) (trace w)))
  end.
Proof.
  destruct w as [[lr st lct cnt first] c pm pl tr].
  cbv zeta. unfold BurstAware.loop_upto.
  cbn [globals clock pinModes pinLevels trace].
  unfold bind at 1, digitalRead at 1. cbn [clock].
  generalize (env TRIGGER_PIN c) as r. intros r.
  loop_cases c lct r lr st;
    rewrite <- ?app_assoc; cbn [app];
    try (destruct (BurstAware.trackRapidChanges_upto _ _) as [[] w1]);
    rewrite ?simulatePowerButtonPress_spec; run_sketch;
    rewrite <- ?app_assoc; reflexivity.
Qed.

Lemma StateVerified_loop_spec (env : Env) (w : World StateVerified.Globals) :
  let r := env TRIGGER_PIN (clock w) in
  let out := Debouncer.tick (StateVerified.debouncer (globals w)) r
                            (wrap_ulong (clock w)) in
  let g' := StateVerified.mkGlobals
              (Debouncer.lastReading (fst out))
              (Debouncer.stableTriggerState (fst out))
              (Debouncer.lastChangeTime (fst out)) in
  StateVerified.loop env w =
  match snd out with
  | Some v =>
      (tt, exec (delay 10)
             (exec (StateVerified.handleTriggerChange env v) (committed g' v w)))
  | None => (tt, exec (delay 10) (mkWorld g' (clock w) (pinModes w)
                                          (pinLevels w) (trace w)))
  end.
Proof.
  destruct w as [[lr st lct] c pm pl tr].
  cbv zeta. unfold StateVerified.loop.
  cbn [globals clock pinModes pinLevels trace].
  unfold bind at 1, digitalRead at 1. cbn [clock].
  generalize (env TRIGGER_PIN c) as r. intros r.
  loop_cases c lct r lr st;
    rewrite <- ?app_assoc; cbn [app];
    try (destruct (StateVerified.handleTriggerChange _ _ _) as [[] w1]);
    run_sketch; reflexivity.
Qed.

(** [handleTriggerChange] in closed form. *)
Lemma handleTriggerChange_spec (env : Env) (newTriggerState : bool)
      (w : World StateVerified.Globals) :
  let powerLEDState := env POWER_LED_PIN (clock w) in
  StateVerified.handleTriggerChange env newTriggerState w =
  match newTriggerState, powerLEDState with
  | true, false | false, true => simulatePowerButtonPress w
  | true, true => Serial_println "PC is already ON, no action needed." w
  | false, false => Serial_println "PC is already OFF, no action needed." w
  end.
Proof.
  cbv zeta. unfold StateVerified.handleTriggerChange.
  unfold bind at 1, digitalRead at 1.
  destruct newTriggerState, (env POWER_LED_PIN (clock w)); reflexivity.
Qed.

(** ** What each command leaves in the world *)

Lemma delay_trace {G : Type} (ms : Z) (w : World G) :
  trace (exec (delay ms) w) = trace w ++ [EvDelay ms].
Proof. reflexivity. Qed.

Lemma delay_globals {G : Type} (ms : Z) (w : World G) :
  globals (exec (delay ms) w) = globals w.
Proof. reflexivity. Qed.

Lemma delay_clock {G : Type} (ms : Z) (w : World G) :
  clock (exec (delay ms) w) = clock w + ms.
Proof. reflexivity. Qed.

Lemma delay_released {G : Type} (ms : Z) (w : World G) :
  line_released w -> line_released (exec (delay ms) w).
Proof. intros H. exact H. Qed.

Lemma press_trace {G : Type} (w : World G) :
  trace (exec simulatePowerButtonPress w) = trace w ++ press_events.
Proof. unfold exec. rewrite simulatePowerButtonPress_spec. reflexivity. Qed.

Lemma press_globals {G : Type} (w : World G) :
  globals (exec simulatePowerButtonPress w) = globals w.
Proof. unfold exec. rewrite simulatePowerButtonPress_spec. reflexivity. Qed.

Lemma press_clock {G : Type} (w : World G) :
  clock (exec simulatePowerButtonPress w) = clock w + 200.
Proof. unfold exec. rewrite simulatePowerButtonPress_spec. reflexivity. Qed.

Lemma press_released {G : Type} (w : World G) :
  line_released (exec simulatePowerButtonPress w).
Proof.
  unfold exec, line_released. rewrite simulatePowerButtonPress_spec.
  cbn [snd pinModes pinLevels]. split; apply lookup_insert_eq.
Qed.

Lemma shutdown_released (w : World BurstAware.Globals) :
  line_released (exec BurstAware.simulateHardShutdown w).
Proof.
  unfold exec, line_released. rewrite simulateHardShutdown_spec.
  cbn [snd pinModes pinLevels]. split; apply lookup_insert_eq.
Qed.

Lemma track_trace (max_trigger : Z) (w : World BurstAware.Globals) :
  trace (exec (BurstAware.trackRapidChanges_upto max_trigger) w) =
  trace w ++ track_events max_trigger (classifier (globals w))
                          (wrap_ulong (clock w)).
Proof.
  unfold exec. rewrite trackRapidChanges_upto_spec.
  unfold track_events, BurstClassifier.step_upto, BurstClassifier.fire_or_not.
  destruct (BurstClassifier.qualifies _ _); cbn [snd fst trace].
  - reflexivity.
  - rewrite app_nil_r. reflexivity.
Qed.

Lemma track_classifier (max_trigger : Z) (w : World BurstAware.Globals) :
  classifier (globals (exec (BurstAware.trackRapidChanges_upto max_trigger) w)) =
  fst (BurstClassifier.step_upto max_trigger (classifier (globals w))
                                 (wrap_ulong (clock w))).
Proof.
  unfold exec. rewrite trackRapidChanges_upto_spec.
  unfold BurstClassifier.step_upto, BurstClassifier.fire_or_not.
  cbv zeta.
  destruct (BurstClassifier.count_event _ _) as [c1 f1].
  destruct (BurstClassifier.qualifies _ _); reflexivity.
Qed.

Lemma track_debouncer (max_trigger : Z) (w : World BurstAware.Globals) :
  BurstAware.debouncer
    (globals (exec (BurstAware.trackRapidChanges_upto max_trigger) w)) =
  BurstAware.debouncer (globals w).
Proof.
  unfold exec. rewrite trackRapidChanges_upto_spec.
  destruct (BurstClassifier.qualifies _ _); reflexivity.
Qed.

Lemma track_clock (max_trigger : Z) (w : World BurstAware.Globals) :
  clock (exec (BurstAware.trackRapidChanges_upto max_trigger) w) =
  clock w + (if snd (snd (BurstClassifier.step_upto max_trigger
                            (classifier (globals w)) (wrap_ulong (clock w))))
             then 4000 else 0).
Proof.
  unfold exec. rewrite trackRapidChanges_upto_spec.
  unfold BurstClassifier.step_upto, BurstClassifier.fire_or_not.
  destruct (BurstClassifier.qualifies _ _); cbn [snd clock]; lia.
Qed.

Lemma track_released (max_trigger : Z) (w : World BurstAware.Globals) :
  line_released w ->
  line_released (exec (BurstAware.trackRapidChanges_upto max_trigger) w).
Proof.
  intros [Hm Hl]. unfold exec, line_released.
  rewrite trackRapidChanges_upto_spec.
  destruct (BurstClassifier.qualifies _ _); cbn [snd pinModes pinLevels].
  - split; apply lookup_insert_eq.
  - split; assumption.
Qed.

Lemma handle_trace (env : Env) (v : bool) (w : World StateVerified.Globals) :
  trace (exec (StateVerified.handleTriggerChange env v) w) =
  trace w ++
  match v, env POWER_LED_PIN (clock w) with
  | true, false | false, true => press_events
  | true, true => [EvPrintln "PC is already ON, no action needed."]
  | false, false => [EvPrintln "PC is already OFF, no action needed."]
  end.
Proof.
  unfold exec. rewrite handleTriggerChange_spec. cbv zeta.
  destruct v, (env POWER_LED_PIN (clock w));
    rewrite ?simulatePowerButtonPress_spec; reflexivity.
Qed.

Lemma handle_globals (env : Env) (v : bool) (w : World StateVerified.Globals) :
  globals (exec (StateVerified.handleTriggerChange env v) w) = globals w.
Proof.
  unfold exec. rewrite handleTriggerChange_spec. cbv zeta.
  destruct v, (env POWER_LED_PIN (clock w));
    rewrite ?simulatePowerButtonPress_spec; reflexivity.
Qed.

Lemma handle_exec (env : Env) (v : bool) (w : World StateVerified.Globals) :
  exec (StateVerified.handleTriggerChange env v) w =
  match v, env POWER_LED_PIN (clock w) with
  | true, false | false, true => exec simulatePowerButtonPress w
  | true, true => exec (Serial_println "PC is already ON, no action needed.") w
  | false, false => exec (Serial_println "PC is already OFF, no action needed.") w
  end.
Proof.
  unfold exec. rewrite handleTriggerChange_spec. cbv zeta.
  destruct v, (env POWER_LED_PIN (clock w)); reflexivity.
Qed.

Lemma println_released {G : Type} (s : string) (w : World G) :
  line_released w -> line_released (exec (Serial_println s) w).
Proof. intros H. exact H. Qed.

Lemma handle_released (env : Env) (v : bool) (w : World StateVerified.Globals) :
  line_released w ->
  line_released (exec (StateVerified.handleTriggerChange env v) w).
Proof.
  intros H. rewrite handle_exec.
  destruct v, (env POWER_LED_PIN (clock w)).
  - apply println_released; exact H.
  - apply press_released.
  - apply press_released.
  - apply println_released; exact H.
Qed.

(** ** C1: one tick of the debouncer *)

Lemma tick_rule (s : Debouncer.State) (r : bool) (now : Z) :
  debounce_rule s (fst (Debouncer.tick s r now)) r now
                (option_list (snd (Debouncer.tick s r now))).
Proof.
  destruct s as [lr st lct]. unfold debounce_rule, Debouncer.tick.
  destruct r, lr, st;
    cbv [bool_neq Bool.eqb negb andb fst snd option_list Debouncer.lastReading
         Debouncer.stableTriggerState Debouncer.lastChangeTime];
    destruct (ulong_sub now lct >? DEBOUNCE_MS) eqn:E1;
    destruct (ulong_sub now now >? DEBOUNCE_MS) eqn:E2;
    cbv [bool_neq Bool.eqb negb andb fst snd option_list Debouncer.lastReading
         Debouncer.stableTriggerState Debouncer.lastChangeTime];
    rewrite ?E1, ?E2; repeat split.
Qed.

Lemma stable_reports_commit (v : bool) (rest : list Event) :
  stable_reports (stable_report v ++ rest) = v :: stable_reports rest.
Proof. destruct v; reflexivity. Qed.

Lemma stable_reports_press : stable_reports press_events = [].
Proof. reflexivity. Qed.

Lemma stable_reports_track (max_trigger : Z) (s : BurstClassifier.State) (now : Z)
      (rest : list Event) :
  stable_reports (track_events max_trigger s now ++ rest) = stable_reports rest.
Proof.
  unfold track_events.
  destruct (snd (snd (BurstClassifier.step_upto max_trigger s now)));
    reflexivity.
Qed.

Lemma Unconditional_loop_trace (env : Env) (w : World Unconditional.Globals) :
  trace (exec (Unconditional.loop env) w) =
  trace w ++
  match snd (Debouncer.tick (Unconditional.debouncer (globals w))
                            (env TRIGGER_PIN (clock w)) (wrap_ulong (clock w))) with
  | Some v => stable_report v ++ press_events ++ [EvDelay 10]
  | None => [EvDelay 10]
  end.
Proof.
  unfold exec at 1.
  rewrite Unconditional_loop_spec. cbv zeta.
  destruct (snd (Debouncer.tick _ _ _)) as [v|]; cbn [snd].
  - rewrite delay_trace, press_trace.
    unfold committed. cbn [trace]. rewrite <- !app_assoc. reflexivity.
  - rewrite delay_trace. reflexivity.
Qed.

Lemma Unconditional_loop_events (env : Env) (w : World Unconditional.Globals) :
  events_of (Unconditional.loop env) w =
  match snd (Debouncer.tick (Unconditional.debouncer (globals w))
                            (env TRIGGER_PIN (clock w)) (wrap_ulong (clock w))) with
  | Some v => stable_report v ++ press_events ++ [EvDelay 10]
  | None => [EvDelay 10]
  end.
Proof. apply events_of_app. apply Unconditional_loop_trace. Qed.

Lemma Unconditional_loop_debouncer (env : Env) (w : World Unconditional.Globals) :
  Unconditional.debouncer (globals (exec (Unconditional.loop env) w)) =
  fst (Debouncer.tick (Unconditional.debouncer (globals w))
                      (env TRIGGER_PIN (clock w)) (wrap_ulong (clock w))).
Proof.
  unfold exec at 1. rewrite Unconditional_loop_spec. cbv zeta.
  destruct (Debouncer.tick _ _ _) as [[lr st lct] [v|]]; cbn [fst snd].
  - rewrite delay_globals, press_globals. reflexivity.
  - rewrite delay_globals. reflexivity.
Qed.

Lemma BurstAware_loop_trace (max_trigger : Z) (env : Env)
      (w : World BurstAware.Globals) :
  trace (exec (BurstAware.loop_upto max_trigger env) w) =
  trace w ++
  match snd (Debouncer.tick (BurstAware.debouncer (globals w))
                            (env TRIGGER_PIN (clock w)) (wrap_ulong (clock w))) with
  | Some v =>
      stable_report v
      ++ track_events max_trigger (classifier (globals w)) (wrap_ulong (clock w))
      ++ press_events ++ [EvDelay 10]
  | None => [EvDelay 10]
  end.
Proof.
  unfold exec at 1.
  rewrite BurstAware_loop_upto_spec. cbv zeta.
  destruct (snd (Debouncer.tick _ _ _)) as [v|]; cbn [snd].
  - rewrite delay_trace, press_trace, track_trace.
    unfold committed. cbn [trace globals clock classifier
                           BurstAware.rapidChangeCount
                           BurstAware.firstChangeInWindow].
    rewrite <- !app_assoc. reflexivity.
  - rewrite delay_trace. reflexivity.
Qed.

Lemma BurstAware_loop_events (max_trigger : Z) (env : Env)
      (w : World BurstAware.Globals) :
  events_of (BurstAware.loop_upto max_trigger env) w =
  match snd (Debouncer.tick (BurstAware.debouncer (globals w))
                            (env TRIGGER_PIN (clock w)) (wrap_ulong (clock w))) with
  | Some v =>
      stable_report v
      ++ track_events max_trigger (classifier (globals w)) (wrap_ulong (clock w))
      ++ press_events ++ [EvDelay 10]
  | None => [EvDelay 10]
  end.
Proof. apply events_of_app. apply BurstAware_loop_trace. Qed.

Lemma BurstAware_loop_debouncer (max_trigger : Z) (env : Env)
      (w : World BurstAware.Globals) :
  BurstAware.debouncer (globals (exec (BurstAware.loop_upto max_trigger env) w)) =
  fst (Debouncer.tick (BurstAware.debouncer (globals w))
                      (env TRIGGER_PIN (clock w)) (wrap_ulong (clock w))).
Proof.
  unfold exec at 1. rewrite BurstAware_loop_upto_spec. cbv zeta.
  destruct (Debouncer.tick _ _ _) as [[lr st lct] [v|]]; cbn [fst snd].
  - rewrite delay_globals, press_globals, track_debouncer. reflexivity.
  - rewrite delay_globals. reflexivity.
Qed.

Lemma StateVerified_loop_trace (env : Env) (w : World StateVerified.Globals) :
  trace (exec (StateVerified.loop env) w) =
  trace w ++
  match snd (Debouncer.tick (StateVerified.debouncer (globals w))
                            (env TRIGGER_PIN (clock w)) (wrap_ulong (clock w))) with
  | Some v =>
      stable_report v
      ++ match v, env POWER_LED_PIN (clock w) with
         | true, false | false, true => press_events
         | true, true => [EvPrintln "PC is already ON, no action needed."]
         | false, false => [EvPrintln "PC is already OFF, no action needed."]
         end
      ++ [EvDelay 10]
  | None => [EvDelay 10]
  end.
Proof.
  unfold exec at 1.
  rewrite StateVerified_loop_spec. cbv zeta.
  destruct (snd (Debouncer.tick _ _ _)) as [v|]; cbn [snd].
  - rewrite delay_trace, handle_trace.
    unfold committed. cbn [trace clock].
    rewrite <- !app_assoc. reflexivity.
  - rewrite delay_trace. reflexivity.
Qed.

Lemma StateVerified_loop_events (env : Env) (w : World StateVerified.Globals) :
  events_of (StateVerified.loop env) w =
  match snd (Debouncer.tick (StateVerified.debouncer (globals w))
                            (env TRIGGER_PIN (clock w)) (wrap_ulong (clock w))) with
  | Some v =>
      stable_report v
      ++ match v, env POWER_LED_PIN (clock w) with
         | true, false | false, true => press_events
         | true, true => [EvPrintln "PC is already ON, no action needed."]
         | false, false => [EvPrintln "PC is already OFF, no action needed."]
         end
      ++ [EvDelay 10]
  | None => [EvDelay 10]
  end.
Proof. apply events_of_app. apply StateVerified_loop_trace. Qed.

Lemma StateVerified_loop_debouncer (env : Env) (w : World StateVerified.Globals) :
  StateVerified.debouncer (globals (exec (StateVerified.loop env) w)) =
  fst (Debouncer.tick (StateVerified.debouncer (globals w))
                      (env TRIGGER_PIN (clock w)) (wrap_ulong (clock w))).
Proof.
  unfold exec at 1. rewrite StateVerified_loop_spec. cbv zeta.
  destruct (Debouncer.tick _ _ _) as [[lr st lct] [v|]]; cbn [fst snd].
  - rewrite delay_globals, handle_globals. reflexivity.
  - rewrite delay_globals. reflexivity.
Qed.

(** C1. In each of the three sketches, one pass of [loop] with raw reading
    [r] at time [now] leaves [lastReading = r]; sets [lastChangeTime] to
    [now] if [r] differs from the last recorded reading and leaves it alone
    otherwise; and, if [now - lastChangeTime] (after that update) exceeds
    [DEBOUNCE_MS] and [r] differs from the stored stable state, sets
    [stableTriggerState] to [r] and prints exactly one stable-change report,
    for [r]; in every other case the stable state is unchanged and no report
    is printed. *)
Theorem debouncer_update_step (env : Env) :
  (forall w : World Unconditional.Globals,
      debounce_rule (Unconditional.debouncer (globals w))
        (Unconditional.debouncer (globals (exec (Unconditional.loop env) w)))
        (env TRIGGER_PIN (clock w)) (wrap_ulong (clock w))
        (stable_reports (events_of (Unconditional.loop env) w))) /\
  (forall w : World BurstAware.Globals,
      debounce_rule (BurstAware.debouncer (globals w))
        (BurstAware.debouncer (globals (exec (BurstAware.loop env) w)))
        (env TRIGGER_PIN (clock w)) (wrap_ulong (clock w))
        (stable_reports (events_of (BurstAware.loop env) w))) /\
  (forall w : World StateVerified.Globals,
      debounce_rule (StateVerified.debouncer (globals w))
        (StateVerified.debouncer (globals (exec (StateVerified.loop env) w)))
        (env TRIGGER_PIN (clock w)) (wrap_ulong (clock w))
        (stable_reports (events_of (StateVerified.loop env) w))).
Proof.
  split; [|split]; intros w.
  - rewrite Unconditional_loop_debouncer, Unconditional_loop_events.
    pose proof (tick_rule (Unconditional.debouncer (globals w))
                  (env TRIGGER_PIN (clock w)) (wrap_ulong (clock w))) as H.
    destruct (snd (Debouncer.tick _ _ _)) as [v|]; [|exact H].
    rewrite stable_reports_commit. exact H.
  - unfold BurstAware.loop.
    rewrite BurstAware_loop_debouncer, BurstAware_loop_events.
    pose proof (tick_rule (BurstAware.debouncer (globals w))
                  (env TRIGGER_PIN (clock w)) (wrap_ulong (clock w))) as H.
    destruct (snd (Debouncer.tick _ _ _)) as [v|]; [|exact H].
    rewrite stable_reports_commit, stable_reports_track. exact H.
  - rewrite StateVerified_loop_debouncer, StateVerified_loop_events.
    pose proof (tick_rule (StateVerified.debouncer (globals w))
                  (env TRIGGER_PIN (clock w)) (wrap_ulong (clock w))) as H.
    destruct (snd (Debouncer.tick _ _ _)) as [v|]; [|exact H].
    rewrite stable_reports_commit.
    destruct v, (env POWER_LED_PIN (clock w)); exact H.
Qed.

(** ** C2: one step of the burst classifier *)

Lemma track_events_of (max_trigger : Z) (w : World BurstAware.Globals) :
  events_of (BurstAware.trackRapidChanges_upto max_trigger) w =
  track_events max_trigger (classifier (globals w)) (wrap_ulong (clock w)).
Proof. apply events_of_app. apply track_trace. Qed.

Lemma actions_shutdown (c : Z) :
  actions (count_report c ++ trigger_report ++ shutdown_events) = [HeldShutdown].
Proof. reflexivity. Qed.

Lemma actions_count_report (c : Z) : actions (count_report c ++ []) = [].
Proof. reflexivity. Qed.

Ltac classifier_cases :=
  cbv [classifier track_events BurstClassifier.step BurstClassifier.step_upto
       BurstClassifier.fire_or_not BurstClassifier.count_event
       BurstClassifier.window_expired BurstClassifier.qualifies
       globals clock fst snd
       BurstAware.rapidChangeCount BurstAware.firstChangeInWindow
       BurstClassifier.rapidChangeCount BurstClassifier.firstChangeInWindow]
    in *.

(** C2. One call of [trackRapidChanges] at time [now], with the counter
    below [INT_MAX]: if [now - firstChangeInWindow] exceeds
    [RAPID_CHANGE_WINDOW_MS], the counter becomes 1, the window starts at
    [now], and no shutdown is triggered; otherwise the counter is
    incremented, and then, if it lies in [MIN_RAPID_CHANGES_TRIGGER ..
    MAX_RAPID_CHANGES_TRIGGER], the hard shutdown is announced and held and
    the counter is reset to 0, and else the incremented counter stays and
    nothing is triggered. *)
Theorem burst_classifier_step (w : World BurstAware.Globals) :
  INT_MIN <= BurstAware.rapidChangeCount (globals w) < INT_MAX ->
  let g := globals w in
  let now := wrap_ulong (clock w) in
  let g' := globals (exec BurstAware.trackRapidChanges w) in
  let evs := events_of BurstAware.trackRapidChanges w in
  if ulong_sub now (BurstAware.firstChangeInWindow g)
       >? BurstAware.RAPID_CHANGE_WINDOW_MS
  then
    BurstAware.rapidChangeCount g' = 1 /\
    BurstAware.firstChangeInWindow g' = now /\
    evs = count_report 1 /\ actions evs = []
  else
    let c := BurstAware.rapidChangeCount g + 1 in
    if (BurstAware.MIN_RAPID_CHANGES_TRIGGER <=? c)
       && (c <=? BurstAware.MAX_RAPID_CHANGES_TRIGGER)
    then
      BurstAware.rapidChangeCount g' = 0 /\
      evs = count_report c ++ trigger_report ++ shutdown_events /\
      actions evs = [HeldShutdown]
    else
      BurstAware.rapidChangeCount g' = c /\
      evs = count_report c /\ actions evs = [].
Proof.
  intros Hrange. cbv zeta.
  unfold BurstAware.trackRapidChanges.
  rewrite track_events_of.
  pose proof (track_classifier BurstAware.MAX_RAPID_CHANGES_TRIGGER w) as Hc.
  destruct (globals (exec _ w)) as [lr' st' lct' cnt' first'].
  destruct w as [[lr st lct cnt first] c pm pl tr].
  classifier_cases.
  destruct (ulong_sub (wrap_ulong c) first >? BurstAware.RAPID_CHANGE_WINDOW_MS);
    classifier_cases.
  - change ((BurstAware.MIN_RAPID_CHANGES_TRIGGER <=? 1)
            && (1 <=? BurstAware.MAX_RAPID_CHANGES_TRIGGER)) with false in *.
    classifier_cases. injection Hc as -> ->.
    rewrite app_nil_r. repeat split.
  - rewrite int_incr_small in * by exact Hrange.
    destruct ((BurstAware.MIN_RAPID_CHANGES_TRIGGER <=? cnt + 1)
              && (cnt + 1 <=? BurstAware.MAX_RAPID_CHANGES_TRIGGER));
      classifier_cases; injection Hc as -> ->.
    + repeat split.
    + rewrite app_nil_r. repeat split.
Qed.

Lemma burst_classifier_step_witness :
  INT_MIN <= 2 < INT_MAX /\
  BurstAware.rapidChangeCount
    (globals (exec BurstAware.trackRapidChanges burst_step_world)) = 0 /\
  actions (events_of BurstAware.trackRapidChanges burst_step_world)
  = [HeldShutdown].
Proof.
  assert (H : INT_MIN <= 2 < INT_MAX) by (unfold INT_MIN, INT_MAX; lia).
  split; [exact H|].
  pose proof (burst_classifier_step burst_step_world H) as S.
  cbv zeta in S.
  change (ulong_sub (wrap_ulong (clock burst_step_world))
            (BurstAware.firstChangeInWindow (globals burst_step_world))
          >? BurstAware.RAPID_CHANGE_WINDOW_MS) with false in S.
  change ((BurstAware.MIN_RAPID_CHANGES_TRIGGER
           <=? BurstAware.rapidChangeCount (globals burst_step_world) + 1)
          && (BurstAware.rapidChangeCount (globals burst_step_world) + 1
              <=? BurstAware.MAX_RAPID_CHANGES_TRIGGER)) with true in S.
  destruct S as [S1 [_ S3]]. split; assumption.
Defined.

(** ** C10: what a call of [trackRapidChanges] leaves alone *)

(** The firing branch of [trackRapidChanges] (lines 156-161), on its own:
    it writes [rapidChangeCount], and nothing else. *)
Lemma fire_or_not_frame (max_trigger : Z) (s : BurstClassifier.State) :
  BurstClassifier.firstChangeInWindow
    (fst (BurstClassifier.fire_or_not max_trigger s))
  = BurstClassifier.firstChangeInWindow s.
Proof.
  unfold BurstClassifier.fire_or_not.
  destruct (BurstClassifier.qualifies _ _); reflexivity.
Qed.

Lemma step_fired_not_expired (max_trigger : Z) (s : BurstClassifier.State) (now : Z) :
  snd (snd (BurstClassifier.step_upto max_trigger s now)) = true ->
  BurstClassifier.window_expired s now = false.
Proof.
  unfold BurstClassifier.step_upto, BurstClassifier.fire_or_not,
    BurstClassifier.count_event, BurstClassifier.qualifies.
  destruct (BurstClassifier.window_expired s now); [|reflexivity].
  cbn [BurstClassifier.rapidChangeCount].
  change (BurstAware.MIN_RAPID_CHANGES_TRIGGER <=? 1) with false.
  cbn [andb snd]. discriminate.
Qed.

Lemma step_window_kept (max_trigger : Z) (s : BurstClassifier.State) (now : Z) :
  BurstClassifier.window_expired s now = false ->
  BurstClassifier.firstChangeInWindow
    (fst (BurstClassifier.step_upto max_trigger s now))
  = BurstClassifier.firstChangeInWindow s.
Proof.
  intros H.
  unfold BurstClassifier.step_upto, BurstClassifier.fire_or_not,
    BurstClassifier.count_event.
  rewrite H.
  destruct (BurstClassifier.qualifies _ _); reflexivity.
Qed.

Lemma step_fired_count (max_trigger : Z) (s : BurstClassifier.State) (now : Z) :
  snd (snd (BurstClassifier.step_upto max_trigger s now)) = true ->
  BurstClassifier.rapidChangeCount
    (fst (BurstClassifier.step_upto max_trigger s now)) = 0.
Proof.
  unfold BurstClassifier.step_upto, BurstClassifier.fire_or_not.
  destruct (BurstClassifier.qualifies _ _); cbn [fst snd]; [reflexivity|discriminate].
Qed.

(** C10. When a call of [trackRapidChanges] fires the hard shutdown, the
    only global it has changed is [rapidChangeCount], now 0:
    [firstChangeInWindow] and the three debounce variables are as before,
    so the next stable change is tested against the same window start, at
    whatever time it comes. And a call inside the window (the increment
    branch) leaves [firstChangeInWindow] as it was, fired or not. *)
Theorem burst_reset_frame (w : World BurstAware.Globals) :
  let s := classifier (globals w) in
  let now := wrap_ulong (clock w) in
  let w' := exec BurstAware.trackRapidChanges w in
  let s' := classifier (globals w') in
  (snd (snd (BurstClassifier.step s now)) = true ->
   BurstClassifier.rapidChangeCount s' = 0 /\
   BurstClassifier.firstChangeInWindow s' = BurstClassifier.firstChangeInWindow s /\
   BurstAware.debouncer (globals w') = BurstAware.debouncer (globals w) /\
   forall t, BurstClassifier.window_expired s' t
             = BurstClassifier.window_expired s t) /\
  (BurstClassifier.window_expired s now = false ->
   BurstClassifier.firstChangeInWindow s' = BurstClassifier.firstChangeInWindow s).
Proof.
  cbv zeta. unfold BurstAware.trackRapidChanges, BurstClassifier.step.
  rewrite track_classifier, track_debouncer.
  split.
  - intros Hfired.
    pose proof (step_fired_not_expired _ _ _ Hfired) as Hin.
    pose proof (step_window_kept BurstAware.MAX_RAPID_CHANGES_TRIGGER _ _ Hin) as Hw.
    repeat split.
    + apply step_fired_count. exact Hfired.
    + exact Hw.
    + intros t. unfold BurstClassifier.window_expired. rewrite Hw. reflexivity.
  - apply step_window_kept.
Qed.

Lemma burst_reset_frame_witness :
  snd (snd (BurstClassifier.step (classifier (globals burst_step_world))
              (wrap_ulong (clock burst_step_world)))) = true /\
  BurstClassifier.window_expired (classifier (globals burst_step_world))
    (wrap_ulong (clock burst_step_world)) = false /\
  BurstAware.rapidChangeCount
    (globals (exec BurstAware.trackRapidChanges burst_step_world)) = 0 /\
  BurstAware.firstChangeInWindow
    (globals (exec BurstAware.trackRapidChanges burst_step_world)) = 1200.
Proof.
  split; [reflexivity|]. split; [reflexivity|]. split.
  - exact (proj1 (proj1 (burst_reset_frame burst_step_world) eq_refl)).
  - exact (proj2 (burst_reset_frame burst_step_world) eq_refl).
Defined.

(** ** C9: the counter never passes the lower threshold *)

Lemma BurstAware_loop_classifier (max_trigger : Z) (env : Env)
      (w : World BurstAware.Globals) :
  classifier (globals (exec (BurstAware.loop_upto max_trigger env) w)) =
  match snd (Debouncer.tick (BurstAware.debouncer (globals w))
                            (env TRIGGER_PIN (clock w)) (wrap_ulong (clock w))) with
  | Some _ => fst (BurstClassifier.step_upto max_trigger (classifier (globals w))
                                             (wrap_ulong (clock w)))
  | None => classifier (globals w)
  end.
Proof.
  unfold exec at 1. rewrite BurstAware_loop_upto_spec. cbv zeta.
  destruct (Debouncer.tick _ _ _) as [[lr st lct] [v|]]; cbn [fst snd].
  - rewrite delay_globals, press_globals, track_classifier. reflexivity.
  - rewrite delay_globals. reflexivity.
Qed.

Lemma setup_classifier (env : Env) :
  classifier (globals (exec (BurstAware.setup env)
                            (boot BurstAware.initial_globals)))
  = BurstClassifier.initial.
Proof. reflexivity. Qed.

Lemma counted_bound (s : BurstClassifier.State) (now : Z) :
  0 <= BurstClassifier.rapidChangeCount s <= 2 ->
  1 <= BurstClassifier.rapidChangeCount (BurstClassifier.count_event s now) <= 3.
Proof.
  intros H. unfold BurstClassifier.count_event.
  destruct (BurstClassifier.window_expired s now);
    cbn [BurstClassifier.rapidChangeCount].
  - lia.
  - rewrite int_incr_small by (unfold INT_MIN, INT_MAX; lia). lia.
Qed.

Lemma qualifies_upto (max_trigger c : Z) :
  BurstAware.MIN_RAPID_CHANGES_TRIGGER <= max_trigger -> c <= 3 ->
  BurstClassifier.qualifies max_trigger c
  = BurstClassifier.qualifies BurstAware.MAX_RAPID_CHANGES_TRIGGER c.
Proof.
  unfold BurstClassifier.qualifies, BurstAware.MIN_RAPID_CHANGES_TRIGGER,
    BurstAware.MAX_RAPID_CHANGES_TRIGGER.
  intros Hmax Hc.
  destruct (3 <=? c); [|reflexivity]. cbn [andb].
  transitivity true; [apply Z.leb_le; lia | symmetry; apply Z.leb_le; lia].
Qed.

Lemma step_bound (max_trigger : Z) (s : BurstClassifier.State) (now : Z) :
  BurstAware.MIN_RAPID_CHANGES_TRIGGER <= max_trigger ->
  0 <= BurstClassifier.rapidChangeCount s <= 2 ->
  0 <= BurstClassifier.rapidChangeCount
         (fst (BurstClassifier.step_upto max_trigger s now)) <= 2.
Proof.
  intros Hmax H. pose proof (counted_bound s now H) as Hc.
  unfold BurstClassifier.step_upto, BurstClassifier.fire_or_not.
  destruct (BurstClassifier.qualifies max_trigger _) eqn:Hq;
    cbn [fst BurstClassifier.rapidChangeCount]; [lia|].
  unfold BurstClassifier.qualifies, BurstAware.MIN_RAPID_CHANGES_TRIGGER in *.
  apply andb_false_iff in Hq. destruct Hq as [Hq|Hq].
  - apply Z.leb_gt in Hq. lia.
  - apply Z.leb_gt in Hq. lia.
Qed.

Lemma track_upto (max_trigger : Z) (w : World BurstAware.Globals) :
  BurstAware.MIN_RAPID_CHANGES_TRIGGER <= max_trigger ->
  0 <= BurstAware.rapidChangeCount (globals w) <= 2 ->
  BurstAware.trackRapidChanges_upto max_trigger w
  = BurstAware.trackRapidChanges w.
Proof.
  intros Hmax H. unfold BurstAware.trackRapidChanges.
  rewrite !trackRapidChanges_upto_spec. cbv zeta.
  rewrite (qualifies_upto max_trigger); [reflexivity | exact Hmax |].
  apply (counted_bound (classifier (globals w))). exact H.
Qed.

Lemma loop_upto_eq (max_trigger : Z) (env : Env) (w : World BurstAware.Globals) :
  BurstAware.MIN_RAPID_CHANGES_TRIGGER <= max_trigger ->
  0 <= BurstAware.rapidChangeCount (globals w) <= 2 ->
  BurstAware.loop_upto max_trigger env w = BurstAware.loop env w.
Proof.
  intros Hmax H. unfold BurstAware.loop.
  rewrite !BurstAware_loop_upto_spec. cbv zeta.
  destruct (snd (Debouncer.tick _ _ _)) as [v|]; [|reflexivity].
  unfold exec at 3 6. rewrite track_upto; [reflexivity | exact Hmax | exact H].
Qed.

Lemma reachable_count (env : Env) (w : World BurstAware.Globals) :
  BurstAware.reachable env w ->
  0 <= BurstClassifier.rapidChangeCount (classifier (globals w)) <= 2.
Proof.
  induction 1 as [|w Hw IH|w d Hw IH Hd].
  - rewrite setup_classifier. cbn. lia.
  - unfold BurstAware.loop. rewrite BurstAware_loop_classifier.
    destruct (snd (Debouncer.tick _ _ _)); [|exact IH].
    apply step_bound; [|exact IH].
    unfold BurstAware.MIN_RAPID_CHANGES_TRIGGER,
      BurstAware.MAX_RAPID_CHANGES_TRIGGER. lia.
  - exact IH.
Qed.

(** C9. In every state the burst-aware sketch can reach, [rapidChangeCount]
    is 0, 1 or 2 between two passes of [loop], and the value
    [trackRapidChanges] prints and tests at the next stable change, whenever
    it comes, is 1, 2 or 3: the counter lies in {0, 1, 2, 3} and never
    exceeds [MIN_RAPID_CHANGES_TRIGGER]. So the test against
    [MAX_RAPID_CHANGES_TRIGGER] always succeeds, and with any other upper
    threshold not below the lower one [loop] does exactly the same. *)
Theorem counter_bound_invariant (env : Env) (w : World BurstAware.Globals) :
  BurstAware.reachable env w ->
  let s := classifier (globals w) in
  0 <= BurstClassifier.rapidChangeCount s <= 2 /\
  (forall now,
      1 <= BurstClassifier.rapidChangeCount (BurstClassifier.count_event s now)
        <= BurstAware.MIN_RAPID_CHANGES_TRIGGER) /\
  (forall now,
      (BurstClassifier.rapidChangeCount (BurstClassifier.count_event s now)
       <=? BurstAware.MAX_RAPID_CHANGES_TRIGGER) = true) /\
  (forall max_trigger,
      BurstAware.MIN_RAPID_CHANGES_TRIGGER <= max_trigger ->
      BurstAware.loop_upto max_trigger env w = BurstAware.loop env w).
Proof.
  intros Hw. cbv zeta. pose proof (reachable_count env w Hw) as H.
  split; [exact H|]. split; [|split].
  - intros now. apply counted_bound. exact H.
  - intros now. pose proof (counted_bound _ now H) as Hc.
    apply Z.leb_le. unfold BurstAware.MAX_RAPID_CHANGES_TRIGGER. lia.
  - intros max_trigger Hmax. apply loop_upto_eq; [exact Hmax|exact H].
Qed.

Lemma counter_bound_invariant_witness :
  BurstAware.reachable switched_off_env after_first_change /\
  BurstAware.rapidChangeCount (globals after_first_change) = 1 /\
  0 <= BurstAware.rapidChangeCount (globals after_first_change) <= 2 /\
  BurstAware.MIN_RAPID_CHANGES_TRIGGER <= 100 /\
  BurstAware.loop_upto 100 switched_off_env after_first_change
  = BurstAware.loop switched_off_env after_first_change.
Proof.
  assert (R : BurstAware.reachable switched_off_env after_first_change).
  { unfold after_first_change. cbn [Nat.iter].
    do 8 apply BurstAware.reach_loop. apply BurstAware.reach_setup. }
  assert (Hmax : BurstAware.MIN_RAPID_CHANGES_TRIGGER <= 100)
    by (unfold BurstAware.MIN_RAPID_CHANGES_TRIGGER; lia).
  pose proof (counter_bound_invariant switched_off_env after_first_change R)
    as [Hcount [_ [_ Hupto]]].
  split; [exact R|]. split; [vm_compute; reflexivity|].
  split; [exact Hcount|]. split; [exact Hmax|].
  exact (Hupto 100 Hmax).
Defined.

(** ** C5: counting inside one window *)

(** C5. The burst-window property fails in the window the sketch starts in.
    [firstChangeInWindow] is initialised to 0 (chris.ino 39), not to the
    time of a change, and [trackRapidChanges] measures the window from it:
    until 2000 ms after the start of the board a first change opens no
    window of its own. With the switch thrown at 1.4 s, 1.7 s and 2.0 s
    ([thrown_at_start_env]) the sketch commits three stable changes, in its
    48th, 58th and 68th pass, at 1470 ms, 1770 ms and 2070 ms: evenly
    spaced, the third 600 ms after the first, no shutdown triggered before
    it. [trackRapidChanges] prints 1, 2 and then 1 again where the property
    gives 3: the third change comes 2070 ms after the start of the board and
    finds the window expired. So the three changes trigger no hard shutdown;
    the line is held three times for 200 ms and never for 4000 ms. *)
Theorem boot_window_miscount :
  BurstAware.reachable thrown_at_start_env (thrown_at_start 68) /\
  map (fun n => clock (thrown_at_start n)) [47; 57; 67]%nat
  = [1470; 1770; 2070] /\
  map (fun n => stable_reports (trace (thrown_at_start n)))
      [47; 48; 57; 58; 67; 68]%nat
  = [ []; [LOW]; [LOW]; [LOW; HIGH]; [LOW; HIGH]; [LOW; HIGH; LOW] ] /\
  counts_printed (trace (thrown_at_start 68)) = [1; 2; 1] /\
  holds (trace (thrown_at_start 68)) = [200; 200; 200] /\
  BurstClassifier.run BurstClassifier.initial [1470; 1770; 2070]
  = (classifier (globals (thrown_at_start 68)),
     [(1, false); (2, false); (1, false)]) /\
  ~ burst_window_property BurstClassifier.initial [1470; 1770; 2070].
Proof.
  split.
  { unfold thrown_at_start. cbn [Nat.iter].
    do 68 apply BurstAware.reach_loop. apply BurstAware.reach_setup. }
  do 5 (split; [vm_compute; reflexivity|]).
  unfold burst_window_property. intros H.
  specialize (H eq_refl eq_refl eq_refl).
  vm_compute in H. discriminate H.
Qed.

(** The smallest case, two changes: the trigger settles at 1500 ms and again
    at 2500 ms after the start. Both changes lie within 2000 ms of the
    first, no shutdown has been triggered, and the second change finds the
    counter at 1, not 2. *)
Lemma two_changes_after_start :
  ~ burst_window_property BurstClassifier.initial [1500; 2500].
Proof.
  unfold burst_window_property. intros H.
  specialize (H eq_refl eq_refl eq_refl).
  vm_compute in H. discriminate H.
Qed.

(** The same in the running sketch ([thrown_twice_env]): both stable changes
    are committed within 2.7 s of the start, hence within the window length
    of each other, and [trackRapidChanges] prints 1 both times. *)
Lemma thrown_twice_counts :
  stable_reports (trace (thrown_twice 130)) = [LOW; HIGH] /\
  counts_printed (trace (thrown_twice 130)) = [1; 1] /\
  holds (trace (thrown_twice 130)) = [200; 200] /\
  clock (thrown_twice 130) = 2700.
Proof. vm_compute. repeat split. Qed.

Lemma run_in_window (rest : list Z) :
  forall (k t1 : Z),
    1 <= k <= 2 ->
    rest <> [] ->
    within_window_of t1 rest = true ->
    no_burst (removelast
                (snd (BurstClassifier.run (BurstClassifier.mkState k t1) rest)))
    = true ->
    counter_at_last (BurstClassifier.mkState k t1) rest
    = Some (k + Z.of_nat (length rest)).
Proof.
  induction rest as [|t rest IH]; intros k t1 Hk Hne Hin Hnb; [congruence|].
  unfold within_window_of in Hin. cbn [forallb] in Hin.
  apply andb_true_iff in Hin. destruct Hin as [Ht Hin].
  unfold counter_at_last in *. cbn [BurstClassifier.run] in *.
  unfold BurstClassifier.step, BurstClassifier.step_upto,
    BurstClassifier.fire_or_not, BurstClassifier.count_event,
    BurstClassifier.window_expired in *.
  cbn [BurstClassifier.firstChangeInWindow BurstClassifier.rapidChangeCount] in *.
  replace (ulong_sub t t1 >? BurstAware.RAPID_CHANGE_WINDOW_MS) with false in *
    by (symmetry; rewrite Z.gtb_ltb; apply Z.ltb_ge; apply Z.leb_le; exact Ht).
  cbn [BurstClassifier.firstChangeInWindow BurstClassifier.rapidChangeCount] in *.
  rewrite int_incr_small in * by (unfold INT_MIN, INT_MAX; lia).
  destruct rest as [|t' rest'].
  - (* the last event *)
    destruct (BurstClassifier.qualifies _ (k + 1));
      cbn [BurstClassifier.run snd last option_map fst length];
      f_equal; lia.
  - (* an earlier event: it must not have fired *)
    destruct (BurstClassifier.qualifies _ (k + 1)) eqn:Hq.
    + exfalso.
      destruct (BurstClassifier.run _ (t' :: rest')) as [s2 outs] eqn:Hrun.
      cbn [BurstClassifier.run] in Hrun.
      destruct (BurstClassifier.step _ t') as [s1' out'].
      destruct (BurstClassifier.run s1' rest') as [s2' outs'].
      injection Hrun as _ <-.
      cbn [snd removelast no_burst forallb negb andb] in Hnb. discriminate Hnb.
    + assert (Hk' : k = 1).
      { unfold BurstClassifier.qualifies, BurstAware.MIN_RAPID_CHANGES_TRIGGER,
          BurstAware.MAX_RAPID_CHANGES_TRIGGER in Hq.
        apply andb_false_iff in Hq. destruct Hq as [Hq|Hq];
          apply Z.leb_gt in Hq; lia. }
      subst k.
      specialize (IH (1 + 1) t1 ltac:(lia) ltac:(congruence) Hin).
      destruct (BurstClassifier.run (BurstClassifier.mkState (1 + 1) t1)
                                    (t' :: rest')) as [s2 outs] eqn:Hrun.
      assert (Houts : outs <> []).
      { cbn [BurstClassifier.run] in Hrun.
        destruct (BurstClassifier.step _ t') as [s1' out'].
        destruct (BurstClassifier.run s1' rest') as [s2' outs'].
        injection Hrun as _ <-. congruence. }
      destruct outs as [|o outs]; [congruence|].
      cbn [snd removelast no_burst forallb negb andb] in Hnb, IH |- *.
      change (last ((1 + 1, false) :: o :: outs)) with (last (o :: outs)).
      rewrite IH by exact Hnb.
      f_equal. cbn [length]. lia.
Qed.

(** X15. Once a change has opened the window, the sketch counts as the
    burst-window property says, whatever the spacing. If the first of N
    stable changes finds the window expired (it comes more than
    [RAPID_CHANGE_WINDOW_MS] after [firstChangeInWindow], so that
    [trackRapidChanges] starts a new window at it) and the others all fall
    within the window length of it, then the Nth change finds the counter at
    N, unless an earlier one of them has triggered the hard shutdown and
    reset it. *)
Theorem burst_window_counting (s : BurstClassifier.State) (t1 : Z) (rest : list Z) :
  BurstClassifier.window_expired s t1 = true ->
  within_window_of t1 rest = true ->
  no_burst (removelast (snd (BurstClassifier.run s (t1 :: rest)))) = true ->
  counter_at_last s (t1 :: rest) = Some (Z.of_nat (length (t1 :: rest))).
Proof.
  intros Hexp Hin Hnb.
  unfold counter_at_last in *. cbn [BurstClassifier.run] in *.
  unfold BurstClassifier.step, BurstClassifier.step_upto,
    BurstClassifier.fire_or_not, BurstClassifier.count_event in *.
  rewrite Hexp in *.
  cbn [BurstClassifier.firstChangeInWindow BurstClassifier.rapidChangeCount] in *.
  change (BurstClassifier.qualifies BurstAware.MAX_RAPID_CHANGES_TRIGGER 1)
    with false in *.
  destruct rest as [|t rest'].
  - reflexivity.
  - pose proof (run_in_window (t :: rest') 1 t1 ltac:(lia) ltac:(congruence) Hin)
      as IH.
    unfold counter_at_last in IH.
    destruct (BurstClassifier.run (BurstClassifier.mkState 1 t1) (t :: rest'))
      as [s2 outs] eqn:Hrun.
    assert (Houts : outs <> []).
    { cbn [BurstClassifier.run] in Hrun.
      destruct (BurstClassifier.step _ t) as [s1' out'].
      destruct (BurstClassifier.run s1' rest') as [s2' outs'].
      injection Hrun as _ <-. congruence. }
    destruct outs as [|o outs]; [congruence|].
    cbn [snd removelast no_burst forallb negb andb] in Hnb, IH |- *.
    change (last ((1, false) :: o :: outs)) with (last (o :: outs)).
    rewrite IH by exact Hnb.
    f_equal. cbn [length]. lia.
Qed.

(** Changes at 5000, 5100 and 5900 ms, with growing spacing, for a
    classifier whose last window started at 100 ms. *)
Lemma burst_window_counting_witness :
  BurstClassifier.window_expired (BurstClassifier.mkState 2 100) 5000 = true /\
  nonincreasing (gaps [5000; 5100; 5900]) = false /\
  counter_at_last (BurstClassifier.mkState 2 100) [5000; 5100; 5900]
  = Some 3.
Proof.
  split; [reflexivity|]. split; [reflexivity|].
  exact (burst_window_counting (BurstClassifier.mkState 2 100) 5000 [5100; 5900]
           eq_refl eq_refl eq_refl).
Defined.

(** ** C3: the state-verified dispatcher *)

Lemma handle_events (env : Env) (v : bool) (w : World StateVerified.Globals) :
  events_of (StateVerified.handleTriggerChange env v) w =
  match v, env POWER_LED_PIN (clock w) with
  | true, false | false, true => press_events
  | true, true => [EvPrintln "PC is already ON, no action needed."]
  | false, false => [EvPrintln "PC is already OFF, no action needed."]
  end.
Proof. apply events_of_app. apply handle_trace. Qed.

(** C3. [handleTriggerChange], called with the new stable state [s] while
    the power LED reads [p], performs one momentary press (it is
    [simulatePowerButtonPress], a 200 ms hold) if [s] is HIGH and [p] is
    false or [s] is LOW and [p] is true, and otherwise leaves the line, the
    clock and the globals alone; and one pass of the state-verified [loop]
    does the same for the stable change it commits, if any. No input makes
    either of them perform a held shutdown. *)
Theorem state_verified_dispatch (env : Env) :
  (forall (s : bool) (w : World StateVerified.Globals),
      let p := env POWER_LED_PIN (clock w) in
      let w' := exec (StateVerified.handleTriggerChange env s) w in
      let acts := actions (events_of (StateVerified.handleTriggerChange env s) w) in
      (if press_needed s p
       then acts = [MomentaryPress] /\ w' = exec simulatePowerButtonPress w
       else acts = [] /\ clock w' = clock w /\ pinModes w' = pinModes w
            /\ pinLevels w' = pinLevels w /\ globals w' = globals w)
      /\ ~ In HeldShutdown acts) /\
  (forall w : World StateVerified.Globals,
      let p := env POWER_LED_PIN (clock w) in
      let acts := actions (events_of (StateVerified.loop env) w) in
      acts = match snd (Debouncer.tick (StateVerified.debouncer (globals w))
                          (env TRIGGER_PIN (clock w)) (wrap_ulong (clock w))) with
             | Some s => if press_needed s p then [MomentaryPress] else []
             | None => []
             end
      /\ ~ In HeldShutdown acts).
Proof.
  split.
  - intros s w. cbv zeta. rewrite handle_events, handle_exec.
    destruct s, (env POWER_LED_PIN (clock w)); cbn [press_needed andb orb negb].
    + split; [repeat split|]. cbn. tauto.
    + split; [split; reflexivity|]. cbn. intros [H|[]]. discriminate H.
    + split; [split; reflexivity|]. cbn. intros [H|[]]. discriminate H.
    + split; [repeat split|]. cbn. tauto.
  - intros w. cbv zeta. rewrite StateVerified_loop_events.
    destruct (snd (Debouncer.tick _ _ _)) as [s|].
    + destruct s, (env POWER_LED_PIN (clock w));
        cbn [press_needed andb orb negb]; (split; [reflexivity|]); cbn;
        solve [ tauto | intros [H|[]]; discriminate H ].
    + split; [reflexivity|]. cbn. tauto.
Qed.

(** ** C4: the burst-aware dispatcher *)

Lemma actions_burst_aware (v : bool) (c : Z) :
  actions (stable_report v
           ++ (count_report c ++ trigger_report ++ shutdown_events)
           ++ press_events ++ [EvDelay 10])
  = [HeldShutdown; MomentaryPress].
Proof. destruct v; reflexivity. Qed.

Lemma actions_no_burst (v : bool) (c : Z) :
  actions (stable_report v ++ (count_report c ++ []) ++ press_events
           ++ [EvDelay 10])
  = [MomentaryPress].
Proof. destruct v; reflexivity. Qed.

(** C4. One pass of the burst-aware [loop] that commits a stable change
    performs a momentary press (200 ms); if that change makes
    [trackRapidChanges] fire, a held shutdown (4000 ms) comes in addition
    and before the press, which still follows. The log of such a pass is the
    stable-change report, the classifier's report and shutdown if any, then
    the press. A pass that commits nothing performs no action. *)
Theorem burst_aware_dispatch (env : Env) (w : World BurstAware.Globals) :
  let now := wrap_ulong (clock w) in
  let committed_state :=
    snd (Debouncer.tick (BurstAware.debouncer (globals w))
                        (env TRIGGER_PIN (clock w)) now) in
  let out := snd (BurstClassifier.step (classifier (globals w)) now) in
  let evs := events_of (BurstAware.loop env) w in
  match committed_state with
  | Some v =>
      evs = stable_report v
            ++ count_report (fst out)
            ++ (if snd out then trigger_report ++ shutdown_events else [])
            ++ press_events ++ [EvDelay 10] /\
      actions evs = (if snd out then [HeldShutdown; MomentaryPress]
                     else [MomentaryPress]) /\
      holds evs = (if snd out then [4000; 200] else [200])
  | None => evs = [EvDelay 10] /\ actions evs = [] /\ holds evs = []
  end.
Proof.
  cbv zeta. unfold BurstAware.loop. rewrite BurstAware_loop_events.
  destruct (snd (Debouncer.tick _ _ _)) as [v|]; [|repeat split].
  unfold track_events. fold BurstClassifier.step.
  destruct (BurstClassifier.step _ _) as [s' [c fired]]. cbn [fst snd].
  destruct fired.
  - split; [rewrite <- !app_assoc; reflexivity|].
    split; [apply actions_burst_aware|].
    destruct v; reflexivity.
  - split; [rewrite <- !app_assoc; reflexivity|].
    split; [apply actions_no_burst|].
    destruct v; reflexivity.
Qed.

(** ** C8: the power-button line is released after every action *)

Lemma committed_released {G : Type} (g' : G) (v : bool) (w : World G) :
  line_released w -> line_released (committed g' v w).
Proof.
  intros [Hm Hl]. unfold line_released, committed. cbn [pinModes pinLevels].
  split; [exact Hm|].
  rewrite lookup_insert_ne; [exact Hl|].
  unfold LED_TRIGGER_STATE, LED_PRESS_ACTIVE. lia.
Qed.

Lemma Unconditional_loop_released (env : Env) (w : World Unconditional.Globals) :
  line_released w -> line_released (exec (Unconditional.loop env) w).
Proof.
  intros H. unfold exec at 1. rewrite Unconditional_loop_spec. cbv zeta.
  destruct (snd (Debouncer.tick _ _ _)); cbn [snd].
  - apply delay_released, press_released.
  - apply delay_released. exact H.
Qed.

Lemma BurstAware_loop_released (env : Env) (w : World BurstAware.Globals) :
  line_released w -> line_released (exec (BurstAware.loop env) w).
Proof.
  intros H. unfold exec at 1, BurstAware.loop.
  rewrite BurstAware_loop_upto_spec. cbv zeta.
  destruct (snd (Debouncer.tick _ _ _)); cbn [snd].
  - apply delay_released, press_released.
  - apply delay_released. exact H.
Qed.

Lemma StateVerified_loop_released (env : Env) (w : World StateVerified.Globals) :
  line_released w -> line_released (exec (StateVerified.loop env) w).
Proof.
  intros H. unfold exec at 1. rewrite StateVerified_loop_spec. cbv zeta.
  destruct (snd (Debouncer.tick _ _ _)); cbn [snd].
  - apply delay_released, handle_released, committed_released. exact H.
  - apply delay_released. exact H.
Qed.

Lemma Unconditional_reachable_released (env : Env) (w : World Unconditional.Globals) :
  Unconditional.reachable env w -> line_released w.
Proof.
  induction 1 as [|w Hw IH|w d Hw IH Hd].
  - split; reflexivity.
  - apply Unconditional_loop_released. exact IH.
  - exact IH.
Qed.

Lemma BurstAware_reachable_released (env : Env) (w : World BurstAware.Globals) :
  BurstAware.reachable env w -> line_released w.
Proof.
  induction 1 as [|w Hw IH|w d Hw IH Hd].
  - split; reflexivity.
  - apply BurstAware_loop_released. exact IH.
  - exact IH.
Qed.

Lemma StateVerified_reachable_released (env : Env) (w : World StateVerified.Globals) :
  StateVerified.reachable env w -> line_released w.
Proof.
  induction 1 as [|w Hw IH|w d Hw IH Hd].
  - split; reflexivity.
  - apply StateVerified_loop_released. exact IH.
  - exact IH.
Qed.

Lemma holds_from_app (a b : list Event) :
  forall driving : option Z,
    holds_from driving (a ++ b)
    = holds_from driving a ++ holds_from (driving_after driving a) b.
Proof.
  induction a as [|e a IH]; intros driving; [reflexivity|].
  destruct e as [baud|str|str|n|pin mode|pin level|ms];
    cbn [app holds_from driving_after]; try apply IH.
  destruct (pin =? POWER_BTN_PIN); [|apply IH].
  destruct mode, driving; cbn [app]; rewrite ?IH; reflexivity.
Qed.

Lemma driving_after_app (a b : list Event) :
  forall driving : option Z,
    driving_after driving (a ++ b) = driving_after (driving_after driving a) b.
Proof.
  induction a as [|e a IH]; intros driving; [reflexivity|].
  destruct e as [baud|str|str|n|pin mode|pin level|ms];
    cbn [app driving_after]; try apply IH.
  destruct (pin =? POWER_BTN_PIN); [|apply IH].
  destruct mode, driving; apply IH.
Qed.

Lemma log_released_app (a b : list Event) :
  log_released a -> log_released b -> log_released (a ++ b).
Proof.
  intros [Ha1 Ha2] [Hb1 Hb2]. unfold log_released, holds in *.
  rewrite driving_after_app, holds_from_app, Ha1, forallb_app, Ha2, Hb2.
  split; [exact Hb1|reflexivity].
Qed.

Lemma stable_report_released (v : bool) : log_released (stable_report v).
Proof. split; reflexivity. Qed.

Lemma track_events_released (max_trigger : Z) (s : BurstClassifier.State) (now : Z) :
  log_released (track_events max_trigger s now).
Proof.
  unfold track_events.
  destruct (snd (snd (BurstClassifier.step_upto max_trigger s now)));
    split; reflexivity.
Qed.

Lemma Unconditional_log_released (env : Env) (w : World Unconditional.Globals) :
  Unconditional.reachable env w -> log_released (trace w).
Proof.
  induction 1 as [|w Hw IH|w d Hw IH Hd].
  - split; reflexivity.
  - rewrite Unconditional_loop_trace. apply log_released_app; [exact IH|].
    destruct (snd (Debouncer.tick _ _ _)) as [v|]; [|split; reflexivity].
    apply log_released_app; [apply stable_report_released|split; reflexivity].
  - exact IH.
Qed.

Lemma BurstAware_log_released (env : Env) (w : World BurstAware.Globals) :
  BurstAware.reachable env w -> log_released (trace w).
Proof.
  induction 1 as [|w Hw IH|w d Hw IH Hd].
  - split; reflexivity.
  - unfold BurstAware.loop. rewrite BurstAware_loop_trace.
    apply log_released_app; [exact IH|].
    destruct (snd (Debouncer.tick _ _ _)) as [v|]; [|split; reflexivity].
    apply log_released_app; [apply stable_report_released|].
    apply log_released_app; [apply track_events_released|split; reflexivity].
  - exact IH.
Qed.

Lemma StateVerified_log_released (env : Env) (w : World StateVerified.Globals) :
  StateVerified.reachable env w -> log_released (trace w).
Proof.
  induction 1 as [|w Hw IH|w d Hw IH Hd].
  - split; reflexivity.
  - rewrite StateVerified_loop_trace. apply log_released_app; [exact IH|].
    destruct (snd (Debouncer.tick _ _ _)) as [v|]; [|split; reflexivity].
    apply log_released_app; [apply stable_report_released|].
    destruct v, (env POWER_LED_PIN (clock w)); split; reflexivity.
  - exact IH.
Qed.

(** C8. A momentary press logs exactly: indicator on, line to output, line
    low, 200 ms, line back to input, indicator off (between its two console
    messages); a held shutdown logs the same with 80 waits of 50 ms, 4000 ms
    in all, in place of the 200 ms. Both take exactly that long and end with
    the line an input and the indicator off. And in every state any of the
    three sketches can reach between two passes of [loop], the line is an
    input and the indicator is off, and the log up to there shows the line
    released at its end and no hold of it other than of 200 ms or 4000 ms. *)
Theorem output_line_release :
  (forall (G : Type) (w : World G),
      events_of simulatePowerButtonPress w =
        [ EvPrintln "Simulating power button press...";
          EvDigitalWrite LED_PRESS_ACTIVE HIGH;
          EvPinMode POWER_BTN_PIN OUTPUT;
          EvDigitalWrite POWER_BTN_PIN LOW;
          EvDelay 200;
          EvPinMode POWER_BTN_PIN INPUT;
          EvDigitalWrite LED_PRESS_ACTIVE LOW;
          EvPrintln "Released power button." ] /\
      clock (exec simulatePowerButtonPress w) = clock w + 200 /\
      line_released (exec simulatePowerButtonPress w)) /\
  (forall w : World BurstAware.Globals,
      events_of BurstAware.simulateHardShutdown w =
        [ EvDigitalWrite LED_PRESS_ACTIVE HIGH;
          EvPinMode POWER_BTN_PIN OUTPUT;
          EvDigitalWrite POWER_BTN_PIN LOW ]
        ++ repeat (EvDelay 50) 80
        ++ [ EvPinMode POWER_BTN_PIN INPUT;
             EvDigitalWrite LED_PRESS_ACTIVE LOW;
             EvPrintln "Hard shutdown complete." ] /\
      clock (exec BurstAware.simulateHardShutdown w) = clock w + 4000 /\
      line_released (exec BurstAware.simulateHardShutdown w)) /\
  (forall env w, Unconditional.reachable env w ->
                 line_released w /\ log_released (trace w)) /\
  (forall env w, BurstAware.reachable env w ->
                 line_released w /\ log_released (trace w)) /\
  (forall env w, StateVerified.reachable env w ->
                 line_released w /\ log_released (trace w)).
Proof.
  split; [|split; [|split; [|split]]].
  - intros G w. split; [|split].
    + apply events_of_app. apply press_trace.
    + apply press_clock.
    + apply press_released.
  - intros w. split; [|split].
    + apply events_of_app. unfold exec.
      rewrite simulateHardShutdown_spec. reflexivity.
    + unfold exec. rewrite simulateHardShutdown_spec. reflexivity.
    + apply shutdown_released.
  - intros env w R. split.
    + apply (Unconditional_reachable_released env w R).
    + apply (Unconditional_log_released env w R).
  - intros env w R. split.
    + apply (BurstAware_reachable_released env w R).
    + apply (BurstAware_log_released env w R).
  - intros env w R. split.
    + apply (StateVerified_reachable_released env w R).
    + apply (StateVerified_log_released env w R).
Qed.

Lemma output_line_release_witness :
  BurstAware.reachable switched_off_env after_first_change /\
  pinModes after_first_change !! POWER_BTN_PIN = Some INPUT /\
  pinLevels after_first_change !! LED_PRESS_ACTIVE = Some LOW /\
  holds (trace after_first_change) = [200].
Proof.
  assert (R : BurstAware.reachable switched_off_env after_first_change).
  { unfold after_first_change. cbn [Nat.iter].
    do 8 apply BurstAware.reach_loop. apply BurstAware.reach_setup. }
  split; [exact R|].
  destruct (proj1 (proj2 (proj2 (proj2 output_line_release)))
              switched_off_env after_first_change R) as [[Hm Hl] _].
  split; [exact Hm|]. split; [exact Hl|]. vm_compute. reflexivity.
Defined.

(** ** C6: scenario A *)

(** The scenario as stated: persisted for at least 50 ms. With the level
    then held to t = 160, the last raw edge is at t = 40 and the first
    sample at least 50 ms later is the one at t = 90; the event comes one
    sample later, at t = 100. *)
Lemma scenario_A_at_least_fails :
  ~ scenario_A_outcome (fun d => DEBOUNCE_MS <=? d) 10.
Proof.
  unfold scenario_A_outcome. vm_compute. intros H. discriminate H.
Qed.

Lemma run_app (s : Debouncer.State) (a b : list (bool * Z)) :
  Debouncer.run s (a ++ b) =
  let (s1, e1) := Debouncer.run s a in
  let (s2, e2) := Debouncer.run s1 b in
  (s2, e1 ++ e2).
Proof.
  revert s. induction a as [|[r t] a IH]; intros s.
  - cbn [app Debouncer.run]. destruct (Debouncer.run s b). reflexivity.
  - cbn [app Debouncer.run].
    destruct (Debouncer.tick s r (wrap_ulong t)) as [s1 ev].
    rewrite IH.
    destruct (Debouncer.run s1 a) as [s2 e1].
    destruct (Debouncer.run s2 b) as [s3 e2].
    destruct ev; reflexivity.
Qed.

(** Once the stable state and the last reading agree, samples of that same
    level change nothing. *)
Lemma run_steady (n : nat) :
  forall (t lct : Z),
    Debouncer.run (Debouncer.mkState HIGH HIGH lct) (high_from t n)
    = (Debouncer.mkState HIGH HIGH lct, []).
Proof.
  induction n as [|n IH]; intros t lct; [reflexivity|].
  cbn [high_from Debouncer.run].
  unfold Debouncer.tick at 1.
  cbv [bool_neq Bool.eqb negb HIGH Debouncer.lastReading
       Debouncer.stableTriggerState Debouncer.lastChangeTime].
  destruct (ulong_sub (wrap_ulong t) lct >? DEBOUNCE_MS);
    fold HIGH; rewrite IH; reflexivity.
Qed.

Lemma last_edge_steady (n : nat) :
  forall (t : Z) (acc : option Z), last_edge HIGH acc (high_from t n) = acc.
Proof.
  induction n as [|n IH]; intros t acc; [reflexivity|].
  cbn [high_from last_edge]. apply IH.
Qed.

Lemma find_app_some {A : Type} (p : A -> bool) (a b : list A) (x : A) :
  find p a = Some x -> find p (a ++ b) = Some x.
Proof.
  induction a as [|y a IH]; cbn [find app]; [discriminate|].
  destruct (p y); [trivial|exact IH].
Qed.

Lemma scenario_A_split (n : nat) :
  scenario_A (4 + n) = scenario_A 4 ++ high_from 110 n.
Proof. unfold scenario_A. rewrite <- app_assoc. reflexivity. Qed.

(** C6 as amended. In scenario A, with the level then held HIGH for [n]
    further samples, the last raw edge is the one at t = 40, and the
    debouncer emits exactly one stable-change event over the whole run, for
    HIGH, at the first sample at which HIGH has persisted for more than 50 ms
    since that edge: the sample at t = 100, which the run has when [n] is at
    least 4. A shorter run has no event. *)
Theorem scenario_A_debounce (n : nat) :
  scenario_A_outcome (fun d => DEBOUNCE_MS <? d) n /\
  last_edge LOW None (scenario_A n) = Some 40 /\
  snd (Debouncer.run (Debouncer.init LOW 0) (scenario_A n))
  = if (4 <=? n)%nat then [(100, HIGH)] else [].
Proof.
  assert (Hedge : last_edge LOW None (scenario_A n) = Some 40).
  { unfold scenario_A, scenario_A_samples.
    cbn [app last_edge bool_neq Bool.eqb negb HIGH LOW].
    apply (last_edge_steady n 70 (Some 40)). }
  destruct n as [|[|[|[|n]]]].
  1-4: unfold scenario_A_outcome; vm_compute; repeat split.
  assert (Hrun : snd (Debouncer.run (Debouncer.init LOW 0)
                        (scenario_A (4 + n))) = [(100, HIGH)]).
  { rewrite scenario_A_split, run_app.
    change (Debouncer.run (Debouncer.init LOW 0) (scenario_A 4))
      with (Debouncer.mkState HIGH HIGH 40, [(100, HIGH)]).
    cbv beta iota. rewrite run_steady. reflexivity. }
  split; [|split; [exact Hedge | exact Hrun]].
  unfold scenario_A_outcome. cbv zeta.
  change (S (S (S (S n)))) with (4 + n)%nat in *.
  rewrite Hedge, Hrun.
  rewrite scenario_A_split. unfold first_tick_since.
  rewrite (find_app_some _ _ _ (HIGH, 100)) by reflexivity.
  reflexivity.
Qed.

(** ** C7: chatter *)

Lemma ulong_sub_wrap (a b : Z) :
  ulong_sub (wrap_ulong a) (wrap_ulong b) = (a - b) mod ULONG_MODULUS.
Proof. unfold ulong_sub, wrap_ulong. rewrite <- Zminus_mod. reflexivity. Qed.

Lemma elapsed_exceeds (t e : Z) :
  e <= t ->
  (ulong_sub (wrap_ulong t) (wrap_ulong e) >? DEBOUNCE_MS) = true ->
  DEBOUNCE_MS < t - e.
Proof.
  intros Hle H. rewrite ulong_sub_wrap in H. apply Z.gtb_lt in H.
  destruct (Z_le_gt_dec (t - e) DEBOUNCE_MS) as [Hs|Hs]; [|lia].
  rewrite Z.mod_small in H by (unfold ULONG_MODULUS, DEBOUNCE_MS in *; lia).
  lia.
Qed.

Lemma tick_lastReading (s : Debouncer.State) (r : bool) (now : Z) :
  Debouncer.lastReading (fst (Debouncer.tick s r now)) = r.
Proof. apply (tick_rule s r now). Qed.

Lemma run_lastReading (ticks : list (bool * Z)) :
  forall s : Debouncer.State,
    Debouncer.lastReading (fst (Debouncer.run s ticks))
    = final_level (Debouncer.lastReading s) ticks.
Proof.
  induction ticks as [|[r t] ticks IH]; intros s; [reflexivity|].
  cbn [Debouncer.run final_level].
  pose proof (tick_lastReading s r (wrap_ulong t)) as Hr.
  destruct (Debouncer.tick s r (wrap_ulong t)) as [s1 ev]. cbn [fst] in Hr.
  specialize (IH s1).
  destruct (Debouncer.run s1 ticks) as [s2 evs]. cbn [fst] in *.
  rewrite IH, Hr. reflexivity.
Qed.

(** After a commit, with the debounce interval already over since the last
    edge, a chatter has no room for a further edge: nothing happens. *)
Lemma run_settled (ticks : list (bool * Z)) :
  forall (s : Debouncer.State) (e tprev : Z),
    Debouncer.stableTriggerState s = Debouncer.lastReading s ->
    DEBOUNCE_MS < tprev - e ->
    times_from tprev ticks = true ->
    chatter_from (Some e) (Debouncer.lastReading s) ticks = true ->
    Debouncer.run s ticks = (s, []).
Proof.
  induction ticks as [|[r t] ticks IH]; intros s e tprev Hq He Hord Hch;
    [reflexivity|].
  cbn [times_from] in Hord. apply andb_true_iff in Hord.
  destruct Hord as [Ht Hord]. apply Z.leb_le in Ht.
  cbn [chatter_from] in Hch.
  destruct s as [lr st lct]. cbn [Debouncer.lastReading
    Debouncer.stableTriggerState] in *. subst st.
  destruct (bool_neq r lr) eqn:Hedge.
  - apply andb_true_iff in Hch. destruct Hch as [Hgap _].
    apply Z.leb_le in Hgap. lia.
  - assert (r = lr) by (destruct r, lr; cbn in Hedge; congruence). subst r.
    cbn [Debouncer.run]. unfold Debouncer.tick.
    cbn [Debouncer.lastReading Debouncer.stableTriggerState
         Debouncer.lastChangeTime].
    rewrite Hedge.
    cbn [Debouncer.lastReading Debouncer.stableTriggerState
         Debouncer.lastChangeTime].
    rewrite Hedge.
    destruct (ulong_sub (wrap_ulong t) lct >? DEBOUNCE_MS);
      rewrite (IH _ e t) by (cbn; trivial || lia); reflexivity.
Qed.

(** During a chatter: at most one event, and it reports the final level. *)
Lemma run_chatter (ticks : list (bool * Z)) :
  forall (s : Debouncer.State) (e tprev : Z),
    e <= tprev ->
    Debouncer.lastChangeTime s = wrap_ulong e ->
    times_from tprev ticks = true ->
    chatter_from (Some e) (Debouncer.lastReading s) ticks = true ->
    let events := snd (Debouncer.run s ticks) in
    (length events <= 1)%nat /\
    forall t v, In (t, v) events
                -> v = final_level (Debouncer.lastReading s) ticks.
Proof.
  induction ticks as [|[r t] ticks IH]; intros s e tprev Hle Hlct Hord Hch;
    [cbn; split; [lia|tauto]|].
  cbn [times_from] in Hord. apply andb_true_iff in Hord.
  destruct Hord as [Ht Hord]. apply Z.leb_le in Ht.
  cbn [chatter_from] in Hch.
  destruct s as [lr st lct]. cbn [Debouncer.lastReading
    Debouncer.stableTriggerState Debouncer.lastChangeTime] in *. subst lct.
  cbv zeta. cbn [Debouncer.run final_level]. unfold Debouncer.tick.
  cbn [Debouncer.lastReading Debouncer.stableTriggerState
       Debouncer.lastChangeTime].
  destruct (bool_neq r lr) eqn:Hedge.
  - (* a raw edge: the timer restarts, nothing is committed *)
    apply andb_true_iff in Hch. destruct Hch as [_ Hch].
    cbn [Debouncer.lastReading Debouncer.stableTriggerState
         Debouncer.lastChangeTime].
    rewrite ulong_sub_diag. change (0 >? DEBOUNCE_MS) with false. cbv iota.
    specialize (IH (Debouncer.mkState r st (wrap_ulong t)) t t
                   ltac:(lia) eq_refl Hord Hch).
    cbv zeta in IH.
    destruct (Debouncer.run _ ticks) as [s2 evs]. cbn [snd] in *.
    exact IH.
  - assert (r = lr) by (destruct r, lr; cbn in Hedge; congruence). subst r.
    cbn [Debouncer.lastReading Debouncer.stableTriggerState
         Debouncer.lastChangeTime].
    destruct (ulong_sub (wrap_ulong t) (wrap_ulong e) >? DEBOUNCE_MS) eqn:Hel.
    + destruct (bool_neq lr st) eqn:Hst.
      * (* the commit; after it the run is settled *)
        pose proof (elapsed_exceeds t e ltac:(lia) Hel) as Hover.
        pose proof (run_lastReading ticks
                      (Debouncer.mkState lr lr (wrap_ulong e))) as Hl.
        rewrite (run_settled ticks _ e t) in Hl |- * by (cbn; trivial).
        cbn [fst snd length In Debouncer.lastReading] in *. split; [lia|].
        intros t0 v [Heq|[]]. injection Heq as _ <-. exact Hl.
      * specialize (IH (Debouncer.mkState lr st (wrap_ulong e)) e t
                       ltac:(lia) eq_refl Hord Hch).
        cbv zeta in IH.
        destruct (Debouncer.run _ ticks) as [s2 evs]. cbn [snd] in *.
        exact IH.
    + specialize (IH (Debouncer.mkState lr st (wrap_ulong e)) e t
                     ltac:(lia) eq_refl Hord Hch).
      cbv zeta in IH.
      destruct (Debouncer.run _ ticks) as [s2 evs]. cbn [snd] in *.
      exact IH.
Qed.

(** Before the first edge of the chatter, with the stable state and the last
    reading in agreement, nothing happens. *)
Lemma run_before_chatter (ticks : list (bool * Z)) :
  forall (s : Debouncer.State) (tprev : Z),
    Debouncer.stableTriggerState s = Debouncer.lastReading s ->
    times_from tprev ticks = true ->
    chatter_from None (Debouncer.lastReading s) ticks = true ->
    let events := snd (Debouncer.run s ticks) in
    (length events <= 1)%nat /\
    forall t v, In (t, v) events
                -> v = final_level (Debouncer.lastReading s) ticks.
Proof.
  induction ticks as [|[r t] ticks IH]; intros s tprev Hq Hord Hch;
    [cbn; split; [lia|tauto]|].
  cbn [times_from] in Hord. apply andb_true_iff in Hord.
  destruct Hord as [Ht Hord].
  cbn [chatter_from] in Hch.
  destruct s as [lr st lct]. cbn [Debouncer.lastReading
    Debouncer.stableTriggerState Debouncer.lastChangeTime] in *. subst st.
  destruct (bool_neq r lr) eqn:Hedge.
  - (* the first edge *)
    cbn [andb] in Hch.
    pose proof (run_chatter ((r, t) :: ticks)
                  (Debouncer.mkState lr lr (wrap_ulong t)) t t
                  ltac:(lia) eq_refl) as H.
    cbn [times_from chatter_from Debouncer.lastReading] in H.
    rewrite Hedge, Z.leb_refl, Z.sub_diag in H.
    specialize (H Hord Hch).
    cbv zeta in *. cbn [Debouncer.run final_level] in *.
    unfold Debouncer.tick in *.
    cbn [Debouncer.lastReading Debouncer.stableTriggerState
         Debouncer.lastChangeTime] in *.
    rewrite Hedge in *.
    cbn [Debouncer.lastReading Debouncer.stableTriggerState
         Debouncer.lastChangeTime] in *.
    exact H.
  - assert (r = lr) by (destruct r, lr; cbn in Hedge; congruence). subst r.
    specialize (IH (Debouncer.mkState lr lr lct) t eq_refl Hord Hch).
    cbv zeta in *. cbn [Debouncer.run final_level]. unfold Debouncer.tick.
    cbn [Debouncer.lastReading Debouncer.stableTriggerState
         Debouncer.lastChangeTime] in *.
    rewrite Hedge.
    cbn [Debouncer.lastReading Debouncer.stableTriggerState
         Debouncer.lastChangeTime].
    rewrite Hedge.
    destruct (ulong_sub (wrap_ulong t) lct >? DEBOUNCE_MS);
      destruct (Debouncer.run _ ticks) as [s2 evs]; exact IH.
Qed.

(** C7. Take the debouncer with its stable state equal to the last reading
    (as [setup] leaves it, and every commit), and any run of polling ticks,
    in the order of their times, in which every raw edge comes within
    [DEBOUNCE_MS] of the edge before it. The run emits at most one
    stable-change event, and an event it emits reports the raw level at the
    end of the run. *)
Theorem chatter_rejection (s : Debouncer.State) (ticks : list (bool * Z)) :
  Debouncer.stableTriggerState s = Debouncer.lastReading s ->
  times_ordered ticks = true ->
  chatter_from None (Debouncer.lastReading s) ticks = true ->
  let events := snd (Debouncer.run s ticks) in
  (length events <= 1)%nat /\
  forall t v, In (t, v) events -> v = final_level (Debouncer.lastReading s) ticks.
Proof.
  intros Hq Hord Hch.
  destruct ticks as [|[r t] ticks]; [cbn; split; [lia|tauto]|].
  apply (run_before_chatter ((r, t) :: ticks) s t Hq Hord Hch).
Qed.

Lemma chatter_rejection_witness :
  times_ordered bouncing_ticks = true /\
  chatter_from None HIGH bouncing_ticks = true /\
  snd (Debouncer.run (Debouncer.init HIGH 0) bouncing_ticks) = [(1080, LOW)] /\
  (length (snd (Debouncer.run (Debouncer.init HIGH 0) bouncing_ticks)) <= 1)%nat /\
  forall t v, In (t, v) (snd (Debouncer.run (Debouncer.init HIGH 0) bouncing_ticks))
              -> v = LOW.
Proof.
  split; [reflexivity|]. split; [reflexivity|]. split; [reflexivity|].
  exact (chatter_rejection (Debouncer.init HIGH 0) bouncing_ticks
           eq_refl eq_refl eq_refl).
Defined.

(** * Further properties *)

(** ** The unconditional dispatcher, and how long a pass takes *)

Lemma actions_unconditional (v : bool) :
  actions (stable_report v ++ press_events ++ [EvDelay 10]) = [MomentaryPress].
Proof. destruct v; reflexivity. Qed.

(** X1. One pass of the unconditional [loop] presses the power button once
    (a 200 ms hold) if it commits a stable change, whichever way the switch
    went, and does nothing to the line if it commits none. *)
Theorem unconditional_dispatch (env : Env) (w : World Unconditional.Globals) :
  let evs := events_of (Unconditional.loop env) w in
  match snd (Debouncer.tick (Unconditional.debouncer (globals w))
                            (env TRIGGER_PIN (clock w)) (wrap_ulong (clock w))) with
  | Some v => evs = stable_report v ++ press_events ++ [EvDelay 10] /\
              actions evs = [MomentaryPress] /\ holds evs = [200]
  | None => evs = [EvDelay 10] /\ actions evs = [] /\ holds evs = []
  end.
Proof.
  cbv zeta. rewrite Unconditional_loop_events.
  destruct (snd (Debouncer.tick _ _ _)) as [v|]; [|repeat split].
  split; [reflexivity|]. split; [apply actions_unconditional|].
  destruct v; reflexivity.
Qed.

Lemma handle_clock (env : Env) (v : bool) (w : World StateVerified.Globals) :
  clock (exec (StateVerified.handleTriggerChange env v) w) =
  clock w + (if press_needed v (env POWER_LED_PIN (clock w)) then 200 else 0).
Proof.
  rewrite handle_exec.
  destruct v, (env POWER_LED_PIN (clock w)); cbn [press_needed andb orb negb];
    rewrite ?press_clock; cbn [exec Serial_println log snd clock]; lia.
Qed.

Lemma Unconditional_loop_clock (env : Env) (w : World Unconditional.Globals) :
  clock (exec (Unconditional.loop env) w) =
  clock w + 10 +
  match snd (Debouncer.tick (Unconditional.debouncer (globals w))
               (env TRIGGER_PIN (clock w)) (wrap_ulong (clock w))) with
  | Some _ => 200
  | None => 0
  end.
Proof.
  unfold exec at 1. rewrite Unconditional_loop_spec. cbv zeta.
  destruct (snd (Debouncer.tick _ _ _)) as [v|]; cbn [snd].
  - rewrite delay_clock, press_clock. unfold committed. cbn [clock]. lia.
  - rewrite delay_clock. cbn [clock]. lia.
Qed.

Lemma BurstAware_loop_clock (env : Env) (w : World BurstAware.Globals) :
  clock (exec (BurstAware.loop env) w) =
  clock w + 10 +
  match snd (Debouncer.tick (BurstAware.debouncer (globals w))
               (env TRIGGER_PIN (clock w)) (wrap_ulong (clock w))) with
  | Some _ =>
      200 + (if snd (snd (BurstClassifier.step (classifier (globals w))
                            (wrap_ulong (clock w))))
             then 4000 else 0)
  | None => 0
  end.
Proof.
  unfold exec at 1, BurstAware.loop. rewrite BurstAware_loop_upto_spec.
  cbv zeta.
  destruct (snd (Debouncer.tick _ _ _)) as [v|]; cbn [snd].
  - rewrite delay_clock, press_clock, track_clock. unfold committed.
    cbn [clock globals classifier BurstAware.rapidChangeCount
         BurstAware.firstChangeInWindow].
    fold (classifier (globals w)). unfold BurstClassifier.step.
    destruct (snd (snd (BurstClassifier.step_upto _ _ _))); lia.
  - rewrite delay_clock. cbn [clock]. lia.
Qed.

Lemma StateVerified_loop_clock (env : Env) (w : World StateVerified.Globals) :
  clock (exec (StateVerified.loop env) w) =
  clock w + 10 +
  match snd (Debouncer.tick (StateVerified.debouncer (globals w))
               (env TRIGGER_PIN (clock w)) (wrap_ulong (clock w))) with
  | Some v => if press_needed v (env POWER_LED_PIN (clock w)) then 200 else 0
  | None => 0
  end.
Proof.
  unfold exec at 1. rewrite StateVerified_loop_spec. cbv zeta.
  destruct (snd (Debouncer.tick _ _ _)) as [v|]; cbn [snd].
  - rewrite delay_clock, handle_clock. unfold committed. cbn [clock].
    destruct (press_needed v _); lia.
  - rewrite delay_clock. cbn [clock]. lia.
Qed.

(** X2. A pass of [loop] blocks for exactly 10 ms when it commits nothing.
    A committing pass blocks for 210 ms in the unconditional sketch; for
    210 ms, or 4210 ms when the hard shutdown fires, in the burst-aware one;
    and for 210 ms or, when the PC is already in the requested state, 10 ms
    in the state-verified one. *)
Theorem pass_duration (env : Env) :
  (forall w : World Unconditional.Globals,
      clock (exec (Unconditional.loop env) w) =
      clock w + 10 +
      match snd (Debouncer.tick (Unconditional.debouncer (globals w))
                   (env TRIGGER_PIN (clock w)) (wrap_ulong (clock w))) with
      | Some _ => 200
      | None => 0
      end) /\
  (forall w : World BurstAware.Globals,
      clock (exec (BurstAware.loop env) w) =
      clock w + 10 +
      match snd (Debouncer.tick (BurstAware.debouncer (globals w))
                   (env TRIGGER_PIN (clock w)) (wrap_ulong (clock w))) with
      | Some _ =>
          200 + (if snd (snd (BurstClassifier.step (classifier (globals w))
                                (wrap_ulong (clock w))))
                 then 4000 else 0)
      | None => 0
      end) /\
  (forall w : World StateVerified.Globals,
      clock (exec (StateVerified.loop env) w) =
      clock w + 10 +
      match snd (Debouncer.tick (StateVerified.debouncer (globals w))
                   (env TRIGGER_PIN (clock w)) (wrap_ulong (clock w))) with
      | Some v => if press_needed v (env POWER_LED_PIN (clock w)) then 200 else 0
      | None => 0
      end).
Proof.
  split; [|split]; intros w.
  - apply Unconditional_loop_clock.
  - apply BurstAware_loop_clock.
  - apply StateVerified_loop_clock.
Qed.

(** ** Starting up *)

Ltac pin_lookup :=
  repeat (rewrite lookup_insert_eq
          || (rewrite lookup_insert_ne by (cbv; congruence))).

Lemma events_since_app {G : Type} (w w' : World G) (evs : list Event) :
  trace w' = trace w ++ evs -> events_since w w' = evs.
Proof. intros H. unfold events_since. rewrite H. apply drop_app_length. Qed.

Lemma Unconditional_setup_spec (env : Env) (w : World Unconditional.Globals) :
  let r := env TRIGGER_PIN (clock w + 1000) in
  exec (Unconditional.setup env) w =
  mkWorld (Unconditional.mkGlobals r r (wrap_ulong (clock w + 1000)))
          (clock w + 1000)
          (<[LED_PRESS_ACTIVE := OUTPUT]>
             (<[LED_TRIGGER_STATE := OUTPUT]>
                (<[POWER_BTN_PIN := INPUT]>
                   (<[TRIGGER_PIN := INPUT_PULLUP]> (pinModes w)))))
          (<[LED_TRIGGER_STATE := r]>
             (<[LED_PRESS_ACTIVE := LOW]>
                (<[LED_TRIGGER_STATE := LOW]> (pinLevels w))))
          (trace w ++ setup_events
             "=== ESP32 Power Button Simulator (Debouncing + LEDs) ===" [] r).
Proof.
  destruct w as [[lr st lct] c pm pl tr]. cbv zeta.
  unfold Unconditional.setup, setup_events. run_sketch.
  destruct (env TRIGGER_PIN (c + 1000));
    rewrite <- !app_assoc; reflexivity.
Qed.

Lemma BurstAware_setup_spec (env : Env) (w : World BurstAware.Globals) :
  let r := env TRIGGER_PIN (clock w + 1000) in
  exec (BurstAware.setup env) w =
  mkWorld (BurstAware.mkGlobals r r (wrap_ulong (clock w + 1000))
             (BurstAware.rapidChangeCount (globals w))
             (BurstAware.firstChangeInWindow (globals w)))
          (clock w + 1000)
          (<[LED_PRESS_ACTIVE := OUTPUT]>
             (<[LED_TRIGGER_STATE := OUTPUT]>
                (<[POWER_BTN_PIN := INPUT]>
                   (<[TRIGGER_PIN := INPUT_PULLUP]> (pinModes w)))))
          (<[LED_TRIGGER_STATE := r]>
             (<[LED_PRESS_ACTIVE := LOW]>
                (<[LED_TRIGGER_STATE := LOW]> (pinLevels w))))
          (trace w ++ setup_events
             "=== ESP32 Power Button Simulator (Debouncing + LEDs + Rapid Switching) ==="
             [] r).
Proof.
  destruct w as [[lr st lct cnt first] c pm pl tr]. cbv zeta.
  unfold BurstAware.setup, setup_events. run_sketch.
  destruct (env TRIGGER_PIN (c + 1000));
    rewrite <- !app_assoc; reflexivity.
Qed.

Lemma StateVerified_setup_spec (env : Env) (w : World StateVerified.Globals) :
  let r := env TRIGGER_PIN (clock w + 1000) in
  exec (StateVerified.setup env) w =
  mkWorld (StateVerified.mkGlobals r r (wrap_ulong (clock w + 1000)))
          (clock w + 1000)
          (<[LED_PRESS_ACTIVE := OUTPUT]>
             (<[LED_TRIGGER_STATE := OUTPUT]>
                (<[POWER_BTN_PIN := INPUT]>
                   (<[POWER_LED_PIN := INPUT]>
                      (<[TRIGGER_PIN := INPUT_PULLUP]> (pinModes w))))))
          (<[LED_TRIGGER_STATE := r]>
             (<[LED_PRESS_ACTIVE := LOW]>
                (<[LED_TRIGGER_STATE := LOW]> (pinLevels w))))
          (trace w ++ setup_events
             "=== ESP32 Power Button Simulator with State Verification ==="
             [EvPinMode POWER_LED_PIN INPUT] r).
Proof.
  destruct w as [[lr st lct] c pm pl tr]. cbv zeta.
  unfold StateVerified.setup, setup_events. run_sketch.
  destruct (env TRIGGER_PIN (c + 1000));
    rewrite <- !app_assoc; reflexivity.
Qed.

Lemma setup_events_quiet (banner : string) (r : bool) :
  holds (setup_events banner [] r) = [] /\
  stable_reports (setup_events banner [] r) = [] /\
  holds (setup_events banner [EvPinMode POWER_LED_PIN INPUT] r) = [] /\
  stable_reports (setup_events banner [EvPinMode POWER_LED_PIN INPUT] r) = [].
Proof. repeat split. Qed.

(** X3. [setup], in any of the three sketches and whatever the globals held
    before, takes the debounce state from the trigger line as it finds it
    after its one-second wait: the last reading and the stable state are
    both the level read, and the stability timer starts there. It ends with
    the power-button line an input and the press indicator off, the trigger
    indicator showing the level read, and it neither drives the line nor
    reports a stable change: the switch's position at start-up presses
    nothing. In the burst-aware sketch it leaves the two burst variables
    alone. *)
Theorem setup_adopts_line (env : Env) :
  (forall w : World Unconditional.Globals,
      started Unconditional.debouncer env w (exec (Unconditional.setup env) w)) /\
  (forall w : World BurstAware.Globals,
      started BurstAware.debouncer env w (exec (BurstAware.setup env) w) /\
      classifier (globals (exec (BurstAware.setup env) w))
      = classifier (globals w)) /\
  (forall w : World StateVerified.Globals,
      started StateVerified.debouncer env w (exec (StateVerified.setup env) w) /\
      pinModes (exec (StateVerified.setup env) w) !! POWER_LED_PIN = Some INPUT).
Proof.
  split; [|split]; intros w.
  - rewrite Unconditional_setup_spec. cbv zeta. unfold started, line_released.
    unfold events_since.
    cbn [globals clock pinModes pinLevels trace].
    rewrite drop_app_length.
    destruct (setup_events_quiet
                "=== ESP32 Power Button Simulator (Debouncing + LEDs) ==="
                (env TRIGGER_PIN (clock w + 1000))) as [Hh [Hs _]].
    repeat split; try assumption; pin_lookup; reflexivity.
  - rewrite BurstAware_setup_spec. cbv zeta. unfold started, line_released.
    unfold events_since.
    cbn [globals clock pinModes pinLevels trace].
    rewrite drop_app_length.
    destruct (setup_events_quiet
                "=== ESP32 Power Button Simulator (Debouncing + LEDs + Rapid Switching) ==="
                (env TRIGGER_PIN (clock w + 1000))) as [Hh [Hs _]].
    repeat split; try assumption; pin_lookup; reflexivity.
  - rewrite StateVerified_setup_spec. cbv zeta. unfold started, line_released.
    unfold events_since.
    cbn [globals clock pinModes pinLevels trace].
    rewrite drop_app_length.
    destruct (setup_events_quiet
                "=== ESP32 Power Button Simulator with State Verification ==="
                (env TRIGGER_PIN (clock w + 1000))) as [_ [_ [Hh Hs]]].
    repeat split; try assumption; pin_lookup; reflexivity.
Qed.

(** ** What the passes of a sketch have in common

    The three [loop]s differ in what they do on a commit. What follows holds
    for any pass that runs the debouncer on the sample it takes, logs the
    stable-change report of a commit and nothing like it otherwise, logs only
    its 10 ms wait when it commits nothing, and writes the trigger indicator
    exactly on a commit. *)

Lemma tick_event (s : Debouncer.State) (r : bool) (now : Z) :
  match snd (Debouncer.tick s r now) with
  | Some v =>
      v = r /\ bool_neq v (Debouncer.stableTriggerState s) = true /\
      Debouncer.stableTriggerState (fst (Debouncer.tick s r now)) = v
  | None =>
      Debouncer.stableTriggerState (fst (Debouncer.tick s r now))
      = Debouncer.stableTriggerState s
  end.
Proof.
  pose proof (tick_rule s r now) as [_ [_ H]].
  destruct (Debouncer.tick s r now) as [s1 [v|]]; cbn [fst snd option_list] in *.
  - destruct (ulong_sub now _ >? DEBOUNCE_MS); cbn [andb] in H.
    + destruct (bool_neq r (Debouncer.stableTriggerState s)) eqn:Hne.
      * destruct H as [H1 H2]. injection H2 as ->. auto.
      * destruct H as [_ H2]. discriminate H2.
    + destruct H as [_ H2]. discriminate H2.
  - destruct (ulong_sub now _ >? DEBOUNCE_MS); cbn [andb] in H.
    + destruct (bool_neq r (Debouncer.stableTriggerState s)).
      * destruct H as [_ H2]. discriminate H2.
      * apply H.
    + apply H.
Qed.

Lemma tick_quiet (s : Debouncer.State) (r : bool) (now : Z) :
  Debouncer.lastReading s = r -> Debouncer.stableTriggerState s = r ->
  Debouncer.tick s r now = (s, None).
Proof.
  destruct s as [lr st lct]. cbn [Debouncer.lastReading
    Debouncer.stableTriggerState]. intros -> ->.
  unfold Debouncer.tick.
  cbn [Debouncer.lastReading Debouncer.stableTriggerState
       Debouncer.lastChangeTime].
  assert (H : bool_neq r r = false) by (destruct r; reflexivity).
  rewrite H.
  cbn [Debouncer.lastReading Debouncer.stableTriggerState
       Debouncer.lastChangeTime].
  rewrite H. destruct (ulong_sub now lct >? DEBOUNCE_MS); reflexivity.
Qed.

Lemma last_cons_default {A : Type} (l : list A) :
  forall x d d' : A, List.last (x :: l) d = List.last (x :: l) d'.
Proof.
  induction l as [|y l IH]; intros x d d'; [reflexivity|].
  change (List.last (y :: l) d = List.last (y :: l) d'). apply IH.
Qed.

(** The events of a run of the debouncer alternate, from its stable state
    on, and the last of them is the stable state the run ends in. *)
Lemma run_alternates (ticks : list (bool * Z)) :
  forall s : Debouncer.State,
    let levels := map snd (snd (Debouncer.run s ticks)) in
    alternates_from (Debouncer.stableTriggerState s) levels = true /\
    Debouncer.stableTriggerState (fst (Debouncer.run s ticks))
    = List.last levels (Debouncer.stableTriggerState s).
Proof.
  induction ticks as [|[r t] ticks IH]; intros s; [split; reflexivity|].
  cbv zeta. cbn [Debouncer.run].
  pose proof (tick_event s r (wrap_ulong t)) as He.
  destruct (Debouncer.tick s r (wrap_ulong t)) as [s1 ev]. cbn [fst snd] in He.
  specialize (IH s1). cbv zeta in IH.
  destruct (Debouncer.run s1 ticks) as [s2 evs]. cbn [fst snd] in *.
  destruct IH as [IH1 IH2].
  destruct ev as [v|].
  - destruct He as [_ [Hne Hst]]. rewrite Hst in *.
    cbn [map snd alternates_from]. rewrite Hne, IH1. split; [reflexivity|].
    rewrite IH2. destruct (map snd evs) as [|y l]; [reflexivity|].
    change (List.last (v :: y :: l) (Debouncer.stableTriggerState s))
      with (List.last (y :: l) (Debouncer.stableTriggerState s)).
    apply last_cons_default.
  - rewrite He in *. split; assumption.
Qed.

Section Passes.

Context {G : Type}.
Variable env : Env.
Variable pass : World G -> World G.
Variable view : G -> Debouncer.State.
Variable pass_log : World G -> list Event.

Let outcome (w : World G) : Debouncer.State * option bool :=
  Debouncer.tick (view (globals w)) (env TRIGGER_PIN (clock w))
                 (wrap_ulong (clock w)).

Hypothesis pass_view :
  forall w, view (globals (pass w)) = fst (outcome w).
Hypothesis pass_trace :
  forall w, trace (pass w) = trace w ++ pass_log w.
Hypothesis pass_reports :
  forall w rest,
    stable_reports (pass_log w ++ rest)
    = option_list (snd (outcome w)) ++ stable_reports rest.
Hypothesis pass_idle :
  forall w, snd (outcome w) = None -> pass_log w = [EvDelay 10].
Hypothesis pass_indicator :
  forall w, pinLevels (pass w) !! LED_TRIGGER_STATE
            = match snd (outcome w) with
              | Some v => Some v
              | None => pinLevels w !! LED_TRIGGER_STATE
              end.

Lemma passes_trace (n : nat) :
  forall w, trace (passes pass n w) = trace w ++ events_since w (passes pass n w).
Proof.
  induction n as [|n IH]; intros w; cbn [passes].
  - unfold events_since. rewrite drop_all, app_nil_r. reflexivity.
  - rewrite IH at 1. rewrite pass_trace, <- app_assoc.
    symmetry. f_equal. apply events_since_app.
    rewrite IH at 1. rewrite pass_trace, <- app_assoc. reflexivity.
Qed.

Lemma events_since_pass (n : nat) (w : World G) :
  events_since w (passes pass (S n) w)
  = pass_log w ++ events_since (pass w) (passes pass n (pass w)).
Proof.
  apply events_since_app. cbn [passes].
  rewrite passes_trace, pass_trace, <- app_assoc. reflexivity.
Qed.

(** [n] passes are a run of the debouncer over the samples they took. *)
Lemma passes_run (n : nat) :
  forall w,
    let out := Debouncer.run (view (globals w)) (samples env pass n w) in
    view (globals (passes pass n w)) = fst out /\
    stable_reports (events_since w (passes pass n w)) = map snd (snd out).
Proof.
  induction n as [|n IH]; intros w; cbv zeta.
  - cbn [passes samples Debouncer.run fst snd map]. split; [reflexivity|].
    unfold events_since. rewrite drop_all. reflexivity.
  - rewrite events_since_pass, pass_reports.
    cbn [passes samples Debouncer.run].
    specialize (IH (pass w)). cbv zeta in IH. rewrite pass_view in IH.
    unfold outcome in *.
    destruct (Debouncer.tick _ _ _) as [s1 ev]. cbn [fst snd] in *.
    destruct (Debouncer.run s1 _) as [s2 evs]. cbn [fst snd] in *.
    destruct IH as [IH1 IH2]. rewrite IH2.
    split; [exact IH1|]. destruct ev; reflexivity.
Qed.

Lemma passes_alternate (n : nat) (w : World G) :
  let reports := stable_reports (events_since w (passes pass n w)) in
  alternates_from (Debouncer.stableTriggerState (view (globals w))) reports
  = true /\
  Debouncer.stableTriggerState (view (globals (passes pass n w)))
  = List.last reports (Debouncer.stableTriggerState (view (globals w))).
Proof.
  cbv zeta. destruct (passes_run n w) as [H1 H2]. rewrite H1, H2.
  apply run_alternates.
Qed.

(** With the trigger line steady and the sketch started on it, nothing is
    ever committed, reported or driven. *)
Lemma steady_run (b : bool) (w0 w : World G) :
  trigger_steady env b ->
  view (globals w0) = Debouncer.init b (Debouncer.lastChangeTime (view (globals w0))) ->
  (forall g c pm pl tr d, view (globals (elapse d (mkWorld g c pm pl tr))) = view g) ->
  reaches pass w0 w ->
  Debouncer.lastReading (view (globals w)) = b /\
  Debouncer.stableTriggerState (view (globals w)) = b /\
  exists n, trace w = trace w0 ++ repeat (EvDelay 10) n.
Proof.
  intros Hsteady Hinit Hel R.
  induction R as [|w R IH|w d R IH Hd].
  - rewrite Hinit. repeat split. exists 0%nat. cbn. rewrite app_nil_r.
    reflexivity.
  - destruct IH as [Hl [Hs [n Ht]]].
    pose proof (tick_quiet (view (globals w)) b (wrap_ulong (clock w)) Hl Hs)
      as Hq.
    rewrite pass_view. unfold outcome in *. rewrite (Hsteady (clock w)), Hq.
    cbn [fst]. repeat split; try assumption.
    exists (S n). rewrite pass_trace, pass_idle, Ht, <- app_assoc.
    + f_equal. change [EvDelay 10] with (repeat (EvDelay 10) 1).
      rewrite <- repeat_app. f_equal. lia.
    + unfold outcome. rewrite (Hsteady (clock w)), Hq. reflexivity.
  - destruct IH as [Hl [Hs Ht]]. destruct w as [g c pm pl tr].
    rewrite Hel. cbn [globals] in *. repeat split; assumption.
Qed.

(** The trigger indicator follows the stable state. *)
Lemma indicator_run (w0 w : World G) :
  indicator_shows view w0 ->
  (forall g c pm pl tr d, view (globals (elapse d (mkWorld g c pm pl tr))) = view g) ->
  reaches pass w0 w ->
  indicator_shows view w.
Proof.
  intros H0 Hel R. induction R as [|w R IH|w d R IH Hd].
  - exact H0.
  - unfold indicator_shows in *. rewrite pass_indicator, pass_view.
    pose proof (tick_event (view (globals w)) (env TRIGGER_PIN (clock w))
                  (wrap_ulong (clock w))) as He.
    unfold outcome. destruct (snd (Debouncer.tick _ _ _)) as [v|].
    + destruct He as [_ [_ He]]. rewrite He. reflexivity.
    + rewrite He. exact IH.
  - unfold indicator_shows in *. destruct w as [g c pm pl tr].
    rewrite Hel. exact IH.
Qed.

End Passes.

(** ** The three sketches as such passes *)

Lemma delay_levels {G : Type} (ms : Z) (w : World G) :
  pinLevels (exec (delay ms) w) = pinLevels w.
Proof. reflexivity. Qed.

Lemma press_levels_other {G : Type} (pin : Z) (w : World G) :
  pin <> LED_PRESS_ACTIVE -> pin <> POWER_BTN_PIN ->
  pinLevels (exec simulatePowerButtonPress w) !! pin = pinLevels w !! pin.
Proof.
  intros H1 H2. unfold exec. rewrite simulatePowerButtonPress_spec.
  cbn [snd pinLevels]. rewrite !lookup_insert_ne by congruence. reflexivity.
Qed.

Lemma track_levels_other (max_trigger : Z) (pin : Z) (w : World BurstAware.Globals) :
  pin <> LED_PRESS_ACTIVE -> pin <> POWER_BTN_PIN ->
  pinLevels (exec (BurstAware.trackRapidChanges_upto max_trigger) w) !! pin
  = pinLevels w !! pin.
Proof.
  intros H1 H2. unfold exec. rewrite trackRapidChanges_upto_spec.
  destruct (BurstClassifier.qualifies _ _); cbn [snd pinLevels];
    rewrite ?lookup_insert_ne by congruence; reflexivity.
Qed.

Lemma handle_levels_other (env : Env) (v : bool) (pin : Z)
      (w : World StateVerified.Globals) :
  pin <> LED_PRESS_ACTIVE -> pin <> POWER_BTN_PIN ->
  pinLevels (exec (StateVerified.handleTriggerChange env v) w) !! pin
  = pinLevels w !! pin.
Proof.
  intros H1 H2. rewrite handle_exec.
  destruct v, (env POWER_LED_PIN (clock w));
    rewrite ?press_levels_other by assumption; reflexivity.
Qed.

Lemma indicator_not_press : LED_TRIGGER_STATE <> LED_PRESS_ACTIVE.
Proof. cbv. congruence. Qed.

Lemma indicator_not_line : LED_TRIGGER_STATE <> POWER_BTN_PIN.
Proof. cbv. congruence. Qed.

Lemma Unconditional_pass_trace (env : Env) (w : World Unconditional.Globals) :
  trace (exec (Unconditional.loop env) w)
  = trace w ++ events_of (Unconditional.loop env) w.
Proof. rewrite Unconditional_loop_events. apply Unconditional_loop_trace. Qed.

Lemma Unconditional_pass_reports (env : Env) (w : World Unconditional.Globals)
      (rest : list Event) :
  stable_reports (events_of (Unconditional.loop env) w ++ rest)
  = option_list (snd (Debouncer.tick (Unconditional.debouncer (globals w))
                        (env TRIGGER_PIN (clock w)) (wrap_ulong (clock w))))
    ++ stable_reports rest.
Proof.
  rewrite Unconditional_loop_events.
  destruct (snd (Debouncer.tick _ _ _)) as [v|]; [|reflexivity].
  rewrite <- app_assoc, stable_reports_commit. reflexivity.
Qed.

Lemma Unconditional_pass_idle (env : Env) (w : World Unconditional.Globals) :
  snd (Debouncer.tick (Unconditional.debouncer (globals w))
         (env TRIGGER_PIN (clock w)) (wrap_ulong (clock w))) = None ->
  events_of (Unconditional.loop env) w = [EvDelay 10].
Proof. intros H. rewrite Unconditional_loop_events, H. reflexivity. Qed.

Lemma Unconditional_pass_indicator (env : Env) (w : World Unconditional.Globals) :
  pinLevels (exec (Unconditional.loop env) w) !! LED_TRIGGER_STATE
  = match snd (Debouncer.tick (Unconditional.debouncer (globals w))
                 (env TRIGGER_PIN (clock w)) (wrap_ulong (clock w))) with
    | Some v => Some v
    | None => pinLevels w !! LED_TRIGGER_STATE
    end.
Proof.
  unfold exec at 1. rewrite Unconditional_loop_spec. cbv zeta.
  destruct (snd (Debouncer.tick _ _ _)) as [v|]; cbn [snd]; [|reflexivity].
  rewrite delay_levels.
  rewrite press_levels_other
    by (apply indicator_not_press || apply indicator_not_line).
  unfold committed. cbn [pinLevels]. apply lookup_insert_eq.
Qed.

Lemma BurstAware_pass_trace (env : Env) (w : World BurstAware.Globals) :
  trace (exec (BurstAware.loop env) w)
  = trace w ++ events_of (BurstAware.loop env) w.
Proof.
  unfold BurstAware.loop. rewrite BurstAware_loop_events.
  apply BurstAware_loop_trace.
Qed.

Lemma BurstAware_pass_reports (env : Env) (w : World BurstAware.Globals)
      (rest : list Event) :
  stable_reports (events_of (BurstAware.loop env) w ++ rest)
  = option_list (snd (Debouncer.tick (BurstAware.debouncer (globals w))
                        (env TRIGGER_PIN (clock w)) (wrap_ulong (clock w))))
    ++ stable_reports rest.
Proof.
  unfold BurstAware.loop. rewrite BurstAware_loop_events.
  destruct (snd (Debouncer.tick _ _ _)) as [v|]; [|reflexivity].
  rewrite <- !app_assoc, stable_reports_commit, stable_reports_track.
  reflexivity.
Qed.

Lemma BurstAware_pass_idle (env : Env) (w : World BurstAware.Globals) :
  snd (Debouncer.tick (BurstAware.debouncer (globals w))
         (env TRIGGER_PIN (clock w)) (wrap_ulong (clock w))) = None ->
  events_of (BurstAware.loop env) w = [EvDelay 10].
Proof.
  intros H. unfold BurstAware.loop. rewrite BurstAware_loop_events, H.
  reflexivity.
Qed.

Lemma BurstAware_pass_indicator (env : Env) (w : World BurstAware.Globals) :
  pinLevels (exec (BurstAware.loop env) w) !! LED_TRIGGER_STATE
  = match snd (Debouncer.tick (BurstAware.debouncer (globals w))
                 (env TRIGGER_PIN (clock w)) (wrap_ulong (clock w))) with
    | Some v => Some v
    | None => pinLevels w !! LED_TRIGGER_STATE
    end.
Proof.
  unfold exec at 1, BurstAware.loop. rewrite BurstAware_loop_upto_spec.
  cbv zeta.
  destruct (snd (Debouncer.tick _ _ _)) as [v|]; cbn [snd]; [|reflexivity].
  rewrite delay_levels.
  rewrite press_levels_other, track_levels_other
    by (apply indicator_not_press || apply indicator_not_line).
  unfold committed. cbn [pinLevels]. apply lookup_insert_eq.
Qed.

Lemma StateVerified_pass_trace (env : Env) (w : World StateVerified.Globals) :
  trace (exec (StateVerified.loop env) w)
  = trace w ++ events_of (StateVerified.loop env) w.
Proof. rewrite StateVerified_loop_events. apply StateVerified_loop_trace. Qed.

Lemma StateVerified_pass_reports (env : Env) (w : World StateVerified.Globals)
      (rest : list Event) :
  stable_reports (events_of (StateVerified.loop env) w ++ rest)
  = option_list (snd (Debouncer.tick (StateVerified.debouncer (globals w))
                        (env TRIGGER_PIN (clock w)) (wrap_ulong (clock w))))
    ++ stable_reports rest.
Proof.
  rewrite StateVerified_loop_events.
  destruct (snd (Debouncer.tick _ _ _)) as [v|]; [|reflexivity].
  rewrite <- !app_assoc, stable_reports_commit.
  destruct v, (env POWER_LED_PIN (clock w)); reflexivity.
Qed.

Lemma StateVerified_pass_idle (env : Env) (w : World StateVerified.Globals) :
  snd (Debouncer.tick (StateVerified.debouncer (globals w))
         (env TRIGGER_PIN (clock w)) (wrap_ulong (clock w))) = None ->
  events_of (StateVerified.loop env) w = [EvDelay 10].
Proof. intros H. rewrite StateVerified_loop_events, H. reflexivity. Qed.

Lemma StateVerified_pass_indicator (env : Env) (w : World StateVerified.Globals) :
  pinLevels (exec (StateVerified.loop env) w) !! LED_TRIGGER_STATE
  = match snd (Debouncer.tick (StateVerified.debouncer (globals w))
                 (env TRIGGER_PIN (clock w)) (wrap_ulong (clock w))) with
    | Some v => Some v
    | None => pinLevels w !! LED_TRIGGER_STATE
    end.
Proof.
  unfold exec at 1. rewrite StateVerified_loop_spec. cbv zeta.
  destruct (snd (Debouncer.tick _ _ _)) as [v|]; cbn [snd]; [|reflexivity].
  rewrite delay_levels.
  rewrite handle_levels_other
    by (apply indicator_not_press || apply indicator_not_line).
  unfold committed. cbn [pinLevels]. apply lookup_insert_eq.
Qed.

Lemma Unconditional_reaches (env : Env) (w : World Unconditional.Globals) :
  Unconditional.reachable env w ->
  reaches (exec (Unconditional.loop env))
          (exec (Unconditional.setup env) (boot Unconditional.initial_globals)) w.
Proof.
  induction 1; [apply reaches_start | apply reaches_pass; assumption
               | apply reaches_elapse; assumption].
Qed.

Lemma BurstAware_reaches (env : Env) (w : World BurstAware.Globals) :
  BurstAware.reachable env w ->
  reaches (exec (BurstAware.loop env))
          (exec (BurstAware.setup env) (boot BurstAware.initial_globals)) w.
Proof.
  induction 1; [apply reaches_start | apply reaches_pass; assumption
               | apply reaches_elapse; assumption].
Qed.

Lemma StateVerified_reaches (env : Env) (w : World StateVerified.Globals) :
  StateVerified.reachable env w ->
  reaches (exec (StateVerified.loop env))
          (exec (StateVerified.setup env) (boot StateVerified.initial_globals)) w.
Proof.
  induction 1; [apply reaches_start | apply reaches_pass; assumption
               | apply reaches_elapse; assumption].
Qed.

(** ** The passes run the debouncer *)

(** X4. In each of the three sketches, any number of passes of [loop] from
    any world is one run of the debouncer over the samples the passes took
    (the trigger level and the clock at the start of each pass): the
    debounce variables end as that run ends, and the stable-change reports
    logged are its events, in order. *)
Theorem passes_run_debouncer (env : Env) (n : nat) :
  (forall w : World Unconditional.Globals,
      let pass := exec (Unconditional.loop env) in
      let out := Debouncer.run (Unconditional.debouncer (globals w))
                               (samples env pass n w) in
      Unconditional.debouncer (globals (passes pass n w)) = fst out /\
      stable_reports (events_since w (passes pass n w)) = map snd (snd out)) /\
  (forall w : World BurstAware.Globals,
      let pass := exec (BurstAware.loop env) in
      let out := Debouncer.run (BurstAware.debouncer (globals w))
                               (samples env pass n w) in
      BurstAware.debouncer (globals (passes pass n w)) = fst out /\
      stable_reports (events_since w (passes pass n w)) = map snd (snd out)) /\
  (forall w : World StateVerified.Globals,
      let pass := exec (StateVerified.loop env) in
      let out := Debouncer.run (StateVerified.debouncer (globals w))
                               (samples env pass n w) in
      StateVerified.debouncer (globals (passes pass n w)) = fst out /\
      stable_reports (events_since w (passes pass n w)) = map snd (snd out)).
Proof.
  split; [|split]; intros w.
  - apply (passes_run env _ Unconditional.debouncer
             (events_of (Unconditional.loop env))
             (Unconditional_loop_debouncer env) (Unconditional_pass_trace env)
             (Unconditional_pass_reports env)).
  - apply (passes_run env _ BurstAware.debouncer
             (events_of (BurstAware.loop env))
             (BurstAware_loop_debouncer _ env) (BurstAware_pass_trace env)
             (BurstAware_pass_reports env)).
  - apply (passes_run env _ StateVerified.debouncer
             (events_of (StateVerified.loop env))
             (StateVerified_loop_debouncer env) (StateVerified_pass_trace env)
             (StateVerified_pass_reports env)).
Qed.

(** X5. In each of the three sketches, over any number of passes from any
    world, the stable-change reports alternate: the first differs from the
    stable state the passes started with and each one from the one before,
    so no level is ever reported twice in a row; and the stable state the
    passes end with is the last level reported, or the one they started
    with if none was. *)
Theorem reports_alternate (env : Env) (n : nat) :
  (forall w : World Unconditional.Globals,
      let w' := passes (exec (Unconditional.loop env)) n w in
      let before := Debouncer.stableTriggerState
                      (Unconditional.debouncer (globals w)) in
      alternates_from before (stable_reports (events_since w w')) = true /\
      Debouncer.stableTriggerState (Unconditional.debouncer (globals w'))
      = List.last (stable_reports (events_since w w')) before) /\
  (forall w : World BurstAware.Globals,
      let w' := passes (exec (BurstAware.loop env)) n w in
      let before := Debouncer.stableTriggerState
                      (BurstAware.debouncer (globals w)) in
      alternates_from before (stable_reports (events_since w w')) = true /\
      Debouncer.stableTriggerState (BurstAware.debouncer (globals w'))
      = List.last (stable_reports (events_since w w')) before) /\
  (forall w : World StateVerified.Globals,
      let w' := passes (exec (StateVerified.loop env)) n w in
      let before := Debouncer.stableTriggerState
                      (StateVerified.debouncer (globals w)) in
      alternates_from before (stable_reports (events_since w w')) = true /\
      Debouncer.stableTriggerState (StateVerified.debouncer (globals w'))
      = List.last (stable_reports (events_since w w')) before).
Proof.
  split; [|split]; intros w.
  - apply (passes_alternate env _ Unconditional.debouncer
             (events_of (Unconditional.loop env))
             (Unconditional_loop_debouncer env) (Unconditional_pass_trace env)
             (Unconditional_pass_reports env)).
  - apply (passes_alternate env _ BurstAware.debouncer
             (events_of (BurstAware.loop env))
             (BurstAware_loop_debouncer _ env) (BurstAware_pass_trace env)
             (BurstAware_pass_reports env)).
  - apply (passes_alternate env _ StateVerified.debouncer
             (events_of (StateVerified.loop env))
             (StateVerified_loop_debouncer env) (StateVerified_pass_trace env)
             (StateVerified_pass_reports env)).
Qed.

(** ** A switch that is not touched *)

Lemma holds_from_delays (n : nat) :
  forall driving : option Z, holds_from driving (repeat (EvDelay 10) n) = [].
Proof. induction n as [|n IH]; intros driving; [reflexivity|apply IH]. Qed.

Lemma stable_reports_delays (n : nat) :
  stable_reports (repeat (EvDelay 10) n) = [].
Proof. induction n as [|n IH]; [reflexivity|exact IH]. Qed.

Lemma quiet_log (banner : string) (more : list Event) (r : bool) (n : nat) :
  more = [] \/ more = [EvPinMode POWER_LED_PIN INPUT] ->
  stable_reports (setup_events banner more r ++ repeat (EvDelay 10) n) = [] /\
  holds (setup_events banner more r ++ repeat (EvDelay 10) n) = [].
Proof.
  intros [-> | ->]; (split;
    [ apply stable_reports_delays
    | unfold holds; rewrite holds_from_app, holds_from_delays; reflexivity ]).
Qed.

(** X6. If the trigger line never changes, then in every state any of the
    three sketches can reach, the last reading and the stable state are the
    level of the line, no stable change has been reported, the power-button
    line has never been driven and is an input: a switch that is not touched
    presses nothing, at start-up or later. *)
Theorem steady_line_presses_nothing (env : Env) (b : bool) :
  trigger_steady env b ->
  (forall w, Unconditional.reachable env w ->
             at_rest Unconditional.debouncer b w) /\
  (forall w, BurstAware.reachable env w ->
             at_rest BurstAware.debouncer b w /\
             classifier (globals w) = BurstClassifier.initial) /\
  (forall w, StateVerified.reachable env w ->
             at_rest StateVerified.debouncer b w).
Proof.
  intros Hsteady. split; [|split]; intros w R.
  - destruct (steady_run env _ Unconditional.debouncer
                (events_of (Unconditional.loop env))
                (Unconditional_loop_debouncer env) (Unconditional_pass_trace env)
                (Unconditional_pass_idle env) b
                (exec (Unconditional.setup env) (boot Unconditional.initial_globals)) w Hsteady)
      as [Hl [Hs [n Ht]]].
    + rewrite Unconditional_setup_spec. cbv zeta. rewrite Hsteady. reflexivity.
    + reflexivity.
    + apply Unconditional_reaches. exact R.
    + rewrite Unconditional_setup_spec in Ht. cbn [trace boot app] in Ht.
      unfold at_rest. rewrite Ht.
      destruct (quiet_log
                  "=== ESP32 Power Button Simulator (Debouncing + LEDs) ==="
                  [] (env TRIGGER_PIN (clock (boot Unconditional.initial_globals) + 1000))
                  n (or_introl eq_refl)) as [Q1 Q2].
      repeat split; try assumption.
      * apply (Unconditional_reachable_released env w R).
      * apply (Unconditional_reachable_released env w R).
  - destruct (steady_run env _ BurstAware.debouncer
                (events_of (BurstAware.loop env))
                (BurstAware_loop_debouncer _ env) (BurstAware_pass_trace env)
                (BurstAware_pass_idle env) b
                (exec (BurstAware.setup env) (boot BurstAware.initial_globals)) w Hsteady)
      as [Hl [Hs [n Ht]]].
    + rewrite BurstAware_setup_spec. cbv zeta. rewrite Hsteady. reflexivity.
    + reflexivity.
    + apply BurstAware_reaches. exact R.
    + rewrite BurstAware_setup_spec in Ht. cbn [trace boot app] in Ht.
      unfold at_rest. rewrite Ht.
      destruct (quiet_log
                  "=== ESP32 Power Button Simulator (Debouncing + LEDs + Rapid Switching) ==="
                  [] (env TRIGGER_PIN (clock (boot BurstAware.initial_globals) + 1000))
                  n (or_introl eq_refl)) as [Q1 Q2].
      split.
      * repeat split; try assumption;
          apply (BurstAware_reachable_released env w R).
      * clear Hl Hs Ht Q1 Q2.
        induction R as [|w R IH|w d R IH Hd].
        -- apply setup_classifier.
        -- unfold BurstAware.loop. rewrite BurstAware_loop_classifier.
           assert (Hq : snd (Debouncer.tick (BurstAware.debouncer (globals w))
                               (env TRIGGER_PIN (clock w)) (wrap_ulong (clock w)))
                        = None).
           { destruct (steady_run env _ BurstAware.debouncer
                         (events_of (BurstAware.loop env))
                         (BurstAware_loop_debouncer _ env)
                         (BurstAware_pass_trace env)
                         (BurstAware_pass_idle env) b
                (exec (BurstAware.setup env) (boot BurstAware.initial_globals)) w Hsteady)
               as [Hl [Hs _]].
             - rewrite BurstAware_setup_spec. cbv zeta. rewrite Hsteady.
               reflexivity.
             - reflexivity.
             - apply BurstAware_reaches. exact R.
             - rewrite (Hsteady (clock w)), (tick_quiet _ b _ Hl Hs).
               reflexivity. }
           rewrite Hq. exact IH.
        -- exact IH.
  - destruct (steady_run env _ StateVerified.debouncer
                (events_of (StateVerified.loop env))
                (StateVerified_loop_debouncer env) (StateVerified_pass_trace env)
                (StateVerified_pass_idle env) b
                (exec (StateVerified.setup env) (boot StateVerified.initial_globals)) w Hsteady)
      as [Hl [Hs [n Ht]]].
    + rewrite StateVerified_setup_spec. cbv zeta. rewrite Hsteady. reflexivity.
    + reflexivity.
    + apply StateVerified_reaches. exact R.
    + rewrite StateVerified_setup_spec in Ht. cbn [trace boot app] in Ht.
      unfold at_rest. rewrite Ht.
      destruct (quiet_log
                  "=== ESP32 Power Button Simulator with State Verification ==="
                  [EvPinMode POWER_LED_PIN INPUT]
                  (env TRIGGER_PIN (clock (boot StateVerified.initial_globals) + 1000))
                  n (or_intror eq_refl)) as [Q1 Q2].
      repeat split; try assumption;
        apply (StateVerified_reachable_released env w R).
Qed.

Lemma untouched_reachable (n : nat) :
  BurstAware.reachable untouched_env (untouched n).
Proof.
  unfold untouched.
  generalize (BurstAware.reach_setup untouched_env).
  generalize (exec (BurstAware.setup untouched_env)
                   (boot BurstAware.initial_globals)).
  induction n as [|n IH]; intros w R; cbn [passes]; [exact R|].
  apply IH. apply BurstAware.reach_loop. exact R.
Qed.

Lemma steady_line_presses_nothing_witness :
  trigger_steady untouched_env HIGH /\
  BurstAware.reachable untouched_env (untouched 500) /\
  at_rest BurstAware.debouncer HIGH (untouched 500).
Proof.
  assert (S : trigger_steady untouched_env HIGH) by (intros t; reflexivity).
  split; [exact S|]. split; [apply untouched_reachable|].
  exact (proj1 (proj1 (proj2 (steady_line_presses_nothing untouched_env HIGH S))
                  (untouched 500) (untouched_reachable 500))).
Defined.

(** ** The trigger indicator *)

(** X7. In every state any of the three sketches can reach, the output latch
    of [LED_TRIGGER_STATE] holds the stable trigger state: the indicator is
    set when [setup] adopts the line and rewritten at every commit, and
    nothing else writes it. *)
Theorem indicator_follows_stable_state (env : Env) :
  (forall w, Unconditional.reachable env w ->
             indicator_shows Unconditional.debouncer w) /\
  (forall w, BurstAware.reachable env w ->
             indicator_shows BurstAware.debouncer w) /\
  (forall w, StateVerified.reachable env w ->
             indicator_shows StateVerified.debouncer w).
Proof.
  split; [|split]; intros w R.
  - apply (indicator_run env _ Unconditional.debouncer
             (Unconditional_loop_debouncer env)
             (Unconditional_pass_indicator env)
             (exec (Unconditional.setup env) (boot Unconditional.initial_globals))).
    + unfold indicator_shows. rewrite Unconditional_setup_spec. cbv zeta.
      cbn [pinLevels globals]. apply lookup_insert_eq.
    + reflexivity.
    + apply Unconditional_reaches. exact R.
  - apply (indicator_run env _ BurstAware.debouncer
             (BurstAware_loop_debouncer _ env)
             (BurstAware_pass_indicator env)
             (exec (BurstAware.setup env) (boot BurstAware.initial_globals))).
    + unfold indicator_shows. rewrite BurstAware_setup_spec. cbv zeta.
      cbn [pinLevels globals]. apply lookup_insert_eq.
    + reflexivity.
    + apply BurstAware_reaches. exact R.
  - apply (indicator_run env _ StateVerified.debouncer
             (StateVerified_loop_debouncer env)
             (StateVerified_pass_indicator env)
             (exec (StateVerified.setup env) (boot StateVerified.initial_globals))).
    + unfold indicator_shows. rewrite StateVerified_setup_spec. cbv zeta.
      cbn [pinLevels globals]. apply lookup_insert_eq.
    + reflexivity.
    + apply StateVerified_reaches. exact R.
Qed.

Lemma after_first_change_reachable :
  BurstAware.reachable switched_off_env after_first_change.
Proof.
  unfold after_first_change. cbn [Nat.iter].
  do 8 apply BurstAware.reach_loop. apply BurstAware.reach_setup.
Qed.

Lemma indicator_follows_stable_state_witness :
  BurstAware.reachable switched_off_env after_first_change /\
  BurstAware.stableTriggerState (globals after_first_change) = LOW /\
  pinLevels after_first_change !! LED_TRIGGER_STATE = Some LOW.
Proof.
  split; [apply after_first_change_reachable|].
  split; [vm_compute; reflexivity|].
  exact (proj1 (proj2 (indicator_follows_stable_state switched_off_env))
           after_first_change after_first_change_reachable).
Defined.

(** ** What happens on the inputs during an action *)

Section Blocking.

Context {G : Type}.
Variable pass : Env -> World G -> World G.

Hypothesis pass_reads :
  forall env env' w, agree_at env env' (clock w) -> pass env w = pass env' w.
Hypothesis pass_forward :
  forall env w, clock w <= clock (pass env w).

Lemma passes_agree (env env' : Env) (n : nat) :
  forall w,
    (forall t, clock w <= t -> agree_at env env' t) ->
    passes (pass env') n w = passes (pass env) n w.
Proof.
  induction n as [|n IH]; intros w H; cbn [passes]; [reflexivity|].
  rewrite (pass_reads env env' w) by (apply H; lia).
  apply IH. intros t Ht. apply H.
  pose proof (pass_forward env' w). lia.
Qed.

Lemma passes_blocked (env env' : Env) (n : nat) (w : World G) :
  agree_at env env' (clock w) ->
  (forall t, clock (pass env w) <= t -> agree_at env env' t) ->
  passes (pass env') n w = passes (pass env) n w.
Proof.
  intros H0 H. destruct n as [|n]; [reflexivity|]. cbn [passes].
  rewrite (pass_reads env env' w H0).
  apply passes_agree. intros t Ht. apply H.
  rewrite (pass_reads env env' w H0). exact Ht.
Qed.

End Blocking.

Lemma Unconditional_loop_reads (env env' : Env) (w : World Unconditional.Globals) :
  agree_at env env' (clock w) ->
  exec (Unconditional.loop env) w = exec (Unconditional.loop env') w.
Proof.
  intros H. unfold exec. rewrite !Unconditional_loop_spec. cbv zeta.
  rewrite (H TRIGGER_PIN). reflexivity.
Qed.

Lemma BurstAware_loop_reads (env env' : Env) (w : World BurstAware.Globals) :
  agree_at env env' (clock w) ->
  exec (BurstAware.loop env) w = exec (BurstAware.loop env') w.
Proof.
  intros H. unfold exec, BurstAware.loop.
  rewrite !BurstAware_loop_upto_spec. cbv zeta.
  rewrite (H TRIGGER_PIN). reflexivity.
Qed.

Lemma Unconditional_loop_forward (env : Env) (w : World Unconditional.Globals) :
  clock w <= clock (exec (Unconditional.loop env) w).
Proof.
  rewrite Unconditional_loop_clock.
  destruct (snd (Debouncer.tick _ _ _)); lia.
Qed.

Lemma BurstAware_loop_forward (env : Env) (w : World BurstAware.Globals) :
  clock w <= clock (exec (BurstAware.loop env) w).
Proof.
  rewrite BurstAware_loop_clock.
  destruct (snd (Debouncer.tick _ _ _));
    [destruct (snd (snd (BurstClassifier.step _ _)))|]; lia.
Qed.

(** X8. In the unconditional and the burst-aware sketch a pass of [loop]
    reads one input, TRIGGER_PIN, once, in its first statement. So if two
    environments present the same levels when a pass starts and from the
    moment it ends, then whatever they present in between (while the pass
    holds the line for 200 ms or 4000 ms, say) the sketch does the same in
    both, on that pass and on every later one: changes of the inputs during
    an action that are gone when it ends are never seen. (The state-verified
    sketch reads a second input, POWER_LED_PIN, later in the pass, and is
    not covered.) *)
Theorem inputs_during_a_pass_unseen (env env' : Env) (n : nat) :
  (forall w : World Unconditional.Globals,
      agree_at env env' (clock w) ->
      (forall t, clock (exec (Unconditional.loop env) w) <= t ->
                 agree_at env env' t) ->
      passes (exec (Unconditional.loop env')) n w
      = passes (exec (Unconditional.loop env)) n w) /\
  (forall w : World BurstAware.Globals,
      agree_at env env' (clock w) ->
      (forall t, clock (exec (BurstAware.loop env) w) <= t ->
                 agree_at env env' t) ->
      passes (exec (BurstAware.loop env')) n w
      = passes (exec (BurstAware.loop env)) n w).
Proof.
  split; intros w H0 H.
  - apply (passes_blocked (fun e => exec (Unconditional.loop e))
             Unconditional_loop_reads Unconditional_loop_forward env env' n w H0 H).
  - apply (passes_blocked (fun e => exec (BurstAware.loop e))
             BurstAware_loop_reads BurstAware_loop_forward env env' n w H0 H).
Qed.

Lemma before_first_change_clock :
  clock before_first_change = 1070 /\
  clock (exec (BurstAware.loop switched_off_env) before_first_change) = 1280.
Proof. vm_compute. split; reflexivity. Qed.

Lemma inputs_during_a_pass_unseen_witness :
  agree_at switched_off_env bounce_in_press_env (clock before_first_change) /\
  bounce_in_press_env TRIGGER_PIN 1100 <> switched_off_env TRIGGER_PIN 1100 /\
  passes (exec (BurstAware.loop bounce_in_press_env)) 40 before_first_change
  = passes (exec (BurstAware.loop switched_off_env)) 40 before_first_change.
Proof.
  destruct before_first_change_clock as [C0 C1].
  assert (H0 : agree_at switched_off_env bounce_in_press_env
                        (clock before_first_change)).
  { intros pin. rewrite C0. reflexivity. }
  assert (H : forall t,
             clock (exec (BurstAware.loop switched_off_env) before_first_change)
             <= t -> agree_at switched_off_env bounce_in_press_env t).
  { intros t Ht pin. rewrite C1 in Ht. unfold bounce_in_press_env.
    replace (t <? 1280) with false by (symmetry; apply Z.ltb_ge; exact Ht).
    rewrite andb_false_r. reflexivity. }
  split; [exact H0|]. split; [vm_compute; congruence|].
  exact (proj2 (inputs_during_a_pass_unseen
                  switched_off_env bounce_in_press_env 40)
           before_first_change H0 H).
Defined.

(** ** When a level is committed *)

Lemma run_quiet (r : bool) (ticks : list (bool * Z)) :
  forall s : Debouncer.State,
    Debouncer.lastReading s = r -> Debouncer.stableTriggerState s = r ->
    forallb (fun rt => Bool.eqb (fst rt) r) ticks = true ->
    Debouncer.run s ticks = (s, []).
Proof.
  induction ticks as [|[r' t] ticks IH]; intros s Hl Hs Hall; [reflexivity|].
  cbn [forallb fst] in Hall. apply andb_true_iff in Hall.
  destruct Hall as [Hr Hall]. apply Bool.eqb_prop in Hr. subst r'.
  cbn [Debouncer.run]. rewrite (tick_quiet s r _ Hl Hs).
  rewrite (IH s Hl Hs Hall). reflexivity.
Qed.

Lemma held_since_readings (r : bool) (e : Z) (ticks : list (bool * Z)) :
  held_since r e ticks = true ->
  forallb (fun rt => Bool.eqb (fst rt) r) ticks = true.
Proof.
  unfold held_since. induction ticks as [|rt ticks IH]; [reflexivity|].
  cbn [forallb]. intros H. apply andb_true_iff in H. destruct H as [H1 H2].
  apply andb_true_iff in H1. destruct H1 as [H1 _].
  apply andb_true_iff in H1. destruct H1 as [H1 _].
  rewrite H1, (IH H2). reflexivity.
Qed.

(** X9. Let the trigger line have gone to level [r] at time [e] (the last
    raw edge: the last reading is [r] and the stability timer was started at
    [e]) and stay there for the polls that follow, all within 2^32 ms of
    [e]. If [r] is not yet the stable state, the debouncer commits it at the
    first of these polls that comes more than [DEBOUNCE_MS] after [e], with
    one stable-change event, and at no other; if no poll comes that late,
    or [r] is the stable state already, there is no event. *)
Theorem commit_latency (s : Debouncer.State) (r : bool) (e : Z)
        (ticks : list (bool * Z)) :
  Debouncer.lastReading s = r ->
  Debouncer.lastChangeTime s = wrap_ulong e ->
  held_since r e ticks = true ->
  snd (Debouncer.run s ticks) =
  if bool_neq r (Debouncer.stableTriggerState s) then
    match first_tick_since e (fun d => DEBOUNCE_MS <? d) ticks with
    | Some t => [(t, r)]
    | None => []
    end
  else [].
Proof.
  intros Hl Hlct Hheld.
  destruct (bool_neq r (Debouncer.stableTriggerState s)) eqn:Hne.
  2:{ rewrite (run_quiet r ticks s Hl); [reflexivity| |].
      - destruct r, (Debouncer.stableTriggerState s); cbn in Hne; congruence.
      - apply (held_since_readings r e). exact Hheld. }
  destruct s as [lr st lct].
  cbn [Debouncer.lastReading Debouncer.stableTriggerState
       Debouncer.lastChangeTime] in *. subst lr lct.
  induction ticks as [|[r' t] ticks IH]; [reflexivity|].
  unfold held_since in Hheld. cbn [forallb fst snd] in Hheld.
  apply andb_true_iff in Hheld. destruct Hheld as [H1 Hheld].
  apply andb_true_iff in H1. destruct H1 as [H1 Hhi].
  apply andb_true_iff in H1. destruct H1 as [Hr Hlo].
  apply Bool.eqb_prop in Hr. subst r'.
  apply Z.leb_le in Hlo. apply Z.ltb_lt in Hhi.
  assert (Hrr : bool_neq r r = false) by (destruct r; reflexivity).
  cbn [Debouncer.run]. unfold Debouncer.tick.
  cbn [Debouncer.lastReading Debouncer.stableTriggerState
       Debouncer.lastChangeTime].
  rewrite Hrr.
  cbn [Debouncer.lastReading Debouncer.stableTriggerState
       Debouncer.lastChangeTime].
  rewrite Hne, ulong_sub_wrap, Z.mod_small by lia.
  unfold first_tick_since. cbn [find snd].
  replace (e <=? t) with true by (symmetry; apply Z.leb_le; exact Hlo).
  cbn [andb]. rewrite Z.gtb_ltb.
  destruct (DEBOUNCE_MS <? t - e).
  - rewrite (run_quiet r ticks); [reflexivity|reflexivity|reflexivity|].
    apply (held_since_readings r e). exact Hheld.
  - specialize (IH Hheld). unfold first_tick_since in IH.
    destruct (Debouncer.run _ ticks) as [s2 evs]. cbn [snd] in *.
    exact IH.
Qed.

Lemma commit_latency_witness :
  held_since HIGH 40 (high_from 50 8) = true /\
  snd (Debouncer.run (Debouncer.mkState HIGH LOW 40) (high_from 50 8))
  = [(100, HIGH)].
Proof.
  split; [reflexivity|].
  exact (commit_latency (Debouncer.mkState HIGH LOW 40) HIGH 40 (high_from 50 8)
           eq_refl eq_refl eq_refl).
Defined.

(** ** Three changes in a window, and what follows the shutdown *)

(** X10. If a stable change finds the window expired and the next two come
    within [RAPID_CHANGE_WINDOW_MS] of it, the classifier counts 1, 2, 3 and
    triggers the hard shutdown at the third, not before; it is then left
    with the counter at 0 in the window the first change opened. *)
Theorem third_change_fires (s : BurstClassifier.State) (t1 t2 t3 : Z) :
  BurstClassifier.window_expired s t1 = true ->
  within_window_of t1 [t2; t3] = true ->
  BurstClassifier.run s [t1; t2; t3]
  = (BurstClassifier.mkState 0 t1, [(1, false); (2, false); (3, true)]).
Proof.
  intros Hexp Hin. unfold within_window_of in Hin. cbn [forallb] in Hin.
  apply andb_true_iff in Hin. destruct Hin as [H2 Hin].
  apply andb_true_iff in Hin. destruct Hin as [H3 _].
  assert (E2 : (ulong_sub t2 t1 >? BurstAware.RAPID_CHANGE_WINDOW_MS) = false)
    by (rewrite Z.gtb_ltb; apply Z.ltb_ge; apply Z.leb_le; exact H2).
  assert (E3 : (ulong_sub t3 t1 >? BurstAware.RAPID_CHANGE_WINDOW_MS) = false)
    by (rewrite Z.gtb_ltb; apply Z.ltb_ge; apply Z.leb_le; exact H3).
  destruct s as [c0 f0].
  unfold BurstClassifier.window_expired in Hexp.
  cbn [BurstClassifier.firstChangeInWindow] in Hexp.
  repeat first
    [ rewrite Hexp | rewrite E2 | rewrite E3
    | progress change (int_incr 1) with 2
    | progress change (int_incr 2) with 3
    | progress change (BurstClassifier.qualifies
                         BurstAware.MAX_RAPID_CHANGES_TRIGGER 1) with false
    | progress change (BurstClassifier.qualifies
                         BurstAware.MAX_RAPID_CHANGES_TRIGGER 2) with false
    | progress change (BurstClassifier.qualifies
                         BurstAware.MAX_RAPID_CHANGES_TRIGGER 3) with true
    | progress cbv [BurstClassifier.run BurstClassifier.step
                    BurstClassifier.step_upto BurstClassifier.fire_or_not
                    BurstClassifier.count_event BurstClassifier.window_expired
                    BurstClassifier.rapidChangeCount
                    BurstClassifier.firstChangeInWindow] ].
  reflexivity.
Qed.

Lemma third_change_fires_witness :
  BurstClassifier.window_expired (BurstClassifier.mkState 2 100) 5000 = true /\
  snd (BurstClassifier.run (BurstClassifier.mkState 2 100) [5000; 5400; 5800])
  = [(1, false); (2, false); (3, true)].
Proof.
  split; [reflexivity|].
  exact (f_equal snd (third_change_fires (BurstClassifier.mkState 2 100)
                        5000 5400 5800 eq_refl eq_refl)).
Defined.

(** The same in the running sketch: thrown three times within 600 ms, more
    than two seconds after the start, the switch gets two presses and, at
    the third change, the four-second shutdown before the third press. *)
Lemma thrown_thrice_shuts_down :
  stable_reports (trace (thrown_thrice 320)) = [LOW; HIGH; LOW] /\
  counts_printed (trace (thrown_thrice 320)) = [1; 2; 3] /\
  holds (trace (thrown_thrice 320)) = [200; 200; 4000; 200].
Proof. vm_compute. repeat split. Qed.

Lemma ulong_sub_later (c k f : Z) :
  ulong_sub (wrap_ulong (c + k)) f
  = (ulong_sub (wrap_ulong c) f + k) mod ULONG_MODULUS.
Proof.
  unfold ulong_sub, wrap_ulong.
  transitivity ((c + k - f) mod ULONG_MODULUS);
    [apply Zminus_mod_idemp_l|].
  symmetry. rewrite Zplus_mod_idemp_l.
  replace (c mod ULONG_MODULUS - f + k) with (c mod ULONG_MODULUS + (k - f))
    by lia.
  rewrite Zplus_mod_idemp_l. f_equal. lia.
Qed.

(** X11. After a call of [trackRapidChanges] has fired the hard shutdown,
    the next stable change, if it comes less than 2^32 - 6000 ms (some 49
    days) after the end of the hold, finds the window expired: the four
    seconds of the hold alone are longer than the window. It opens a new
    window, counts 1 and triggers nothing, although the firing branch has
    left [firstChangeInWindow] as it was. The bound is where the 32-bit
    difference [now - firstChangeInWindow] wraps around; a change that comes
    later than that can fall into the old window again
    ([old_window_after_wrap]). *)
Theorem shutdown_closes_window (w : World BurstAware.Globals) (d : Z) :
  snd (snd (BurstClassifier.step (classifier (globals w))
                                 (wrap_ulong (clock w)))) = true ->
  0 <= d < ULONG_MODULUS - 6000 ->
  let w' := exec BurstAware.trackRapidChanges w in
  clock w' = clock w + 4000 /\
  BurstClassifier.step (classifier (globals w')) (wrap_ulong (clock w' + d))
  = (BurstClassifier.mkState 1 (wrap_ulong (clock w' + d)), (1, false)).
Proof.
  intros Hfired Hd. cbv zeta. unfold BurstAware.trackRapidChanges.
  unfold BurstClassifier.step in Hfired.
  pose proof (step_fired_not_expired _ _ _ Hfired) as Hin.
  pose proof (step_window_kept BurstAware.MAX_RAPID_CHANGES_TRIGGER _ _ Hin)
    as Hkept.
  assert (Hclock : clock (exec (BurstAware.trackRapidChanges_upto
                                  BurstAware.MAX_RAPID_CHANGES_TRIGGER) w)
                   = clock w + 4000).
  { rewrite track_clock, Hfired. reflexivity. }
  split; [exact Hclock|].
  rewrite Hclock, track_classifier.
  unfold BurstClassifier.window_expired in Hin.
  rewrite Z.gtb_ltb in Hin. apply Z.ltb_ge in Hin.
  pose proof (ulong_sub_range (wrap_ulong (clock w))
                (BurstClassifier.firstChangeInWindow (classifier (globals w))))
    as Hrange.
  destruct (fst (BurstClassifier.step_upto _ _ _)) as [c' f'].
  cbn [BurstClassifier.firstChangeInWindow] in Hkept. subst f'.
  unfold BurstClassifier.step, BurstClassifier.step_upto,
    BurstClassifier.fire_or_not, BurstClassifier.count_event,
    BurstClassifier.window_expired.
  cbn [BurstClassifier.firstChangeInWindow BurstClassifier.rapidChangeCount].
  replace (clock w + 4000 + d) with (clock w + (4000 + d)) by lia.
  rewrite ulong_sub_later.
  rewrite Z.mod_small
    by (unfold BurstAware.RAPID_CHANGE_WINDOW_MS, ULONG_MODULUS in *; lia).
  replace (_ >? BurstAware.RAPID_CHANGE_WINDOW_MS) with true
    by (symmetry; rewrite Z.gtb_ltb; apply Z.ltb_lt;
        unfold BurstAware.RAPID_CHANGE_WINDOW_MS in *; lia).
  reflexivity.
Qed.

Lemma shutdown_closes_window_witness :
  snd (snd (BurstClassifier.step (classifier (globals burst_step_world))
              (wrap_ulong (clock burst_step_world)))) = true /\
  0 <= 210 < ULONG_MODULUS - 6000 /\
  BurstClassifier.step
    (classifier (globals (exec BurstAware.trackRapidChanges burst_step_world)))
    (wrap_ulong (clock (exec BurstAware.trackRapidChanges burst_step_world) + 210))
  = (BurstClassifier.mkState 1
       (wrap_ulong (clock (exec BurstAware.trackRapidChanges burst_step_world)
                    + 210)),
     (1, false)).
Proof.
  assert (Hd : 0 <= 210 < ULONG_MODULUS - 6000)
    by (unfold ULONG_MODULUS; lia).
  split; [reflexivity|]. split; [exact Hd|].
  exact (proj2 (shutdown_closes_window burst_step_world 210 eq_refl Hd)).
Defined.

(** Beyond the bound the difference has wrapped around. 2^32 - 4200 ms
    after the shutdown of [burst_step_world], [millis] reads 1300, which is
    100 ms into the window that was opened at 1200 ms: the change is counted
    in that window and opens none. *)
Lemma old_window_after_wrap :
  clock (exec BurstAware.trackRapidChanges burst_step_world) = 5500 /\
  classifier (globals (exec BurstAware.trackRapidChanges burst_step_world))
  = BurstClassifier.mkState 0 1200 /\
  wrap_ulong (5500 + (ULONG_MODULUS - 4200)) = 1300 /\
  BurstClassifier.step (BurstClassifier.mkState 0 1200) 1300
  = (BurstClassifier.mkState 1 1200, (1, false)).
Proof. vm_compute. repeat split. Qed.

(** ** The stored values stay in their types *)

Lemma wrap_ulong_in_ulong (z : Z) : in_ulong (wrap_ulong z).
Proof. unfold in_ulong, wrap_ulong. apply Z.mod_pos_bound. reflexivity. Qed.

Lemma tick_lastChangeTime (s : Debouncer.State) (r : bool) (now : Z) :
  in_ulong now -> in_ulong (Debouncer.lastChangeTime s) ->
  in_ulong (Debouncer.lastChangeTime (fst (Debouncer.tick s r now))).
Proof.
  intros Hnow Hs. pose proof (tick_rule s r now) as [_ [H _]]. rewrite H.
  destruct (bool_neq r (Debouncer.lastReading s)); assumption.
Qed.

Lemma step_firstChangeInWindow (max_trigger : Z) (s : BurstClassifier.State)
      (now : Z) :
  in_ulong now -> in_ulong (BurstClassifier.firstChangeInWindow s) ->
  in_ulong (BurstClassifier.firstChangeInWindow
              (fst (BurstClassifier.step_upto max_trigger s now))).
Proof.
  intros Hnow Hs.
  unfold BurstClassifier.step_upto, BurstClassifier.fire_or_not,
    BurstClassifier.count_event.
  destruct (BurstClassifier.window_expired s now);
    destruct (BurstClassifier.qualifies _ _); assumption.
Qed.

Section Ranges.

Context {G : Type}.
Variable env : Env.
Variable pass : World G -> World G.
Variable view : G -> Debouncer.State.

Hypothesis pass_view :
  forall w, view (globals (pass w))
            = fst (Debouncer.tick (view (globals w)) (env TRIGGER_PIN (clock w))
                                  (wrap_ulong (clock w))).

Lemma timer_in_range (w0 w : World G) :
  in_ulong (Debouncer.lastChangeTime (view (globals w0))) ->
  reaches pass w0 w ->
  in_ulong (Debouncer.lastChangeTime (view (globals w))).
Proof.
  intros H0 R. induction R as [|w R IH|w d R IH Hd].
  - exact H0.
  - rewrite pass_view.
    apply tick_lastChangeTime; [apply wrap_ulong_in_ulong|exact IH].
  - destruct w; exact IH.
Qed.

End Ranges.

Lemma BurstAware_window_in_range (env : Env) (w : World BurstAware.Globals) :
  BurstAware.reachable env w ->
  in_ulong (BurstClassifier.firstChangeInWindow (classifier (globals w))).
Proof.
  induction 1 as [|w R IH|w d R IH Hd].
  - rewrite setup_classifier. cbv. split; congruence.
  - unfold BurstAware.loop. rewrite BurstAware_loop_classifier.
    destruct (snd (Debouncer.tick _ _ _)); [|exact IH].
    apply step_firstChangeInWindow; [apply wrap_ulong_in_ulong|exact IH].
  - exact IH.
Qed.

(** X12. In every state the sketches can reach, the stored times are values
    of an [unsigned long] ([lastChangeTime], and in the burst-aware sketch
    [firstChangeInWindow], lie in 0 .. 2^32 - 1), and [rapidChangeCount] is
    an [int] below [INT_MAX]: its increment in [trackRapidChanges] never
    overflows. *)
Theorem stored_values_in_range (env : Env) :
  (forall w, Unconditional.reachable env w ->
             in_ulong (Unconditional.lastChangeTime (globals w))) /\
  (forall w, BurstAware.reachable env w ->
             in_ulong (BurstAware.lastChangeTime (globals w)) /\
             in_ulong (BurstAware.firstChangeInWindow (globals w)) /\
             INT_MIN <= BurstAware.rapidChangeCount (globals w) < INT_MAX /\
             int_incr (BurstAware.rapidChangeCount (globals w))
             = BurstAware.rapidChangeCount (globals w) + 1) /\
  (forall w, StateVerified.reachable env w ->
             in_ulong (StateVerified.lastChangeTime (globals w))).
Proof.
  split; [|split]; intros w R.
  - apply (timer_in_range env _ Unconditional.debouncer
             (Unconditional_loop_debouncer env)
             (exec (Unconditional.setup env) (boot Unconditional.initial_globals)) w);
      [|apply Unconditional_reaches; exact R].
    rewrite Unconditional_setup_spec. apply wrap_ulong_in_ulong.
  - assert (Hc : INT_MIN <= BurstAware.rapidChangeCount (globals w) < INT_MAX).
    { pose proof (reachable_count env w R) as H.
      cbn [classifier BurstClassifier.rapidChangeCount] in H.
      unfold INT_MIN, INT_MAX. lia. }
    split; [|split; [|split]].
    + apply (timer_in_range env (exec (BurstAware.loop env))
               BurstAware.debouncer
               (BurstAware_loop_debouncer
                  BurstAware.MAX_RAPID_CHANGES_TRIGGER env)
             (exec (BurstAware.setup env) (boot BurstAware.initial_globals)) w);
        [|apply BurstAware_reaches; exact R].
      rewrite BurstAware_setup_spec. apply wrap_ulong_in_ulong.
    + apply (BurstAware_window_in_range env w R).
    + exact Hc.
    + apply int_incr_small. exact Hc.
  - apply (timer_in_range env _ StateVerified.debouncer
             (StateVerified_loop_debouncer env)
             (exec (StateVerified.setup env) (boot StateVerified.initial_globals)) w);
      [|apply StateVerified_reaches; exact R].
    rewrite StateVerified_setup_spec. apply wrap_ulong_in_ulong.
Qed.

Lemma stored_values_in_range_witness :
  BurstAware.reachable switched_off_env after_first_change /\
  BurstAware.lastChangeTime (globals after_first_change) = 1010 /\
  in_ulong (BurstAware.lastChangeTime (globals after_first_change)) /\
  INT_MIN <= BurstAware.rapidChangeCount (globals after_first_change) < INT_MAX.
Proof.
  split; [apply after_first_change_reachable|].
  split; [vm_compute; reflexivity|].
  destruct (proj1 (proj2 (stored_values_in_range switched_off_env))
              after_first_change after_first_change_reachable)
    as [H1 [_ [H3 _]]].
  split; assumption.
Defined.

(** ** Presses over a whole run *)

Lemma holds_app_released (a b : list Event) :
  log_released a -> holds (a ++ b) = holds a ++ holds b.
Proof.
  intros [Ha _]. unfold holds. rewrite holds_from_app, Ha. reflexivity.
Qed.

Lemma Unconditional_reports_split (env : Env) (w : World Unconditional.Globals) :
  Unconditional.reachable env w ->
  forall rest, stable_reports (trace w ++ rest)
               = stable_reports (trace w) ++ stable_reports rest.
Proof.
  induction 1 as [|w R IH|w d R IH Hd]; intros rest.
  - rewrite Unconditional_setup_spec. reflexivity.
  - pose proof (Unconditional_pass_reports env w []) as Hev.
    cbn [stable_reports] in Hev. rewrite !app_nil_r in Hev.
    rewrite Unconditional_pass_trace, <- app_assoc.
    rewrite !IH, Unconditional_pass_reports, Hev, app_assoc. reflexivity.
  - apply IH.
Qed.

(** X13. In every state the unconditional sketch can reach, the power-button
    line has been held once for 200 ms for each stable change reported so
    far, and not otherwise: as many presses as committed changes of the
    switch, none at start-up, none without a change. *)
Theorem unconditional_press_per_change (env : Env)
        (w : World Unconditional.Globals) :
  Unconditional.reachable env w ->
  holds (trace w) = repeat 200 (length (stable_reports (trace w))).
Proof.
  induction 1 as [|w R IH|w d R IH Hd].
  - rewrite Unconditional_setup_spec. reflexivity.
  - rewrite Unconditional_pass_trace.
    rewrite holds_app_released by (apply (Unconditional_log_released env w R)).
    rewrite (Unconditional_reports_split env w R), length_app, repeat_app, IH.
    f_equal.
    pose proof (Unconditional_pass_reports env w []) as Hev.
    cbn [stable_reports] in Hev. rewrite !app_nil_r in Hev.
    rewrite Hev, Unconditional_loop_events.
    destruct (snd (Debouncer.tick _ _ _)) as [v|]; [|reflexivity].
    destruct v; reflexivity.
  - exact IH.
Qed.

Lemma thrown_twice_unconditional_reachable (n : nat) :
  Unconditional.reachable thrown_twice_env (thrown_twice_unconditional n).
Proof.
  unfold thrown_twice_unconditional.
  generalize (Unconditional.reach_setup thrown_twice_env).
  generalize (exec (Unconditional.setup thrown_twice_env)
                   (boot Unconditional.initial_globals)).
  induction n as [|n IH]; intros w R; cbn [passes]; [exact R|].
  apply IH. apply Unconditional.reach_loop. exact R.
Qed.

Lemma unconditional_press_per_change_witness :
  Unconditional.reachable thrown_twice_env (thrown_twice_unconditional 130) /\
  stable_reports (trace (thrown_twice_unconditional 130)) = [LOW; HIGH] /\
  holds (trace (thrown_twice_unconditional 130)) = [200; 200].
Proof.
  pose proof (thrown_twice_unconditional_reachable 130) as R.
  assert (S : stable_reports (trace (thrown_twice_unconditional 130))
              = [LOW; HIGH]) by (vm_compute; reflexivity).
  split; [exact R|]. split; [exact S|].
  rewrite (unconditional_press_per_change thrown_twice_env _ R), S.
  reflexivity.
Defined.

(** ** The state-verified sketch with the PC in step *)

Lemma loop_with_lag_spec (lag : Z) (env : Env) (w : World StateVerified.Globals) :
  let r := env TRIGGER_PIN (clock w) in
  let out := Debouncer.tick (StateVerified.debouncer (globals w)) r
                            (wrap_ulong (clock w)) in
  let g' := StateVerified.mkGlobals
              (Debouncer.lastReading (fst out))
              (Debouncer.stableTriggerState (fst out))
              (Debouncer.lastChangeTime (fst out)) in
  loop_with_lag lag env w =
  match snd out with
  | Some v =>
      (tt, exec (delay 10)
             (exec (StateVerified.handleTriggerChange env v)
                (elapse lag (committed g' v w))))
  | None => (tt, exec (delay 10) (mkWorld g' (clock w) (pinModes w)
                                          (pinLevels w) (trace w)))
  end.
Proof.
  destruct w as [[lr st lct] c pm pl tr].
  cbv zeta. unfold loop_with_lag.
  cbn [globals clock pinModes pinLevels trace].
  unfold bind at 1, digitalRead at 1. cbn [clock].
  generalize (env TRIGGER_PIN c) as r. intros r.
  loop_cases c lct r lr st;
    unfold busy, elapse; run_sketch;
    rewrite <- ?app_assoc; cbn [app];
    try (destruct (StateVerified.handleTriggerChange _ _ _) as [[] w1]);
    run_sketch; reflexivity.
Qed.

(** With no time between the reads, the pass is [StateVerified.loop]. *)
Lemma loop_with_lag_zero (env : Env) (w : World StateVerified.Globals) :
  loop_with_lag 0 env w = StateVerified.loop env w.
Proof.
  rewrite loop_with_lag_spec, StateVerified_loop_spec. cbv zeta.
  destruct (snd (Debouncer.tick _ _ _)) as [v|]; [|reflexivity].
  unfold elapse, committed. cbn [globals clock pinModes pinLevels trace].
  rewrite Z.add_0_r. reflexivity.
Qed.

Lemma loop_with_lag_trace (lag : Z) (env : Env) (w : World StateVerified.Globals) :
  trace (exec (loop_with_lag lag env) w) =
  trace w ++
  match snd (Debouncer.tick (StateVerified.debouncer (globals w))
                            (env TRIGGER_PIN (clock w)) (wrap_ulong (clock w))) with
  | Some v =>
      stable_report v
      ++ match v, env POWER_LED_PIN (clock w + lag) with
         | true, false | false, true => press_events
         | true, true => [EvPrintln "PC is already ON, no action needed."]
         | false, false => [EvPrintln "PC is already OFF, no action needed."]
         end
      ++ [EvDelay 10]
  | None => [EvDelay 10]
  end.
Proof.
  unfold exec at 1.
  rewrite loop_with_lag_spec. cbv zeta.
  destruct (snd (Debouncer.tick _ _ _)) as [v|]; cbn [snd].
  - rewrite delay_trace, handle_trace.
    unfold elapse, committed. cbn [trace clock].
    rewrite <- !app_assoc. reflexivity.
  - rewrite delay_trace. reflexivity.
Qed.

Lemma in_step_run (env : Env) (timing : list (Z * Z)) :
  (forall t, env POWER_LED_PIN t = env TRIGGER_PIN t) ->
  forall w : World StateVerified.Globals,
    log_released (trace w) ->
    steady_between_reads env timing w = true ->
    holds (trace (passes_with_lags env timing w)) = holds (trace w).
Proof.
  intros Hsync. induction timing as [|[idle lag] timing IH]; intros w Hrel Hsteady;
    [reflexivity|].
  cbn [passes_with_lags steady_between_reads] in *. cbv zeta in Hsteady.
  apply andb_true_iff in Hsteady. destruct Hsteady as [Hpass Hrest].
  assert (Hlog : trace (exec (loop_with_lag lag env) (elapse idle w))
                 = trace w ++ drop (length (trace w))
                                   (trace (exec (loop_with_lag lag env)
                                                (elapse idle w)))).
  { rewrite loop_with_lag_trace. cbn [elapse trace].
    rewrite drop_app_length. reflexivity. }
  assert (Hquiet : holds (drop (length (trace w))
                            (trace (exec (loop_with_lag lag env) (elapse idle w))))
                   = [] /\
                   log_released (drop (length (trace w))
                            (trace (exec (loop_with_lag lag env) (elapse idle w))))).
  { rewrite loop_with_lag_trace. cbn [elapse trace].
    rewrite drop_app_length.
    unfold commits in Hpass.
    pose proof (tick_event (StateVerified.debouncer (globals (elapse idle w)))
                  (env TRIGGER_PIN (clock (elapse idle w)))
                  (wrap_ulong (clock (elapse idle w)))) as He.
    destruct (snd (Debouncer.tick _ _ _)) as [v|];
      [|split; [reflexivity|split; reflexivity]].
    destruct He as [He _]. cbn [negb orb] in Hpass.
    apply Bool.eqb_prop in Hpass.
    rewrite Hsync, Hpass, <- He.
    destruct v; split; try reflexivity; split; reflexivity. }
  destruct Hquiet as [Hholds Hreleased].
  rewrite IH; [| |exact Hrest].
  - rewrite Hlog, holds_app_released by exact Hrel.
    rewrite Hholds. apply app_nil_r.
  - rewrite Hlog. apply log_released_app; assumption.
Qed.

(** X14. The state-verified sketch with the PC in step with the switch: the
    power LED always reads what the trigger line reads. In a run of passes
    from [setup], with any time between the passes and any time between the
    two reads of a pass, the sketch never drives the power-button line,
    provided that in each pass that commits a stable change the trigger line
    reads at the second read (of POWER_LED_PIN, in [handleTriggerChange])
    what it read at the first. Without the proviso it does press
    ([change_between_reads_presses]). *)
Theorem in_step_presses_nothing (env : Env) (timing : list (Z * Z)) :
  (forall t, env POWER_LED_PIN t = env TRIGGER_PIN t) ->
  steady_between_reads env timing (state_verified_start env) = true ->
  holds (trace (passes_with_lags env timing (state_verified_start env))) = [].
Proof.
  intros Hsync Hsteady.
  rewrite (in_step_run env timing Hsync (state_verified_start env));
    [| |exact Hsteady].
  - unfold state_verified_start. rewrite StateVerified_setup_spec. reflexivity.
  - apply (StateVerified_log_released env). apply StateVerified.reach_setup.
Qed.

Lemma in_step_presses_nothing_witness :
  (forall t, in_step_env POWER_LED_PIN t = in_step_env TRIGGER_PIN t) /\
  steady_between_reads in_step_env (one_ms_lags 20)
                       (state_verified_start in_step_env) = true /\
  stable_reports (trace (passes_with_lags in_step_env (one_ms_lags 20)
                                          (state_verified_start in_step_env)))
  = [LOW] /\
  holds (trace (passes_with_lags in_step_env (one_ms_lags 20)
                                 (state_verified_start in_step_env))) = [].
Proof.
  assert (H : forall t, in_step_env POWER_LED_PIN t = in_step_env TRIGGER_PIN t)
    by (intros t; reflexivity).
  assert (S : steady_between_reads in_step_env (one_ms_lags 20)
                                   (state_verified_start in_step_env) = true)
    by (vm_compute; reflexivity).
  split; [exact H|]. split; [exact S|].
  split; [vm_compute; reflexivity|].
  exact (in_step_presses_nothing in_step_env (one_ms_lags 20) H S).
Defined.

(** A change between the two reads. On [back_in_step_env] the eighth pass
    starts at 1070 ms, reads LOW on the trigger line and commits it; 1 ms
    later the switch and the PC are back at HIGH, [handleTriggerChange]
    finds the power LED on and presses. With no time between the reads the
    same pass finds the PC off and does nothing. *)
Lemma change_between_reads_presses :
  (forall t, back_in_step_env POWER_LED_PIN t = back_in_step_env TRIGGER_PIN t) /\
  steady_between_reads back_in_step_env (one_ms_lags 8)
                       (state_verified_start back_in_step_env) = false /\
  stable_reports (trace (passes_with_lags back_in_step_env (one_ms_lags 8)
                           (state_verified_start back_in_step_env))) = [LOW] /\
  holds (trace (passes_with_lags back_in_step_env (one_ms_lags 8)
                  (state_verified_start back_in_step_env))) = [200] /\
  holds (trace (passes (exec (StateVerified.loop back_in_step_env)) 8
                  (state_verified_start back_in_step_env))) = [].
Proof.
  split; [intros t; reflexivity|].
  vm_compute. repeat split.
Qed.

(** X16. What one pass of the state-verified sketch sees of its inputs: the
    level of TRIGGER_PIN as the pass starts and, if the pass commits a
    stable change, the level of POWER_LED_PIN at the read in
    [handleTriggerChange], [lag] ms later. Two environments that agree on
    these two samples give the same pass, whatever else they present,
    before, between or after the reads, during the press included. *)
Theorem state_verified_pass_reads (env env' : Env) (lag : Z)
        (w : World StateVerified.Globals) :
  env TRIGGER_PIN (clock w) = env' TRIGGER_PIN (clock w) ->
  (commits env w = true ->
   env POWER_LED_PIN (clock w + lag) = env' POWER_LED_PIN (clock w + lag)) ->
  exec (loop_with_lag lag env') w = exec (loop_with_lag lag env) w.
Proof.
  intros Ht Hled.
  assert (E : loop_with_lag lag env' w = loop_with_lag lag env w).
  { rewrite !loop_with_lag_spec. cbv zeta. rewrite <- Ht.
    unfold commits in Hled.
    destruct (snd (Debouncer.tick _ _ _)) as [v|]; [|reflexivity].
    rewrite !handle_exec. unfold elapse, committed. cbn [clock].
    rewrite (Hled eq_refl). reflexivity. }
  unfold exec. rewrite E. reflexivity.
Qed.

(** The pass that commits LOW at 1070 ms, with the power LED read 1 ms
    later: [press_through_env] differs from [in_step_env] from 1072 ms on,
    all through what follows the read, and the pass is the same. *)
Lemma state_verified_pass_reads_witness :
  clock (passes_with_lags in_step_env (one_ms_lags 7)
                          (state_verified_start in_step_env)) = 1070 /\
  commits in_step_env (passes_with_lags in_step_env (one_ms_lags 7)
                                        (state_verified_start in_step_env))
  = true /\
  press_through_env TRIGGER_PIN 1100 <> in_step_env TRIGGER_PIN 1100 /\
  exec (loop_with_lag 1 press_through_env)
       (passes_with_lags in_step_env (one_ms_lags 7)
                         (state_verified_start in_step_env))
  = exec (loop_with_lag 1 in_step_env)
         (passes_with_lags in_step_env (one_ms_lags 7)
                           (state_verified_start in_step_env)).
Proof.
  assert (C : clock (passes_with_lags in_step_env (one_ms_lags 7)
                                      (state_verified_start in_step_env)) = 1070)
    by (vm_compute; reflexivity).
  split; [exact C|]. split; [vm_compute; reflexivity|].
  split; [vm_compute; congruence|].
  apply (state_verified_pass_reads in_step_env press_through_env 1).
  - rewrite C. reflexivity.
  - intros _. rewrite C. reflexivity.
Defined.
